(** * highlight-search-nova: vector store, matching engine and highlight pipeline

    A shallow embedding of
      - [utils/dimension_vector_search.py]  (class DimensionAwareVectorSearch),
      - [utils/highlight_extractor.py]      (class HighlightExtractor),
      - [app.py]                            (the worker [process_highlight], the
                                             views [get_job_status],
                                             [download_highlight] and [search],
                                             and [allowed_file]),
      - [utils/s3_vectors_handler.py]       (class S3VectorsHandler),
      - [utils/s3_vector_search.py]         (class S3VectorSearch),
    together with the properties of the specification that concern them and
    further properties read off the code.

    Conventions of the embedding.
      - A Python [float] / [numpy.float64] is an IEEE-754 binary64 value, taken
        from the standard library's executable specification [spec_float]
        (precision 53, maximal exponent 1024).  [np.dot] on one-dimensional
        arrays is the sum of the component products accumulated from left to
        right, [np.linalg.norm] is the square root of [dot x x].
      - A Python [int] is a [Z]; a [str] is the [string] of the bytes of its
        UTF-8 encoding, and the operations that count or classify characters
        ([strip], slicing) work on the characters these bytes encode.
      - A Python [dict] is an association list in insertion order: assignment
        to an existing key keeps its position, assignment to a new key appends.
      - [list.sort] is a stable sort; it is written as an insertion sort, which
        computes the same list whenever the keys are totally pre-ordered.
      - A Python exception is a value of an inductive type; a method that can
        raise returns a sum, and a method that mutates an object threads it
        through a small state-and-error monad.
      - External services (the S3 bucket, the models behind Bedrock, ffmpeg and
        ffprobe) are interfaces; their answers are arbitrary functions of the
        request. *)

From Stdlib Require Import ZArith List Bool String Ascii Lia.
From Stdlib Require Import Sorted Permutation DecimalString.
From Stdlib Require Import Floats.SpecFloat.
Import ListNotations.

Local Open Scope Z_scope.

(* ================================================================== *)
(** * Python values *)

(** ** binary64 floating point *)
Module PyFloat.

Definition float : Type := spec_float.

Definition prec : Z := 53.
Definition emax : Z := 1024.

Definition add : float -> float -> float := SFadd prec emax.
Definition mul : float -> float -> float := SFmul prec emax.
Definition div : float -> float -> float := SFdiv prec emax.
Definition sqrt : float -> float := SFsqrt prec emax.

Definition zero : float := S754_zero false.

(** [float(n)] for an integer [n] *)
Definition of_Z (n : Z) : float := binary_normalize prec emax n 0 false.

(** [int(x)]: truncation towards zero; [None] stands for the [ValueError] /
    [OverflowError] raised on NaN and on the infinities *)
Definition to_Z (x : float) : option Z :=
  match x with
  | S754_zero _ => Some 0
  | S754_finite s m e =>
      Some (cond_Zopp s (if 0 <=? e then Z.shiftl (Zpos m) e
                         else Z.shiftr (Zpos m) (- e)))
  | S754_infinity _ | S754_nan => None
  end.

(** [x == y], [x < y], [x > y] *)
Definition eqb : float -> float -> bool := SFeqb.
Definition ltb : float -> float -> bool := SFltb.
Definition gtb (x y : float) : bool := SFltb y x.

(** [np.isnan], [np.isinf] *)
Definition isnan (x : float) : bool :=
  match x with S754_nan => true | _ => false end.
Definition isinf (x : float) : bool :=
  match x with S754_infinity _ => true | _ => false end.

Definition finite (x : float) : Prop := isnan x = false /\ isinf x = false.

(** [x >= y] *)
Definition geb (x y : float) : bool := SFleb y x.

(** the value is a representable binary64 number *)
Definition valid (x : float) : bool := valid_binary prec emax x.

End PyFloat.

Definition vector : Type := list PyFloat.float.

(** ** strings *)
Module PyStr.

(** [str(n)] for an integer *)
Definition of_Z (n : Z) : string := NilZero.string_of_int (Z.to_int n).

(** [f"{n:04d}"] *)
Definition pad4 (n : Z) : string :=
  let digits := NilZero.string_of_uint (N.to_uint (Z.abs_N n)) in
  let width := if n <? 0 then 3%nat else 4%nat in
  let zeros := String.concat "" (repeat "0"%string (width - String.length digits)) in
  let sign := if n <? 0 then "-"%string else ""%string in
  (sign ++ zeros ++ digits)%string.

(** A [str] is held as the bytes of its UTF-8 encoding.  A byte of the form
    [10xxxxxx] continues the character that the bytes before it began. *)
Definition continues (c : ascii) : bool :=
  let n := nat_of_ascii c in
  ((128 <=? n) && (n <? 192))%nat.

(** the characters of a string in order, each as the bytes that encode it *)
Fixpoint chars (s : string) : list string :=
  match s with
  | EmptyString => []
  | String c s' =>
      match s' with
      | String d _ =>
          if continues d
          then match chars s' with
               | ch :: rest => String c ch :: rest
               | [] => [String c EmptyString]
               end
          else String c EmptyString :: chars s'
      | EmptyString => [String c EmptyString]
      end
  end.

(** [''.join(l)] *)
Definition join (l : list string) : string :=
  fold_right String.append EmptyString l.

(** the bytes of [t] all continue a character *)
Fixpoint continuation (t : string) : bool :=
  match t with
  | EmptyString => true
  | String c t' => continues c && continuation t'
  end.

(** one character: a byte and the bytes that continue it *)
Definition is_char (ch : string) : bool :=
  match ch with
  | String _ t => continuation t
  | EmptyString => false
  end.

(** a character whose first byte does not continue another *)
Definition begins (ch : string) : bool :=
  match ch with
  | String c _ => negb (continues c)
  | EmptyString => false
  end.

(** [s[:n]] for [n >= 0] *)
Definition prefix (n : nat) (s : string) : string := join (firstn n (chars s)).

(** [c.isspace()] on the characters below 128 *)
Definition isspace (c : ascii) : bool :=
  let n := nat_of_ascii c in
  ((9 <=? n) && (n <=? 13) || (28 <=? n) && (n <=? 32))%nat.

Definition of_bytes (l : list nat) : string :=
  string_of_list_ascii (map ascii_of_nat l).

(** the white space above 127: U+0085, U+00A0, U+1680, U+2000 to U+200A,
    U+2028, U+2029, U+202F, U+205F and U+3000 *)
Definition wide_spaces : list string :=
  map of_bytes
    [ [194; 133]; [194; 160]; [225; 154; 128];
      [226; 128; 128]; [226; 128; 129]; [226; 128; 130]; [226; 128; 131];
      [226; 128; 132]; [226; 128; 133]; [226; 128; 134]; [226; 128; 135];
      [226; 128; 136]; [226; 128; 137]; [226; 128; 138];
      [226; 128; 168]; [226; 128; 169]; [226; 128; 175];
      [226; 129; 159]; [227; 128; 128] ]%nat.

(** [ch.isspace()] for a character: the white space that [strip] removes *)
Definition isspace_char (ch : string) : bool :=
  match ch with
  | String c EmptyString => isspace c
  | _ => existsb (String.eqb ch) wide_spaces
  end.

Fixpoint lstrip_chars (l : list string) : list string :=
  match l with
  | [] => []
  | ch :: l' => if isspace_char ch then lstrip_chars l' else l
  end.

(** an all-blank list becomes empty *)
Fixpoint rstrip_chars (l : list string) : list string :=
  match l with
  | [] => []
  | ch :: l' =>
      match rstrip_chars l' with
      | [] => if isspace_char ch then [] else [ch]
      | r => ch :: r
      end
  end.

(** [s.lstrip()], [s.rstrip()] *)
Definition lstrip (s : string) : string := join (lstrip_chars (chars s)).
Definition rstrip (s : string) : string := join (rstrip_chars (chars s)).

(** [s.strip()] *)
Definition strip (s : string) : string :=
  join (rstrip_chars (lstrip_chars (chars s))).

(** [s.split(sep)] for a one-character separator; [cur] is the piece being
    read *)
Fixpoint split_from (sep : ascii) (cur : string) (s : string) : list string :=
  match s with
  | EmptyString => [cur]
  | String c s' =>
      if Ascii.eqb c sep then cur :: split_from sep EmptyString s'
      else split_from sep (cur ++ String c EmptyString)%string s'
  end.

Definition split (sep : ascii) (s : string) : list string :=
  split_from sep EmptyString s.

Definition newline : ascii := ascii_of_nat 10.

(** [s.startswith(p)] *)
Definition startswith (p s : string) : bool := String.prefix p s.

(** [s.endswith(p)] *)
Definition endswith (p s : string) : bool :=
  let n := String.length s in
  let k := String.length p in
  ((k <=? n)%nat && String.eqb (String.substring (n - k) k s) p)%bool.

(** [s.replace(a, b)] for single characters *)
Fixpoint replace (a b : ascii) (s : string) : string :=
  match s with
  | EmptyString => EmptyString
  | String c s' => String (if Ascii.eqb c a then b else c) (replace a b s')
  end.

(** [os.path.join(a, b)] for a relative [b] *)
Definition path_join (a b : string) : string :=
  if String.eqb a "" then b
  else if endswith "/" a then (a ++ b)%string
  else (a ++ "/" ++ b)%string.

End PyStr.

(** ** insertion-ordered dictionaries *)
Module Dict.
Section Dict.
Context {K V : Type}.
Variable keq : K -> K -> bool.

(** [d.get(k)] *)
Fixpoint get (k : K) (d : list (K * V)) : option V :=
  match d with
  | [] => None
  | (k', v) :: d' => if keq k k' then Some v else get k d'
  end.

(** [k in d] *)
Definition mem (k : K) (d : list (K * V)) : bool :=
  match get k d with Some _ => true | None => false end.

(** [d[k] = v] *)
Fixpoint set (k : K) (v : V) (d : list (K * V)) : list (K * V) :=
  match d with
  | [] => [(k, v)]
  | (k', v') :: d' =>
      if keq k k' then (k', v) :: d' else (k', v') :: set k v d'
  end.

(** [del d[k]] for a key that is present *)
Fixpoint del (k : K) (d : list (K * V)) : list (K * V) :=
  match d with
  | [] => []
  | (k', v') :: d' => if keq k k' then d' else (k', v') :: del k d'
  end.

Definition keys (d : list (K * V)) : list K := map fst d.

End Dict.
End Dict.

Definition sdict (V : Type) : Type := list (string * V).
Definition zdict (V : Type) : Type := list (Z * V).

(** ** lists *)
Module PyList.
Section Sort.
Context {A : Type}.

(** [x] stands at an earlier position than [y] in [l] *)
Definition before (x y : A) (l : list A) : Prop :=
  exists l1 l2 l3, l = l1 ++ x :: l2 ++ y :: l3.

(** [l[:k]] *)
Definition slice_to (k : Z) (l : list A) : list A :=
  if 0 <=? k then firstn (Z.to_nat k) l
  else firstn (Z.to_nat (Z.of_nat (List.length l) + k)) l.

(** [l.sort(key=key, reverse=True)] with float keys: an element moves right
    past the elements whose key is strictly greater *)
Fixpoint insert_desc (key : A -> PyFloat.float) (x : A) (l : list A) : list A :=
  match l with
  | [] => [x]
  | y :: l' =>
      if PyFloat.ltb (key x) (key y) then y :: insert_desc key x l'
      else x :: y :: l'
  end.

Definition sort_desc (key : A -> PyFloat.float) (l : list A) : list A :=
  fold_right (insert_desc key) [] l.

(** the key of [x] is a number; the key of [x] is at least the key of [y] *)
Definition not_nan (key : A -> PyFloat.float) (x : A) : Prop :=
  PyFloat.isnan (key x) = false.
Definition ge_key (key : A -> PyFloat.float) (x y : A) : Prop :=
  PyFloat.geb (key x) (key y) = true.

(** [l.sort(key=key)] with integer keys *)
Fixpoint insert_asc (key : A -> Z) (x : A) (l : list A) : list A :=
  match l with
  | [] => [x]
  | y :: l' =>
      if key y <? key x then y :: insert_asc key x l'
      else x :: y :: l'
  end.

Definition sort_asc (key : A -> Z) (l : list A) : list A :=
  fold_right (insert_asc key) [] l.

End Sort.
End PyList.

(** ** state, exceptions and a trace of effects *)
Module Eff.
Section Eff.

Context {S E T : Type}.

(** a computation on an object of type [S] that may raise an [E]; the list
    records the effects it performed, in order *)
Definition M (A : Type) : Type := S -> (E + A) * S * list T.

Definition ret {A} (a : A) : M A := fun st => (inr a, st, []).

Definition raise {A} (e : E) : M A := fun st => (inl e, st, []).

Definition bind {A C} (m : M A) (k : A -> M C) : M C :=
  fun st =>
    match m st with
    | (inl e, st1, tr1) => (inl e, st1, tr1)
    | (inr a, st1, tr1) =>
        let '(r, st2, tr2) := k a st1 in (r, st2, tr1 ++ tr2)
    end.

Definition get_state : M S := fun st => (inr st, st, []).

Definition modify (f : S -> S) : M unit := fun st => (inr tt, f st, []).

Definition emit (ev : T) : M unit := fun st => (inr tt, st, [ev]).

(** a call that cannot change the object: its answer is a sum *)
Definition lift {A} (r : E + A) : M A := fun st => (r, st, []).

(** [try: body except Exception as e: handler e] *)
Definition try_except {A} (body : M A) (handler : E -> M A) : M A :=
  fun st =>
    match body st with
    | (inl e, st1, tr1) =>
        let '(r, st2, tr2) := handler e st1 in (r, st2, tr1 ++ tr2)
    | ok => ok
    end.

Definition when (c : bool) (m : M unit) : M unit :=
  if c then m else ret tt.

(** [for x in l: body x] *)
Fixpoint for_each {A} (body : A -> M unit) (l : list A) : M unit :=
  match l with
  | [] => ret tt
  | x :: l' => bind (body x) (fun _ => for_each body l')
  end.

(** the outcome [o] of a computation that ran after the effects [tr] *)
Definition after {A} (tr : list T) (o : (E + A) * S * list T)
  : (E + A) * S * list T :=
  let '(r, st, tr') := o in (r, st, tr ++ tr').

Definition result {A} (o : (E + A) * S * list T) : E + A := fst (fst o).
Definition state {A} (o : (E + A) * S * list T) : S := snd (fst o).
Definition trace {A} (o : (E + A) * S * list T) : list T := snd o.

End Eff.
End Eff.

Declare Scope eff_scope.
Delimit Scope eff_scope with eff.
Notation "x <- m ;; k" := (Eff.bind m (fun x => k))
  (at level 61, m at next level, right associativity) : eff_scope.
Notation "m ;;; k" := (Eff.bind m (fun _ => k))
  (at level 61, right associativity) : eff_scope.

(* ================================================================== *)
(** * The dimension-partitioned vector store
      ([utils/dimension_vector_search.py]) *)
Module VectorStore.

(** metadata values are JSON scalars *)
Inductive scalar : Type :=
| SStr (s : string)
| SInt (n : Z)
| SBool (b : bool).

Definition meta : Type := sdict scalar.

(** the JSON document written for one vector *)
Record vector_data : Type := {
  vd_id : string;
  vd_vector : vector;
  vd_metadata : meta
}.

(** a document read back; [ld_metadata] is [None] when the document has an
    id and a vector but no ['metadata'] field *)
Record loaded : Type := {
  ld_id : string;
  ld_vector : vector;
  ld_metadata : option meta
}.

(** exceptions raised in the class, one constructor per message *)
Inductive exn : Type :=
| VectorIsEmpty                       (* "Vector is empty" *)
| VectorAllZeros                      (* "Vector contains all zeros" *)
| UnsupportedDim (dimension : Z)      (* "Unsupported dimension: ..." *)
| DimensionTooSmall (dimension : Z)   (* "Vector dimension too small: ..." *)
| SaveToS3Failed (cause : string)     (* "Failed to save vector to S3: ..." *)
| QueryDimensionMismatch (query_dimension target_dimension : Z)
| KeyError (key : Z)                  (* vectors_by_dimension[key] *)
| MissingField (name : string)        (* KeyError on a decoded document *)
| ClientError (msg : string)          (* raised by the S3 client *)
| ValueError.                         (* numpy: shapes not aligned *)

(** the error names of the specification *)
Inductive error_kind : Type :=
| InvalidVector
| UnsupportedDimension
| PersistenceError
| DimensionMismatch
| Unhandled.

Definition kind_of (e : exn) : error_kind :=
  match e with
  | VectorIsEmpty | VectorAllZeros | DimensionTooSmall _ => InvalidVector
  | UnsupportedDim _ => UnsupportedDimension
  | SaveToS3Failed _ => PersistenceError
  | QueryDimensionMismatch _ _ => DimensionMismatch
  | KeyError _ | MissingField _ | ClientError _ | ValueError => Unhandled
  end.

(** the boto3 S3 client as this class uses it; [inl msg] is a raised exception
    whose [str] is [msg] *)
Class S3Client (B : Type) : Type := {
  put_object : B -> string -> vector_data -> string + B;
  (** [inr None]: the response has no ['Contents'] *)
  list_objects_v2 : B -> string -> string + option (list string);
  (** [None]: the read or the decoding of the document raised *)
  get_object : B -> string -> option loaded
}.

Definition shard : Type := sdict vector.

Record store (B : Type) : Type := {
  vectors_by_dimension : zdict shard;
  metadata : sdict meta;
  bucket : B
}.
Arguments vectors_by_dimension {B} _.
Arguments metadata {B} _.
Arguments bucket {B} _.
Arguments Build_store {B} _ _ _.

(** one record of a search result *)
Record hit : Type := {
  hit_id : string;
  similarity : PyFloat.float;
  hit_metadata : meta
}.

(** what happened to memory and to the bucket, in order *)
Inductive event : Type :=
| ShardSet (dimension : Z) (id : string)
| MetaSet (id : string)
| ShardDel (dimension : Z) (id : string)
| MetaDel (id : string)
| S3Put (key : string)
| S3List (prefix : string)
| S3Get (key : string).

(** the events of a load: a document read, an entry of a shard or of the
    metadata set *)
Definition loads (ev : event) : Prop :=
  match ev with
  | S3Get _ | ShardSet _ _ | MetaSet _ => True
  | _ => False
  end.

(** a listing request *)
Definition is_listing (ev : event) : bool :=
  match ev with
  | S3List _ => true
  | _ => false
  end.

(** [__init__] *)
Definition init {B : Type} (b : B) : store B :=
  {| vectors_by_dimension := [(256, []); (384, []); (1024, []); (3072, [])];
     metadata := [];
     bucket := b |}.

Definition supported (d : Z) : bool :=
  (d =? 256) || (d =? 384) || (d =? 1024) || (d =? 3072).

(** what [__init__] establishes and no method changes: the shards are those
    of the four dimensions *)
Definition well_formed {B} (st : store B) : Prop :=
  Dict.keys (vectors_by_dimension st) = [256; 384; 1024; 3072].

(** ** numpy *)

(** [np.dot] after the shapes were checked *)
Fixpoint dot_from (acc : PyFloat.float) (a b : vector) : PyFloat.float :=
  match a, b with
  | x :: a', y :: b' => dot_from (PyFloat.add acc (PyFloat.mul x y)) a' b'
  | _, _ => acc
  end.

(** [np.dot(a, b)]; [None] is the [ValueError] for arrays of different
    lengths *)
Definition dot (a b : vector) : option PyFloat.float :=
  if (List.length a =? List.length b)%nat
  then Some (dot_from PyFloat.zero a b) else None.

(** [np.linalg.norm(a)] *)
Definition norm (a : vector) : PyFloat.float :=
  PyFloat.sqrt (dot_from PyFloat.zero a a).

(** [cosine_similarity(self, vec1, vec2)] *)
Definition cosine_similarity (vec1 vec2 : vector) : exn + PyFloat.float :=
  let norm1 := norm vec1 in
  let norm2 := norm vec2 in
  if PyFloat.eqb norm1 PyFloat.zero || PyFloat.eqb norm2 PyFloat.zero
  then inr PyFloat.zero
  else
    match dot vec1 vec2 with
    | None => inl ValueError
    | Some d =>
        let similarity := PyFloat.div d (PyFloat.mul norm1 norm2) in
        if PyFloat.isnan similarity || PyFloat.isinf similarity
        then inr PyFloat.zero
        else inr similarity
    end.

(** ** the methods *)

(** the part of the object that lives in memory *)
Definition memory {B} (st : store B) : zdict shard * sdict meta :=
  (vectors_by_dimension st, metadata st).

(** the vector held under [id] in the shard of [dimension], if any *)
Definition stored {B} (st : store B) (dimension : Z) (id : string)
  : option vector :=
  match Dict.get Z.eqb dimension (vectors_by_dimension st) with
  | Some s => Dict.get String.eqb id s
  | None => None
  end.

Section Methods.
Context {B : Type} `{S3Client B}.
Local Open Scope eff_scope.

Definition M (A : Type) : Type := Eff.M (S := store B) (E := exn) (T := event) A.

(** [self.vectors_by_dimension[dimension]] *)
Definition shard_of (dimension : Z) : M shard :=
  fun st =>
    match Dict.get Z.eqb dimension (vectors_by_dimension st) with
    | Some s => (inr s, st, [])
    | None => (inl (KeyError dimension), st, [])
    end.

(** [self.vectors_by_dimension[dimension][id] = vector] *)
Definition shard_set (dimension : Z) (id : string) (v : vector)
  : M unit :=
  s <- shard_of dimension ;;
  fun st =>
    (inr tt,
     {| vectors_by_dimension :=
          Dict.set Z.eqb dimension (Dict.set String.eqb id v s)
                   (vectors_by_dimension st);
        metadata := metadata st;
        bucket := bucket st |},
     [ShardSet dimension id]).

(** [del self.vectors_by_dimension[dimension][id]] *)
Definition shard_del (dimension : Z) (id : string) : M unit :=
  s <- shard_of dimension ;;
  fun st =>
    (inr tt,
     {| vectors_by_dimension :=
          Dict.set Z.eqb dimension (Dict.del String.eqb id s)
                   (vectors_by_dimension st);
        metadata := metadata st;
        bucket := bucket st |},
     [ShardDel dimension id]).

(** [self.metadata[id] = m] *)
Definition meta_set (id : string) (m : meta) : M unit :=
  fun st =>
    (inr tt,
     {| vectors_by_dimension := vectors_by_dimension st;
        metadata := Dict.set String.eqb id m (metadata st);
        bucket := bucket st |},
     [MetaSet id]).

(** [del self.metadata[id]] *)
Definition meta_del (id : string) : M unit :=
  fun st =>
    (inr tt,
     {| vectors_by_dimension := vectors_by_dimension st;
        metadata := Dict.del String.eqb id (metadata st);
        bucket := bucket st |},
     [MetaDel id]).

(** [self.s3_client.put_object(Bucket=..., Key=key, Body=json.dumps(data))] *)
Definition s3_put (key : string) (data : vector_data) : M unit :=
  fun st =>
    match put_object (bucket st) key data with
    | inl msg => (inl (ClientError msg), st, [S3Put key])
    | inr b' =>
        (inr tt,
         {| vectors_by_dimension := vectors_by_dimension st;
            metadata := metadata st;
            bucket := b' |},
         [S3Put key])
    end.

(** [str(e)] of what [put_object] raised *)
Definition cause_of (e : exn) : string :=
  match e with
  | ClientError msg => msg
  | _ => EmptyString
  end.

(** [f"vectors/{dimension}/{id}.json"] *)
Definition s3_key (dimension : Z) (id : string) : string :=
  ("vectors/" ++ PyStr.of_Z dimension ++ "/" ++ id ++ ".json")%string.

(** [{**metadata, 'dimension': dimension}] *)
Definition with_dimension (m : meta) (dimension : Z) : meta :=
  Dict.set String.eqb "dimension"%string (SInt dimension) m.

(** [any(x != 0 for x in vector)] *)
Definition any_nonzero (v : vector) : bool :=
  existsb (fun x => negb (PyFloat.eqb x PyFloat.zero)) v.

(** [add_vector(self, id, vector, metadata)] *)
Definition add_vector (id : string) (v : vector) (m : meta)
  : M unit :=
  match v with
  | [] => Eff.raise VectorIsEmpty
  | _ =>
    if negb (any_nonzero v) then Eff.raise VectorAllZeros else
    let dimension := Z.of_nat (List.length v) in
    st <- Eff.get_state ;;
    if negb (Dict.mem Z.eqb dimension (vectors_by_dimension st))
    then Eff.raise (UnsupportedDim dimension) else
    if dimension <? 100 then Eff.raise (DimensionTooSmall dimension) else
    shard_set dimension id v ;;;
    let metadata_with_dim := with_dimension m dimension in
    meta_set id metadata_with_dim ;;;
    let data := {| vd_id := id; vd_vector := v;
                   vd_metadata := metadata_with_dim |} in
    Eff.try_except
      (s3_put (s3_key dimension id) data)
      (fun e =>
         s <- shard_of dimension ;;
         Eff.when (Dict.mem String.eqb id s) (shard_del dimension id) ;;;
         st' <- Eff.get_state ;;
         Eff.when (Dict.mem String.eqb id (metadata st')) (meta_del id) ;;;
         Eff.raise (SaveToS3Failed (cause_of e)))
  end.

(** [json.loads(self.s3_client.get_object(Bucket=..., Key=key)['Body'].read())]
    with the fields ['id'] and ['vector'] read *)
Definition s3_get (key : string) : M loaded :=
  fun st =>
    match get_object (bucket st) key with
    | None => (inl (ClientError EmptyString), st, [S3Get key])
    | Some doc => (inr doc, st, [S3Get key])
    end.

(** [self.s3_client.list_objects_v2(Bucket=..., Prefix=prefix)]; the answer is
    [response['Contents']] when the response has that key *)
Definition s3_list (prefix : string) : M (option (list string)) :=
  fun st =>
    match list_objects_v2 (bucket st) prefix with
    | inl msg => (inl (ClientError msg), st, [S3List prefix])
    | inr contents => (inr contents, st, [S3List prefix])
    end.

(** the body of the loop of [load_vectors_by_dimension] for one listed key *)
Definition load_one (dimension : Z) (key : string) : M unit :=
  if PyStr.endswith ".json" key then
    Eff.try_except
      (doc <- s3_get key ;;
       shard_set dimension (ld_id doc) (ld_vector doc) ;;;
       match ld_metadata doc with
       | Some m => meta_set (ld_id doc) m
       | None => Eff.raise (MissingField "metadata")
       end)
      (fun _ => Eff.ret tt)
  else Eff.ret tt.

(** [load_vectors_by_dimension(self, dimension)] *)
Definition load_vectors_by_dimension (dimension : Z) : M unit :=
  Eff.try_except
    (contents <- s3_list ("vectors/" ++ PyStr.of_Z dimension ++ "/")%string ;;
     match contents with
     | None => Eff.ret tt
     | Some keys => Eff.for_each (load_one dimension) keys
     end)
    (fun _ => Eff.ret tt).

(** the loop of [search] over [vectors.items()]: a vector whose similarity
    raises, or is NaN or infinite, is passed over *)
Fixpoint similarities_of (md : sdict meta) (query_vector : vector)
  (vectors : shard) : list hit :=
  match vectors with
  | [] => []
  | (id, v) :: rest =>
      match cosine_similarity query_vector v with
      | inr similarity =>
          if negb (PyFloat.isnan similarity || PyFloat.isinf similarity)
          then {| hit_id := id;
                  similarity := similarity;
                  hit_metadata :=
                    match Dict.get String.eqb id md with
                    | Some m => m
                    | None => []
                    end |} :: similarities_of md query_vector rest
          else similarities_of md query_vector rest
      | inl _ => similarities_of md query_vector rest
      end
  end.

(** [search(self, query_vector, top_k, target_dimension)] *)
Definition search (query_vector : vector) (top_k : Z)
  (target_dimension : option Z) : M (list hit) :=
  let query_dimension := Z.of_nat (List.length query_vector) in
  search_dimension <-
    match target_dimension with
    | Some t =>
        if negb (query_dimension =? t)
        then Eff.raise (QueryDimensionMismatch query_dimension t)
        else Eff.ret t
    | None => Eff.ret query_dimension
    end ;;
  s <- shard_of search_dimension ;;
  Eff.when (match s with [] => true | _ => false end)
       (load_vectors_by_dimension search_dimension) ;;;
  vectors <- shard_of search_dimension ;;
  match vectors with
  | [] => Eff.ret []
  | _ =>
      st <- Eff.get_state ;;
      let similarities := similarities_of (metadata st) query_vector vectors in
      Eff.ret (PyList.slice_to top_k (PyList.sort_desc similarity similarities))
  end.

(** a computation that neither adds nor removes a shard *)
Definition keeps_shards {A} (m : M A) : Prop :=
  forall st,
    Dict.keys (vectors_by_dimension (Eff.state (m st)))
    = Dict.keys (vectors_by_dimension st).

(** [f"vectors/{dimension}/"] *)
Definition prefix_of (dimension : Z) : string :=
  ("vectors/" ++ PyStr.of_Z dimension ++ "/")%string.

(** [load_all_vectors(self)] *)
Definition load_all_vectors : M unit :=
  st <- Eff.get_state ;;
  Eff.for_each load_vectors_by_dimension (Dict.keys (vectors_by_dimension st)).

(** [len(response.get('Contents', []))] *)
Definition contents_count (contents : option (list string)) : Z :=
  match contents with
  | Some keys => Z.of_nat (List.length keys)
  | None => 0
  end.

(** the [try] of [get_dimension_stats]: the loop over the dimensions assigns
    to the local dictionary [stats]; the answer is [stats] as it is when the
    loop ends or when a listing raises, with the requests made *)
Fixpoint stats_from_s3 (b : B) (dimensions : list Z) (stats : zdict Z)
  : zdict Z * list event :=
  match dimensions with
  | [] => (stats, [])
  | dimension :: rest =>
      let prefix := prefix_of dimension in
      match list_objects_v2 b prefix with
      | inl _ => (stats, [S3List prefix])
      | inr contents =>
          let '(stats', tr) :=
            stats_from_s3 b rest
              (Dict.set Z.eqb dimension (contents_count contents) stats) in
          (stats', S3List prefix :: tr)
      end
  end.

(** [{dim: len(vectors) for dim, vectors in self.vectors_by_dimension.items()}] *)
Definition memory_stats (vbd : zdict shard) : zdict Z :=
  map (fun item => (fst item, Z.of_nat (List.length (snd item)))) vbd.

(** [sum(stats.values())] *)
Definition total (stats : zdict Z) : Z :=
  fold_right Z.add 0 (map snd stats).

(** [get_dimension_stats(self)] *)
Definition get_dimension_stats : M (zdict Z) :=
  fun st =>
    let stats := memory_stats (vectors_by_dimension st) in
    if total stats =? 0 then
      let '(stats', tr) :=
        stats_from_s3 (bucket st) (Dict.keys (vectors_by_dimension st)) stats in
      (inr stats', st, tr)
    else (inr stats, st, []).

(** [max(stats, key=stats.get)] over the items after the first: [best] is
    replaced by an item whose count is strictly greater, so the answer is the
    first item with the greatest count *)
Fixpoint max_item (best : Z * Z) (items : list (Z * Z)) : Z * Z :=
  match items with
  | [] => best
  | item :: rest =>
      max_item (if snd best <? snd item then item else best) rest
  end.

(** [detect_vector_dimension(self)]; [max] is not reached with an empty
    [stats], for which [any] is false *)
Definition detect_vector_dimension : M Z :=
  stats <- get_dimension_stats ;;
  if negb (existsb (fun c => negb (c =? 0)) (map snd stats))
  then Eff.ret 1024
  else
    match stats with
    | [] => Eff.raise ValueError
    | item :: rest => Eff.ret (fst (max_item item rest))
    end.

End Methods.

End VectorStore.

(* ================================================================== *)
(** * The highlight extractor ([utils/highlight_extractor.py]) *)
Module Highlight.

(** exceptions by class; the string is [str(e)] *)
Inductive exn : Type :=
| Exception (msg : string)
| ValueError (msg : string)
| ZeroDivisionError (msg : string)
| KeyError (msg : string)
| AttributeError (msg : string)
| CalledProcessError (stderr : string).

Definition str (e : exn) : string :=
  match e with
  | Exception msg | ValueError msg | ZeroDivisionError msg
  | KeyError msg | AttributeError msg | CalledProcessError msg => msg
  end.

Definition bindE {A C} (m : exn + A) (k : A -> exn + C) : exn + C :=
  match m with
  | inl e => inl e
  | inr a => k a
  end.

Declare Scope exc_scope.
Delimit Scope exc_scope with exc.
Notation "x <- m ;; k" := (bindE m (fun x => k))
  (at level 61, m at next level, right associativity) : exc_scope.

(** the services behind the class: Bedrock (Claude, Nova Pro, Nova
    embeddings), ffprobe and ffmpeg, and the file system *)
Class Services : Type := {
  (** the text Claude answers to the prompt built from the theme *)
  invoke_claude : string -> exn + string;
  (** [ffprobe -show_entries format=size,duration]: size in bytes, duration *)
  ffprobe_format : string -> exn + (Z * PyFloat.float);
  (** [subprocess.run(compress_cmd, check=True)]: input, output, bitrate *)
  ffmpeg_compress : string -> string -> Z -> exn + unit;
  path_exists : string -> bool;
  (** [analyze_video(video_path, criteria)] *)
  nova_analyze : string -> string -> exn + string;
  (** the segments answered for a video and a segment duration, each with
      its ['embedding'] entry *)
  segmented_embeddings : string -> Z -> exn + list (option vector);
  (** [os.path.join('static', 'clips', str(uuid.uuid4()))] *)
  new_clips_dir : string;
  (** [get_embedding(content, "text")] *)
  get_embedding : string -> exn + vector;
  (** [subprocess.run(extract_cmd, check=True)]: source, start, length,
      output *)
  ffmpeg_extract : string -> Z -> Z -> string -> exn + unit;
  (** the fades and the concatenation (or the copy of a single clip) of
      [create_highlight_video]: clip paths, output *)
  ffmpeg_stitch : list string -> string -> exn + unit;
  (** [get_video_duration(path)], which answers 0 when ffprobe fails *)
  get_video_duration : string -> PyFloat.float
}.

(** a candidate segment: the dictionaries built by
    [extract_clips_with_embeddings] *)
Record clip : Type := {
  video_source : string;
  output_dir : string;
  timestamp : Z;
  duration : Z;
  index : Z;
  embedding : option vector;
  path : option string
}.

(** [clip.copy()] with the keys ['similarity'] and ['point'] added *)
Record selected : Type := {
  seg : clip;
  similarity : PyFloat.float;
  point : string
}.

Definition start (c : selected) : Z := timestamp (seg c).
Definition idx (c : selected) : Z := index (seg c).

(** [clip['path'] = p] *)
Definition set_path (c : selected) (p : string) : selected :=
  {| seg := {| video_source := video_source (seg c);
               output_dir := output_dir (seg c);
               timestamp := timestamp (seg c);
               duration := duration (seg c);
               index := index (seg c);
               embedding := embedding (seg c);
               path := Some p |};
     similarity := similarity c;
     point := point c |}.

(** the built-in criteria returned when the model call fails *)
Definition default_criteria : string :=
"## 高光片段判定标准：
- 动作精彩或技巧性强的时刻
- 情感表达丰富或戏剧性的瞬间
- 关键转折点或重要事件
- 视觉效果突出或构图优美的片段
- 具有故事性或叙事价值的时刻".

(** [0.05] *)
Definition default_threshold : PyFloat.float :=
  S754_finite false 7205759403792794 (-57).

Definition default_top_k_per_point : Z := 3.

Definition markers : list string :=
  ["A."; "B."; "C."; "D."; "E."; "F."; "G."; "H."; "I."; "J."]%string.

(** the condition of the comprehension that extracts the points *)
Definition is_point (line : string) : bool :=
  let s := PyStr.strip line in
  negb (String.eqb s "") && existsb (fun prefix => PyStr.startswith prefix s) markers.

(** [points] *)
Definition extract_points (analysis : string) : list string :=
  map PyStr.strip (filter is_point (PyStr.split PyStr.newline analysis)).

(** [valid_clips], each with the embedding it is known to have *)
Fixpoint valid_clips (clips : list clip) : list (clip * vector) :=
  match clips with
  | [] => []
  | c :: rest =>
      match embedding c with
      | Some e => (c, e) :: valid_clips rest
      | None => valid_clips rest
      end
  end.

(** [cosine_similarity(self, a, b)]: no guard on the norms *)
Definition cosine_similarity (a b : vector) : exn + PyFloat.float :=
  match VectorStore.dot a b with
  | None => inl (ValueError "shapes not aligned")
  | Some d =>
      inr (PyFloat.div d (PyFloat.mul (VectorStore.norm a) (VectorStore.norm b)))
  end.

(** the window of the overlap test *)
Definition overlap_window : Z := 3.

(** [abs(clip['timestamp'] - selected['timestamp']) < 3] *)
Definition overlaps (c s : selected) : bool :=
  Z.abs (start c - start s) <? overlap_window.

(** two clips are apart when their start offsets differ by the window or
    more *)
Definition apart (a b : selected) : Prop :=
  overlap_window <= Z.abs (start a - start b).

(** the same on two start offsets *)
Definition offsets_apart (a b : Z) : Prop := overlap_window <= Z.abs (a - b).

(** first step of the deduplication: a clip whose index was seen is skipped *)
Fixpoint unique_clips (seen_indices : list Z) (l : list selected) : list selected :=
  match l with
  | [] => []
  | c :: rest =>
      if existsb (Z.eqb (idx c)) seen_indices
      then unique_clips seen_indices rest
      else c :: unique_clips (idx c :: seen_indices) rest
  end.

(** the inner loop up to its [break]: the accepted clips before the first
    one that overlaps, that one, and those after it *)
Fixpoint first_overlap (c : selected) (filtered : list selected)
  : option (list selected * selected * list selected) :=
  match filtered with
  | [] => None
  | s :: rest =>
      if overlaps c s then Some ([], s, rest)
      else
        match first_overlap c rest with
        | Some (before, hit, after) => Some (s :: before, hit, after)
        | None => None
        end
  end.

(** one turn of the outer loop of the second step.  The accepted clips have
    pairwise different indices, so [filtered_clips.remove(selected)] removes
    [selected] itself. *)
Definition consider (filtered : list selected) (c : selected) : list selected :=
  match first_overlap c filtered with
  | Some (before, s, after) =>
      if PyFloat.gtb (similarity c) (similarity s)
      then before ++ after ++ [c]
      else filtered
  | None => filtered ++ [c]
  end.

(** what the loop of the second step knows about the accepted clips when it
    considers [c]: they start no later than [c], they are pairwise apart,
    their indices are pairwise different and differ from that of [c] *)
Record accepted_so_far (filtered : list selected) (c : selected) : Prop := {
  earlier : Forall (fun s => start s <= start c) filtered;
  spaced : forall x y, In x filtered -> In y filtered -> x = y \/ apart x y;
  distinct : NoDup (map idx filtered);
  fresh : ~ In (idx c) (map idx filtered)
}.

(** [filtered_clips] before the last sort *)
Definition accepted (unique : list selected) : list selected :=
  fold_left consider unique [].

(** lines 666-697: from [selected_clips] to the sorted [filtered_clips] *)
Definition deduplicate (selected_clips : list selected) : list selected :=
  let sorted := PyList.sort_asc start selected_clips in
  let unique := unique_clips [] sorted in
  PyList.sort_asc start (accepted unique).

Section Methods.
Context {services : Services}.
Local Open Scope exc_scope.

(** [generate_criteria(self, theme)] *)
Definition generate_criteria (theme : string) : string :=
  match invoke_claude theme with
  | inr criteria => criteria
  | inl _ => default_criteria
  end.

(** [(max_size_mb * 8 * 1024) / duration] *)
Definition true_div (n : Z) (d : PyFloat.float) : exn + PyFloat.float :=
  if PyFloat.eqb d PyFloat.zero
  then inl (ZeroDivisionError "float division by zero")
  else inr (PyFloat.div (PyFloat.of_Z n) d).

(** [int(x)] *)
Definition int (x : PyFloat.float) : exn + Z :=
  match PyFloat.to_Z x with
  | Some n => inr n
  | None => inl (ValueError "cannot convert float to integer")
  end.

Definition MB : Z := 1024 * 1024.

(** the body of the [try] of [compress_video].  [original_size], the size in
    bytes divided by [1024 * 1024], is compared through the size in bytes:
    the division is by a power of two. *)
Definition compress_video_body (input_path output_path : string)
  (max_size_mb : Z) : exn + string :=
  probe <- ffprobe_format input_path ;;
  let '(size, duration) := probe in
  if size <=? 25 * MB then inr input_path
  else if size <=? max_size_mb * MB then inr input_path
  else
    q <- true_div (max_size_mb * 8 * 1024) duration ;;
    n <- int q ;;
    let target_bitrate := n - 128 in
    _ <- ffmpeg_compress input_path output_path target_bitrate ;;
    if path_exists output_path then inr output_path else inr input_path.

(** [compress_video(self, input_path, output_path, max_size_mb=100)] *)
Definition compress_video (input_path output_path : string) (max_size_mb : Z)
  : string :=
  match compress_video_body input_path output_path max_size_mb with
  | inr p => p
  | inl _ => input_path
  end.

(** [analyze_video(self, video_path, criteria)] *)
Definition analyze_video (video_path criteria : string) : exn + string :=
  nova_analyze video_path criteria.

(** the loop that builds [clips] from [segments_data], from position [i] *)
Fixpoint clips_from (video_path dir : string) (segment_duration : Z) (i : Z)
  (segments : list (option vector)) : list clip :=
  match segments with
  | [] => []
  | e :: rest =>
      {| video_source := video_path;
         output_dir := dir;
         timestamp := i * segment_duration;
         duration := segment_duration;
         index := i;
         embedding := e;
         path := None |}
      :: clips_from video_path dir segment_duration (i + 1) rest
  end.

(** [extract_clips_with_embeddings(self, video_path, segment_duration=3)] *)
Definition extract_clips_with_embeddings (video_path : string)
  (segment_duration : Z) : exn + list clip :=
  segments_data <- segmented_embeddings video_path segment_duration ;;
  inr (clips_from video_path new_clips_dir segment_duration 0 segments_data).

(** the loop over [valid_clips] for one point *)
Fixpoint clip_similarities (threshold : PyFloat.float) (pt : string)
  (text_emb : vector) (valid : list (clip * vector)) : exn + list selected :=
  match valid with
  | [] => inr []
  | (c, video_emb) :: rest =>
      sim <- cosine_similarity text_emb video_emb ;;
      more <- clip_similarities threshold pt text_emb rest ;;
      if PyFloat.gtb sim threshold
      then inr ({| seg := c; similarity := sim; point := pt |} :: more)
      else inr more
  end.

(** the body of [for point in points] *)
Definition top_clips (threshold : PyFloat.float) (top_k_per_point : Z)
  (valid : list (clip * vector)) (pt : string) : exn + list selected :=
  text_emb <- get_embedding pt ;;
  sims <- clip_similarities threshold pt text_emb valid ;;
  inr (PyList.slice_to top_k_per_point (PyList.sort_desc similarity sims)).

(** [selected_clips] after the loop over the points *)
Fixpoint select_clips (threshold : PyFloat.float) (top_k_per_point : Z)
  (valid : list (clip * vector)) (points : list string) : exn + list selected :=
  match points with
  | [] => inr []
  | pt :: rest =>
      top <- top_clips threshold top_k_per_point valid pt ;;
      more <- select_clips threshold top_k_per_point valid rest ;;
      inr (top ++ more)
  end.

(** [os.path.join(clip['output_dir'], f'clip_{clip["index"]:04d}.mp4')] *)
Definition clip_path (c : selected) : string :=
  PyStr.path_join (output_dir (seg c))
                  ("clip_" ++ PyStr.pad4 (idx c) ++ ".mp4")%string.

(** where a selected clip comes from: a candidate with an embedding whose
    similarity to the embedding of one of the points exceeds the threshold *)
Definition matched (threshold : PyFloat.float) (valid : list (clip * vector))
  (points : list string) (c : selected) : Prop :=
  In (point c) points
  /\ PyFloat.gtb (similarity c) threshold = true
  /\ exists video_emb text_emb,
       In (seg c, video_emb) valid
       /\ get_embedding (point c) = inr text_emb
       /\ cosine_similarity text_emb video_emb = inr (similarity c).

(** what the extraction loop does to a clip: nothing when it has a file,
    else its path is set to the file extracted *)
Definition with_file (c c' : selected) : Prop :=
  match path (seg c) with
  | Some _ => c' = c
  | None => c' = set_path c (clip_path c)
  end.

(** the loop that extracts the files of the selected clips *)
Fixpoint materialize (l : list selected) : exn + list selected :=
  match l with
  | [] => inr []
  | c :: rest =>
      c' <- match path (seg c) with
            | None =>
                _ <- ffmpeg_extract (video_source (seg c)) (start c)
                       (duration (seg c)) (clip_path c) ;;
                inr (set_path c (clip_path c))
            | Some _ => inr c
            end ;;
      rest' <- materialize rest ;;
      inr (c' :: rest')
  end.

(** [match_clips(self, analysis, clips, threshold=0.05, top_k_per_point=3)] *)
Definition match_clips (analysis : string) (clips : list clip)
  (threshold : PyFloat.float) (top_k_per_point : Z) : exn + list selected :=
  let points := extract_points analysis in
  let valid := valid_clips clips in
  selected_clips <- select_clips threshold top_k_per_point valid points ;;
  materialize (deduplicate selected_clips).

(** [create_highlight_video(self, selected_clips, output_path)] *)
Definition create_highlight_video (selected_clips : list selected)
  (output_path : string) : exn + string :=
  match selected_clips with
  | [] => inl (Exception "没有选中的片段可以拼接")
  | _ =>
      match ffmpeg_stitch
              (map (fun c => match path (seg c) with
                             | Some p => p
                             | None => EmptyString
                             end) selected_clips)
              output_path with
      | inr _ => inr output_path
      | inl (CalledProcessError stderr) =>
          inl (Exception ("视频拼接失败: " ++ stderr)%string)
      | inl e => inl e
      end
  end.

End Methods.

End Highlight.

(* ================================================================== *)
(** * The highlight job ([app.py], [extract_highlight] and its worker
      [process_highlight]) *)
Module Pipeline.
Import Highlight.

(** an entry of the list shown to the client for a selected clip *)
Record clip_info : Type := {
  url : string;
  info_timestamp : Z;
  info_similarity : PyFloat.float;
  description : string
}.

(** the values stored in a job record *)
Inductive value : Type :=
| VStr (s : string)
| VInt (n : Z)
| VFloat (x : PyFloat.float)
| VMessages (m : zdict string)
| VClips (l : list clip)
| VClipsInfo (l : list clip_info).

(** [highlight_jobs[job_id]] *)
Definition job : Type := sdict value.

(** the calls of the worker into the extractor, one per stage, and the two
    probes after the last stage *)
Inductive call : Type :=
| GenerateCriteria
| CompressVideo
| AnalyzeVideo
| ExtractClipsWithEmbeddings
| MatchClips
| CreateHighlightVideo
| GetVideoDuration.

(** the stage a call belongs to *)
Definition stage_of (c : call) : Z :=
  match c with
  | GenerateCriteria => 1
  | CompressVideo => 2
  | AnalyzeVideo => 3
  | ExtractClipsWithEmbeddings => 4
  | MatchClips => 5
  | CreateHighlightVideo | GetVideoDuration => 6
  end.

Definition waiting : string := "等待中...".

(** the record [extract_highlight] registers before it starts the worker *)
Definition new_job (theme video_path work_dir : string) : job :=
  [ ("status", VStr "processing");
    ("current_step", VInt 1);
    ("progress", VInt 0);
    ("theme", VStr theme);
    ("video_path", VStr video_path);
    ("work_dir", VStr work_dir);
    ("step_messages",
      VMessages [ (1, "正在生成高光判定标准..."); (2, waiting); (3, waiting);
                  (4, waiting); (5, waiting); (6, waiting) ]%string)
  ]%string.

Section Worker.
Context {services : Highlight.Services}.
Local Open Scope string_scope.
Local Open Scope eff_scope.

Definition J (A : Type) : Type := Eff.M (S := job) (E := exn) (T := call) A.

(** [job_status[key] = v] *)
Definition put (key : string) (v : value) : J unit :=
  Eff.modify (Dict.set String.eqb key v).

(** [job_status['step_messages'][step] = msg] *)
Definition put_message (step : Z) (msg : string) : J unit :=
  j <- Eff.get_state ;;
  match Dict.get String.eqb "step_messages" j with
  | Some (VMessages m) =>
      put "step_messages" (VMessages (Dict.set Z.eqb step msg m))
  | _ => Eff.raise (KeyError "'step_messages'")
  end.

(** a method of the extractor that can raise *)
Definition invoke {A} (c : call) (r : exn + A) : J A :=
  Eff.emit c ;;; Eff.lift r.

(** a method of the extractor that cannot *)
Definition invoke_total {A} (c : call) (a : A) : J A :=
  Eff.emit c ;;; Eff.ret a.

Definition stage1 (theme : string) : J string :=
  put "current_step" (VInt 1) ;;;
  put "progress" (VInt 5) ;;;
  put_message 1 "正在调用Claude Opus生成标准..." ;;;
  criteria <- invoke_total GenerateCriteria (generate_criteria theme) ;;
  put "criteria" (VStr criteria) ;;;
  put_message 1 "✅ 标准生成完成" ;;;
  put "progress" (VInt 15) ;;;
  Eff.ret criteria.

Definition stage2 (video_path work_dir : string) : J string :=
  put "current_step" (VInt 2) ;;;
  put_message 2 "正在压缩视频..." ;;;
  let compressed_path := PyStr.path_join work_dir "compressed.mp4" in
  compressed_path <-
    invoke_total CompressVideo (compress_video video_path compressed_path 100) ;;
  put "compressed_path" (VStr compressed_path) ;;;
  put_message 2 "✅ 视频压缩完成" ;;;
  put "progress" (VInt 25) ;;;
  Eff.ret compressed_path.

Definition stage3 (compressed_path criteria : string) : J string :=
  put "current_step" (VInt 3) ;;;
  put_message 3 "正在使用Nova Pro分析视频..." ;;;
  analysis <- invoke AnalyzeVideo (analyze_video compressed_path criteria) ;;
  put "analysis" (VStr analysis) ;;;
  put_message 3 "✅ 视频分析完成" ;;;
  put "progress" (VInt 45) ;;;
  Eff.ret analysis.

Definition count {A} (l : list A) : string :=
  PyStr.of_Z (Z.of_nat (List.length l)).

Definition stage4 (compressed_path : string) : J (list clip) :=
  put "current_step" (VInt 4) ;;;
  put_message 4 "正在切片视频并生成向量嵌入..." ;;;
  clips <- invoke ExtractClipsWithEmbeddings
             (extract_clips_with_embeddings compressed_path 3) ;;
  let successful_clips := valid_clips clips in
  put "clips" (VClips clips) ;;;
  put_message 4 ("✅ 已切片 " ++ count clips ++ " 个片段，向量生成成功 "
                 ++ count successful_clips ++ " 个")%string ;;;
  put "progress" (VInt 65) ;;;
  Eff.ret clips.

(** one entry of [clips_info]; [clip['path'].replace] raises on [None] *)
Definition info_of (c : selected) : exn + clip_info :=
  match path (seg c) with
  | None => inl (AttributeError "'NoneType' object has no attribute 'replace'")
  | Some p =>
      inr {| url := ("/" ++ PyStr.replace "\" "/" p)%string;
             info_timestamp := start c;
             info_similarity := similarity c;
             description := PyStr.prefix 100 (point c) |}
  end.

Fixpoint clips_info (l : list selected) : exn + list clip_info :=
  match l with
  | [] => inr []
  | c :: rest =>
      bindE (info_of c) (fun i =>
      bindE (clips_info rest) (fun more => inr (i :: more)))
  end.

Definition stage5 (analysis : string) (clips : list clip) : J (list selected) :=
  put "current_step" (VInt 5) ;;;
  put_message 5 "正在匹配高光片段..." ;;;
  selected_clips <-
    invoke MatchClips
      (match_clips analysis clips default_threshold default_top_k_per_point) ;;
  infos <- Eff.lift (clips_info selected_clips) ;;
  put "clips" (VClipsInfo infos) ;;;
  put "clips_count" (VInt (Z.of_nat (List.length selected_clips))) ;;;
  put_message 5 ("✅ 匹配到 " ++ count selected_clips ++ " 个高光片段")%string ;;;
  put "progress" (VInt 85) ;;;
  Eff.ret selected_clips.

Definition stage6 (video_path work_dir : string)
  (selected_clips : list selected) : J unit :=
  put "current_step" (VInt 6) ;;;
  put_message 6 "正在拼接高光视频..." ;;;
  let highlight_video_path := PyStr.path_join work_dir "highlight.mp4" in
  _ <- invoke CreateHighlightVideo
         (create_highlight_video selected_clips highlight_video_path) ;;
  put "highlight_video_path" (VStr highlight_video_path) ;;;
  put "highlight_video_url"
      (VStr ("/" ++ PyStr.replace "\" "/" highlight_video_path)%string) ;;;
  put_message 6 "✅ 高光视频生成完成" ;;;
  put "progress" (VInt 100) ;;;
  d1 <- invoke_total GetVideoDuration (get_video_duration video_path) ;;
  put "original_duration" (VFloat d1) ;;;
  d2 <- invoke_total GetVideoDuration (get_video_duration highlight_video_path) ;;
  put "highlight_duration" (VFloat d2) ;;;
  put "status" (VStr "completed") ;;;
  put "current_step" (VInt 6).

(** the body of the [try] of [process_highlight] *)
Definition stages (theme video_path work_dir : string) : J unit :=
  criteria <- stage1 theme ;;
  compressed_path <- stage2 video_path work_dir ;;
  analysis <- stage3 compressed_path criteria ;;
  clips <- stage4 compressed_path ;;
  selected_clips <- stage5 analysis clips ;;
  stage6 video_path work_dir selected_clips.

(** the [except Exception as e] of [process_highlight] *)
Definition mark_failed (e : exn) : J unit :=
  put "status" (VStr "failed") ;;;
  put "error" (VStr (str e)).

(** [process_highlight()] for the job of [theme], [video_path], [work_dir] *)
Definition process_highlight (theme video_path work_dir : string) : J unit :=
  Eff.try_except (stages theme video_path work_dir) mark_failed.

(** the record and the calls after the worker ran on a fresh job *)
Definition run (theme video_path work_dir : string) : job * list call :=
  let o := process_highlight theme video_path work_dir
             (new_job theme video_path work_dir) in
  (Eff.state o, Eff.trace o).

End Worker.

(** [job_status.get(key)] *)
Definition field (key : string) (j : job) : option value :=
  Dict.get String.eqb key j.

(** [job_status['step_messages'].get(step)] *)
Definition message (step : Z) (j : job) : option string :=
  match field "step_messages" j with
  | Some (VMessages m) => Dict.get Z.eqb step m
  | _ => None
  end.

(** what a job record shows when stage [k] is the current one: the stages
    after [k] are still waiting and left no artifact, and the artifacts of
    the stages before [k] are those given *)
Definition shows (j : job) (k : Z) (criteria compressed_path : string)
  (analysis : option string) (clips : option value) : Prop :=
  field "current_step" j = Some (VInt k)
  /\ (forall step, k < step <= 6 -> message step j = Some waiting)
  /\ field "criteria" j = Some (VStr criteria)
  /\ field "compressed_path" j = Some (VStr compressed_path)
  /\ field "analysis" j = option_map VStr analysis
  /\ field "clips" j = clips
  /\ field "highlight_video_path" j = None.

End Pipeline.

(* ================================================================== *)
(** * The S3 Vectors index ([utils/s3_vectors_handler.py]) *)
Module S3VectorsHandler.

(** exceptions by class; the last string is [str(e)].  A [ClientError] is
    botocore's, with [e.response['Error']['Code']]. *)
Inductive exn : Type :=
| ClientError (code : string) (msg : string)
| Exception (msg : string)
| KeyError (msg : string)
| OtherError (msg : string).

Definition str (e : exn) : string :=
  match e with
  | ClientError _ msg | Exception msg | KeyError msg | OtherError msg => msg
  end.

(** one entry of [response['Vectors']]; [None] is a missing key *)
Record found : Type := {
  VectorId : option string;
  Distance : option PyFloat.float;
  Metadata : option VectorStore.meta
}.

(** the requests sent to the s3vectors client *)
Inductive request : Type :=
| CreateVectorBucket
| CreateVectorIndex (dimension : Z)
| PutVector (vector_id : string) (with_metadata : bool)
| QueryVectors (max_results : Z)
| DeleteVector (vector_id : string).

(** the boto3 s3vectors client on an index of type [B] *)
Class Client (B : Type) : Type := {
  client_create_vector_bucket : B -> exn + B;
  client_create_vector_index : B -> Z -> exn + B;
  (** the metadata is [None] when the request has no ['Metadata'] *)
  client_put_vector : B -> string -> vector -> option VectorStore.meta -> exn + B;
  (** [inr None]: the response has no ['Vectors'] *)
  client_query_vectors : B -> vector -> Z -> exn + option (list found);
  client_delete_vector : B -> string -> exn + B
}.

Section Methods.
Context {B : Type} `{Client B}.
Local Open Scope eff_scope.

Definition M (A : Type) : Type := Eff.M (S := B) (E := exn) (T := request) A.

(** a request whose answer is not read *)
Definition send (r : request) (f : B -> exn + B) : M unit :=
  fun b =>
    match f b with
    | inl e => (inl e, b, [r])
    | inr b' => (inr tt, b', [r])
    end.

(** [except ClientError as e: raise Exception(f"{what}: {str(e)}")]; an
    exception of another class is not caught *)
Definition reraise {A} (what : string) (e : exn) : M A :=
  match e with
  | ClientError _ _ => Eff.raise (Exception (what ++ ": " ++ str e)%string)
  | _ => Eff.raise e
  end.

(** [except ClientError as e] with a code that is tolerated *)
Definition tolerate (code what : string) (e : exn) : M unit :=
  match e with
  | ClientError c _ =>
      if String.eqb c code then Eff.ret tt
      else Eff.raise (Exception (what ++ ": " ++ str e)%string)
  | _ => Eff.raise e
  end.

(** [create_vector_bucket(self)] *)
Definition create_vector_bucket : M unit :=
  Eff.try_except
    (send CreateVectorBucket client_create_vector_bucket)
    (tolerate "BucketAlreadyExists" "Failed to create vector bucket").

(** [create_vector_index(self, dimension=1024)] *)
Definition create_vector_index (dimension : Z) : M unit :=
  Eff.try_except
    (send (CreateVectorIndex dimension)
          (fun b => client_create_vector_index b dimension))
    (tolerate "IndexAlreadyExists" "Failed to create vector index").

(** [if metadata: request_params['Metadata'] = metadata] *)
Definition metadata_param (metadata : VectorStore.meta)
  : option VectorStore.meta :=
  match metadata with
  | [] => None
  | _ => Some metadata
  end.

(** [put_vector(self, vector_id, vector, metadata)] *)
Definition put_vector (vector_id : string) (v : vector)
  (metadata : VectorStore.meta) : M unit :=
  Eff.try_except
    (send (PutVector vector_id
             (match metadata_param metadata with Some _ => true | None => false end))
          (fun b => client_put_vector b vector_id v (metadata_param metadata)))
    (reraise "Failed to store vector").

(** [query_vectors(self, query_vector, max_results)]: the answer is
    [response.get('Vectors', [])] *)
Definition query_vectors (query_vector : vector) (max_results : Z)
  : M (list found) :=
  Eff.try_except
    (fun b =>
       match client_query_vectors b query_vector max_results with
       | inl e => (inl e, b, [QueryVectors max_results])
       | inr (Some vectors) => (inr vectors, b, [QueryVectors max_results])
       | inr None => (inr [], b, [QueryVectors max_results])
       end)
    (reraise "Failed to query vectors").

(** [delete_vector(self, vector_id)] *)
Definition delete_vector (vector_id : string) : M unit :=
  Eff.try_except
    (send (DeleteVector vector_id)
          (fun b => client_delete_vector b vector_id))
    (reraise "Failed to delete vector").

End Methods.

End S3VectorsHandler.

(* ================================================================== *)
(** * Search over S3 Vectors ([utils/s3_vector_search.py]) *)
Module S3VectorSearch.
Import S3VectorsHandler.

(** [1 - distance] *)
Definition one_minus (distance : PyFloat.float) : PyFloat.float :=
  SFsub PyFloat.prec PyFloat.emax (PyFloat.of_Z 1) distance.

(** the loop of [search] that builds [formatted_results]; [result['VectorId']]
    raises when the key is missing *)
Fixpoint format_results (results : list found) : exn + list VectorStore.hit :=
  match results with
  | [] => inr []
  | result :: rest =>
      match VectorId result with
      | None => inl (KeyError "'VectorId'")
      | Some id =>
          match format_results rest with
          | inl e => inl e
          | inr more =>
              inr ({| VectorStore.hit_id := id;
                      VectorStore.similarity :=
                        one_minus (match Distance result with
                                   | Some d => d
                                   | None => PyFloat.of_Z 0
                                   end);
                      VectorStore.hit_metadata :=
                        match Metadata result with
                        | Some m => m
                        | None => []
                        end |} :: more)
          end
      end
  end.

Section Methods.
Context {B : Type} `{Client B}.
Local Open Scope eff_scope.

(** [_ensure_setup(self)], called by [__init__] *)
Definition _ensure_setup : M unit :=
  Eff.try_except
    (create_vector_bucket ;;; create_vector_index 1024)
    (fun _ => Eff.ret tt).

(** [add_vector(self, id, vector, metadata)] *)
Definition add_vector (id : string) (v : vector) (metadata : VectorStore.meta)
  : M unit :=
  match v with
  | [] => Eff.raise (Exception "Vector is empty")
  | _ =>
    if negb (VectorStore.any_nonzero v)
    then Eff.raise (Exception "Vector contains all zeros")
    else
      Eff.try_except
        (put_vector id v metadata)
        (fun e => Eff.raise (Exception ("Failed to add vector: " ++ str e)%string))
  end.

(** [search(self, query_vector, top_k=5)] *)
Definition search (query_vector : vector) (top_k : Z)
  : M (list VectorStore.hit) :=
  Eff.try_except
    (results <- query_vectors query_vector top_k ;;
     Eff.lift (format_results results))
    (fun _ => Eff.ret []).

(** [delete_vector(self, id)] *)
Definition delete_vector (id : string) : M unit :=
  Eff.try_except
    (S3VectorsHandler.delete_vector id)
    (fun e => Eff.raise (Exception ("Failed to delete vector: " ++ str e)%string)).

(** the class defines no method [detect_vector_dimension]: reading the
    attribute raises an [AttributeError], whose text this is *)
Definition no_detect_vector_dimension : string :=
  "'S3VectorSearch' object has no attribute 'detect_vector_dimension'".

End Methods.

End S3VectorSearch.

(* ================================================================== *)
(** * The endpoints of [app.py] that read a job, search and check a file
      name *)
Module Api.
Import Highlight Pipeline.

(** the values of a JSON response body *)
Inductive json : Type :=
| JNull
| JBool (b : bool)
| JStr (s : string)
| JInt (n : Z)
| JOf (v : value)
| JResults (l : list VectorStore.hit).

(** what a view function returns: [jsonify(body), status_code] or
    [send_file(path, ...)] *)
Inductive response : Type :=
| Jsonify (body : sdict json) (status_code : Z)
| SendFile (path : string).

(** [jsonify({'error': msg}), status_code] *)
Definition error (msg : string) (status_code : Z) : response :=
  Jsonify [("error"%string, JStr msg)] status_code.

(** [job_status.get(key)] *)
Definition get (key : string) (job_status : job) : json :=
  match field key job_status with
  | Some v => JOf v
  | None => JNull
  end.

(** [job_status.get(key, default)] *)
Definition get_or (key : string) (default : value) (job_status : job) : json :=
  match field key job_status with
  | Some v => JOf v
  | None => JOf default
  end.

(** [get_job_status(job_id)] on the registry [highlight_jobs] *)
Definition get_job_status (highlight_jobs : sdict job) (job_id : string)
  : response :=
  match Dict.get String.eqb job_id highlight_jobs with
  | None => error "任务不存在" 404
  | Some job_status =>
      match field "status" job_status with
      | None => error "'status'" 500
      | Some status =>
          Jsonify
            [ ("success", JBool true);
              ("status", JOf status);
              ("current_step", get_or "current_step" (VInt 1) job_status);
              ("progress", get_or "progress" (VInt 0) job_status);
              ("step_messages", get_or "step_messages" (VMessages []) job_status);
              ("criteria", get "criteria" job_status);
              ("analysis", get "analysis" job_status);
              ("clips", get_or "clips" (VClipsInfo []) job_status);
              ("clips_count", get_or "clips_count" (VInt 0) job_status);
              ("highlight_video_url", get "highlight_video_url" job_status);
              ("original_duration", get_or "original_duration" (VInt 0) job_status);
              ("highlight_duration", get_or "highlight_duration" (VInt 0) job_status);
              ("error", get "error" job_status) ]%string
            200
      end
  end.

(** [v == s] for a value of a job record and a string *)
Definition is_str (v : value) (s : string) : bool :=
  match v with
  | VStr x => String.eqb x s
  | _ => false
  end.

(** [send_file(video_path, as_attachment=True, ...)]: Flask opens the file
    itself and resolves a relative path against the root of the application,
    not against the working directory that [os.path.exists] uses; [inl msg]
    is a raised exception whose [str] is [msg] *)
Class FileServer : Type := {
  send_file : string -> string + unit
}.

(** [download_highlight(job_id)].  The worker is the only writer of a job
    record and stores a string under ['highlight_video_path']; a path that is
    missing, not a string or empty is answered alike.  An exception of
    [send_file] is answered by the handler of the view. *)
Definition download_highlight {services : Services} {server : FileServer}
  (highlight_jobs : sdict job) (job_id : string) : response :=
  match Dict.get String.eqb job_id highlight_jobs with
  | None => error "任务不存在" 404
  | Some job_status =>
      match field "status" job_status with
      | None => error "'status'" 500
      | Some status =>
          if negb (is_str status "completed")
          then error "视频还未生成完成" 400
          else
            match field "highlight_video_path" job_status with
            | Some (VStr video_path) =>
                if negb (String.eqb video_path "") && path_exists video_path
                then match send_file video_path with
                     | inr _ => SendFile video_path
                     | inl msg => error msg 500
                     end
                else error "视频文件不存在" 404
            | _ => error "视频文件不存在" 404
            end
      end
  end.

(** ** the search endpoint *)

(** the JSON body of a search request after its three [data.get] *)
Record search_request : Type := {
  query_text : string;
  top_k : Z;
  search_dimension : option Z
}.

(** [nova_embedding.generate_embedding('text', text, dimension=d)];
    [inl msg] is a raised exception whose [str] is [msg] *)
Class Embedder : Type := {
  generate_embedding : string -> Z -> string + vector
}.

Section Search.
Context {B : Type} `{S3VectorsHandler.Client B} {embedder : Embedder}.
Local Open Scope eff_scope.

(** [search()] of the route [/api/search]; [vector_search] is an
    [S3VectorSearch] *)
Definition search (data : search_request)
  : S3VectorsHandler.M (B := B) response :=
  if String.eqb (PyStr.strip (query_text data)) ""
  then Eff.ret (error "Query text is required" 400)
  else
    match search_dimension data with
    | Some d =>
        if negb (existsb (Z.eqb d) [256; 384; 1024; 3072])
        then Eff.ret (error ("Invalid search dimension: " ++ PyStr.of_Z d)%string 400)
        else
          match generate_embedding (PyStr.strip (query_text data)) d with
          | inl msg =>
              Eff.ret (error ("Failed to generate query embedding: " ++ msg)%string 500)
          | inr query_embedding =>
              Eff.try_except
                (results <- S3VectorSearch.search query_embedding (top_k data) ;;
                 Eff.ret (Jsonify [ ("success", JBool true);
                                    ("results", JResults results);
                                    ("search_dimension", JInt d) ]%string 200))
                (fun e =>
                   Eff.ret (error ("Vector search failed: "
                                   ++ S3VectorsHandler.str e)%string 500))
          end
    | None =>
        Eff.ret (error S3VectorSearch.no_detect_vector_dimension 500)
    end.

End Search.

(** ** the check of a file name *)

(** [app.config['ALLOWED_EXTENSIONS']] *)
Definition ALLOWED_EXTENSIONS : sdict (list string) :=
  [ ("image", ["png"; "jpg"; "jpeg"; "gif"; "bmp"]);
    ("video", ["mp4"; "avi"; "mov"; "wmv"]);
    ("audio", ["mp3"; "wav"; "flac"; "m4a"]);
    ("text", ["txt"; "pdf"; "doc"; "docx"]) ]%string.

(** [s.rsplit(sep, 1)] when [sep] occurs in [s]: what stands before the last
    [sep] and what stands after it; [None] when [sep] does not occur *)
Fixpoint rsplit1 (sep : ascii) (s : string) : option (string * string) :=
  match s with
  | EmptyString => None
  | String c s' =>
      match rsplit1 sep s' with
      | Some (head, tail) => Some (String c head, tail)
      | None => if Ascii.eqb c sep then Some (EmptyString, s') else None
      end
  end.

(** [c.lower()] on the characters below 128 *)
Definition lower_char (c : ascii) : ascii :=
  let n := nat_of_ascii c in
  if ((65 <=? n) && (n <=? 90))%nat then ascii_of_nat (n + 32) else c.

(** [s.lower()] *)
Fixpoint lower (s : string) : string :=
  match s with
  | EmptyString => EmptyString
  | String c s' => String (lower_char c) (lower s')
  end.

(** [allowed_file(filename, file_type)]; [inl] is the [KeyError] of
    [ALLOWED_EXTENSIONS[file_type]], which is read only when the name has a
    dot *)
Definition allowed_file (filename file_type : string) : string + bool :=
  match rsplit1 "."%char filename with
  | None => inr false
  | Some (_, extension) =>
      match Dict.get String.eqb file_type ALLOWED_EXTENSIONS with
      | None => inl file_type
      | Some extensions => inr (existsb (String.eqb (lower extension)) extensions)
      end
  end.

End Api.

(* ================================================================== *)
(** * Concrete services and inputs *)
Module Examples.
Import VectorStore.

(** numbers *)
Definition f1 : PyFloat.float := PyFloat.of_Z 1.
Definition f2 : PyFloat.float := PyFloat.of_Z 2.
(** [2.0 ** 752], whose square overflows *)
Definition huge : PyFloat.float := S754_finite false 4503599627370496 700.

(** a vector of 256 components: [x] followed by zeros *)
Definition v256 (x : PyFloat.float) : vector := x :: repeat PyFloat.zero 255.
(** fifty ones *)
Definition ones50 : vector := repeat f1 50.

(** a bucket held in memory that refuses every request while it is offline *)
Record mem_bucket : Type := {
  objects : sdict vector_data;
  online : bool
}.

#[global] Instance mem_client : S3Client mem_bucket := {
  put_object b key data :=
    if online b
    then inr {| objects := Dict.set String.eqb key data (objects b);
                online := true |}
    else inl "bucket is offline"%string;
  list_objects_v2 b prefix :=
    if online b
    then inr (match filter (PyStr.startswith prefix) (map fst (objects b)) with
              | [] => None
              | keys => Some keys
              end)
    else inl "bucket is offline"%string;
  get_object b key :=
    if online b
    then match Dict.get String.eqb key (objects b) with
         | Some d => Some {| ld_id := vd_id d; ld_vector := vd_vector d;
                             ld_metadata := Some (vd_metadata d) |}
         | None => None
         end
    else None
}.

Definition empty_online : mem_bucket := {| objects := []; online := true |}.
Definition empty_offline : mem_bucket := {| objects := []; online := false |}.

(** the same store with its bucket switched off *)
Definition unplug (st : store mem_bucket) : store mem_bucket :=
  {| vectors_by_dimension := vectors_by_dimension st;
     metadata := metadata st;
     bucket := {| objects := objects (bucket st); online := false |} |}.

(** a store that holds ["a"] and then ["b"] in the shard of dimension 256 *)
Definition store_a : store mem_bucket :=
  Eff.state (add_vector "a" (v256 f1) [] (init empty_online)).
Definition store_ab : store mem_bucket :=
  Eff.state (add_vector "b" (v256 f2) [] store_a).

(** ** scripted services for the extractor *)

(** what each external service answers during one run *)
Record script : Type := {
  claude_answer : Highlight.exn + string;
  probe_answer : Highlight.exn + (Z * PyFloat.float);
  analysis_answer : Highlight.exn + string;
  segments_answer : Highlight.exn + list (option vector);
  embedding_answer : string -> Highlight.exn + vector;
  extract_answer : Highlight.exn + unit;
  stitch_answer : Highlight.exn + unit
}.

Definition scripted (s : script) : Highlight.Services := {|
  Highlight.invoke_claude _ := claude_answer s;
  Highlight.ffprobe_format _ := probe_answer s;
  Highlight.ffmpeg_compress _ _ _ := inr tt;
  Highlight.path_exists _ := true;
  Highlight.nova_analyze _ _ := analysis_answer s;
  Highlight.segmented_embeddings _ _ := segments_answer s;
  Highlight.new_clips_dir := "static/clips/job"%string;
  Highlight.get_embedding := embedding_answer s;
  Highlight.ffmpeg_extract _ _ _ _ := extract_answer s;
  Highlight.ffmpeg_stitch _ _ := stitch_answer s;
  Highlight.get_video_duration _ := PyFloat.of_Z 30
|}.

(** [send_file] of an application whose root is not the working directory:
    the relative path of the video is not found *)
Definition root_elsewhere : Api.FileServer := {|
  Api.send_file _ := inl "404 Not Found"%string
|}.

Definition vec2 (x y : Z) : vector := [PyFloat.of_Z x; PyFloat.of_Z y].

(** two labelled points and a line without a label *)
Definition two_points : string :=
"Summary of the video
A. [1] - the goal
B. [2] - the save".

Definition no_points : string :=
"The video shows a match.
Nothing stands out.".

(** every text is embedded as [(1, 0)] *)
Definition embed_all (_ : string) : Highlight.exn + vector := inr (vec2 1 0).

(** the text of point B cannot be embedded *)
Definition embed_all_but_b (pt : string) : Highlight.exn + vector :=
  if PyStr.startswith "B." pt
  then inl (Highlight.Exception "embedding service unavailable")
  else inr (vec2 1 0).

(** a run in which every service answers: a 20 MB video, four segments *)
Definition all_fine : script := {|
  claude_answer := inr "## criteria"%string;
  probe_answer := inr (20 * 1024 * 1024, PyFloat.of_Z 12);
  analysis_answer := inr two_points;
  segments_answer :=
    inr [Some (vec2 3 4); Some (vec2 4 3); None; Some (vec2 1 0)];
  embedding_answer := embed_all;
  extract_answer := inr tt;
  stitch_answer := inr tt
|}.

(** the same run with one service failing *)
Definition claude_down : script := {|
  claude_answer := inl (Highlight.Exception "model not available");
  probe_answer := probe_answer all_fine;
  analysis_answer := analysis_answer all_fine;
  segments_answer := segments_answer all_fine;
  embedding_answer := embedding_answer all_fine;
  extract_answer := extract_answer all_fine;
  stitch_answer := stitch_answer all_fine
|}.

Definition ffprobe_missing : script := {|
  claude_answer := claude_answer all_fine;
  probe_answer := inl (Highlight.CalledProcessError "ffprobe: not found");
  analysis_answer := analysis_answer all_fine;
  segments_answer := segments_answer all_fine;
  embedding_answer := embedding_answer all_fine;
  extract_answer := extract_answer all_fine;
  stitch_answer := stitch_answer all_fine
|}.

Definition analysis_down : script := {|
  claude_answer := claude_answer all_fine;
  probe_answer := probe_answer all_fine;
  analysis_answer := inl (Highlight.Exception "throttled");
  segments_answer := segments_answer all_fine;
  embedding_answer := embedding_answer all_fine;
  extract_answer := extract_answer all_fine;
  stitch_answer := stitch_answer all_fine
|}.

Definition point_b_fails : script := {|
  claude_answer := claude_answer all_fine;
  probe_answer := probe_answer all_fine;
  analysis_answer := analysis_answer all_fine;
  segments_answer := segments_answer all_fine;
  embedding_answer := embed_all_but_b;
  extract_answer := extract_answer all_fine;
  stitch_answer := stitch_answer all_fine
|}.

Definition unlabelled_analysis : script := {|
  claude_answer := claude_answer all_fine;
  probe_answer := probe_answer all_fine;
  analysis_answer := inr no_points;
  segments_answer := segments_answer all_fine;
  embedding_answer := embedding_answer all_fine;
  extract_answer := extract_answer all_fine;
  stitch_answer := stitch_answer all_fine
|}.

(** candidate segments that start at 0, 2 and 9 *)
Definition segment (i t : Z) (e : vector) : Highlight.clip := {|
  Highlight.video_source := "video.mp4"%string;
  Highlight.output_dir := "static/clips/job"%string;
  Highlight.timestamp := t;
  Highlight.duration := 3;
  Highlight.index := i;
  Highlight.embedding := Some e;
  Highlight.path := None
|}.

Definition near_clips : list Highlight.clip :=
  [segment 0 0 (vec2 3 4); segment 1 2 (vec2 4 3); segment 2 9 (vec2 1 0)].

(** the same segments as selected for the point ["A. x"] *)
Definition pick (i t : Z) (e : vector) (sim : PyFloat.float) : Highlight.selected :=
  {| Highlight.seg := segment i t e;
     Highlight.similarity := sim;
     Highlight.point := "A. x"%string |}.

Definition sim_of (e : vector) : PyFloat.float :=
  match Highlight.cosine_similarity (vec2 1 0) e with
  | inr x => x
  | inl _ => PyFloat.zero
  end.

Definition pick0 : Highlight.selected := pick 0 0 (vec2 3 4) (sim_of (vec2 3 4)).
Definition pick1 : Highlight.selected := pick 1 2 (vec2 4 3) (sim_of (vec2 4 3)).
Definition pick2 : Highlight.selected := pick 2 9 (vec2 1 0) (sim_of (vec2 1 0)).

End Examples.

(* ================================================================== *)
(** * Facts about dictionaries *)
Section DictFacts.
Context {K V : Type}.
Variable keq : K -> K -> bool.
Hypothesis keq_refl : forall k, keq k k = true.

Lemma dict_get_set_same (k : K) (v : V) d :
  Dict.get keq k (Dict.set keq k v d) = Some v.
Proof.
  induction d as [|[k' v'] d IH]; simpl.
  - now rewrite keq_refl.
  - destruct (keq k k') eqn:E; simpl; rewrite E; auto.
Qed.

Lemma dict_del_set_fresh (k : K) (v : V) d :
  Dict.get keq k d = None -> Dict.del keq k (Dict.set keq k v d) = d.
Proof.
  induction d as [|[k' v'] d IH]; simpl; intros Hn.
  - now rewrite keq_refl.
  - destruct (keq k k') eqn:E; [discriminate|].
    simpl. rewrite E. now rewrite IH.
Qed.

Lemma dict_set_set (k : K) (v v' : V) d :
  Dict.set keq k v (Dict.set keq k v' d) = Dict.set keq k v d.
Proof.
  induction d as [|[k0 v0] d IH]; simpl.
  - now rewrite keq_refl.
  - destruct (keq k k0) eqn:E; simpl; rewrite E; [reflexivity|now rewrite IH].
Qed.

Lemma dict_set_get (k : K) (v : V) d :
  Dict.get keq k d = Some v -> Dict.set keq k v d = d.
Proof.
  induction d as [|[k0 v0] d IH]; simpl; intros Hg; [discriminate|].
  destruct (keq k k0) eqn:E.
  - now inversion Hg.
  - now rewrite IH.
Qed.

Lemma dict_get_set_other (keq_eq : forall a b, keq a b = true -> a = b)
  (k k' : K) (v : V) d :
  keq k k' = false ->
  Dict.get keq k (Dict.set keq k' v d) = Dict.get keq k d.
Proof.
  intros Hne. induction d as [|[k0 v0] d IH]; simpl.
  - now rewrite Hne.
  - destruct (keq k' k0) eqn:E; simpl.
    + apply keq_eq in E. subst k0. now rewrite Hne.
    + destruct (keq k k0); [reflexivity|exact IH].
Qed.

Lemma dict_keys_set_present (k : K) (v : V) d :
  Dict.mem keq k d = true -> Dict.keys (Dict.set keq k v d) = Dict.keys d.
Proof.
  unfold Dict.mem, Dict.keys.
  induction d as [|[k0 v0] d IH]; simpl; intros Hm; [discriminate|].
  destruct (keq k k0) eqn:E; simpl; [reflexivity|].
  now rewrite IH.
Qed.

End DictFacts.

(* ================================================================== *)
(** * The vector store: validation, persistence and lookup *)
Section StoreFacts.
Import VectorStore.
Context {B : Type} `{S3Client B}.

(** a well-formed store has its four shards, in the order of [__init__] *)
Lemma well_formed_shape (st : store B) :
  well_formed st ->
  exists s1 s2 s3 s4,
    vectors_by_dimension st = [(256, s1); (384, s2); (1024, s3); (3072, s4)].
Proof.
  unfold well_formed, Dict.keys.
  destruct (vectors_by_dimension st)
    as [|[k1 s1] [|[k2 s2] [|[k3 s3] [|[k4 s4] [|? ?]]]]]; simpl;
    intros Hk; try discriminate.
  inversion Hk; subst. now exists s1, s2, s3, s4.
Qed.

Lemma well_formed_mem (st : store B) d :
  well_formed st ->
  Dict.mem Z.eqb d (vectors_by_dimension st) = supported d.
Proof.
  intros Hw. destruct (well_formed_shape st Hw) as (s1 & s2 & s3 & s4 & E).
  rewrite E. unfold Dict.mem, supported. simpl.
  destruct (d =? 256), (d =? 384), (d =? 1024), (d =? 3072); reflexivity.
Qed.

Lemma init_well_formed (b : B) : well_formed (init b).
Proof. reflexivity. Qed.

Lemma supported_at_least_256 d : supported d = true -> 256 <= d.
Proof. unfold supported. lia. Qed.

End StoreFacts.

(* ================================================================== *)
(** * Running a computation step by step *)
Section EffFacts.
Context {S E T : Type}.
Let M := Eff.M (S := S) (E := E) (T := T).

Lemma bind_returns {A C} (m : M A) (k : A -> M C) st a st1 tr1 :
  m st = (inr a, st1, tr1) ->
  Eff.bind m k st = Eff.after tr1 (k a st1).
Proof. intros Hm. unfold Eff.bind, Eff.after. now rewrite Hm. Qed.

Lemma bind_raises {A C} (m : M A) (k : A -> M C) st e st1 tr1 :
  m st = (inl e, st1, tr1) ->
  Eff.bind m k st = (inl e, st1, tr1).
Proof. intros Hm. unfold Eff.bind. now rewrite Hm. Qed.

Lemma try_returns {A} (body : M A) (h : E -> M A) st a st1 tr1 :
  body st = (inr a, st1, tr1) ->
  Eff.try_except body h st = (inr a, st1, tr1).
Proof. intros Hb. unfold Eff.try_except. now rewrite Hb. Qed.

Lemma try_handles {A} (body : M A) (h : E -> M A) st e st1 tr1 :
  body st = (inl e, st1, tr1) ->
  Eff.try_except body h st = Eff.after tr1 (h e st1).
Proof. intros Hb. unfold Eff.try_except, Eff.after. now rewrite Hb. Qed.

Lemma bind_assoc {A C D} (m : M A) (f : A -> M C) (g : C -> M D) st :
  Eff.bind (Eff.bind m f) g st = Eff.bind m (fun x => Eff.bind (f x) g) st.
Proof.
  unfold Eff.bind.
  destruct (m st) as [[[e|a] st1] tr1]; [reflexivity|].
  destruct (f a st1) as [[[e|c] st2] tr2]; [reflexivity|].
  destruct (g c st2) as [[r st3] tr3]. now rewrite app_assoc.
Qed.

End EffFacts.

Section InsertPersistence.
Import VectorStore.
Context {B : Type} `{S3Client B}.

Lemma well_formed_shard (st : store B) d :
  well_formed st -> supported d = true ->
  exists s, Dict.get Z.eqb d (vectors_by_dimension st) = Some s.
Proof.
  intros Hw Hs. pose proof (well_formed_mem st d Hw) as Hm.
  rewrite Hs in Hm. unfold Dict.mem in Hm.
  destruct (Dict.get Z.eqb d (vectors_by_dimension st)) as [s|];
    [now exists s|discriminate].
Qed.

Lemma shard_of_present (st : store B) d s :
  Dict.get Z.eqb d (vectors_by_dimension st) = Some s ->
  shard_of d st = (inr s, st, []).
Proof. intros Hg. unfold shard_of. now rewrite Hg. Qed.

Lemma shard_of_absent (st : store B) d :
  Dict.get Z.eqb d (vectors_by_dimension st) = None ->
  shard_of d st = (inl (KeyError d), st, []).
Proof. intros Hg. unfold shard_of. now rewrite Hg. Qed.

Lemma shard_set_present (st : store B) d id v s :
  Dict.get Z.eqb d (vectors_by_dimension st) = Some s ->
  shard_set d id v st
  = (inr tt,
     {| vectors_by_dimension :=
          Dict.set Z.eqb d (Dict.set String.eqb id v s) (vectors_by_dimension st);
        metadata := metadata st;
        bucket := bucket st |},
     [ShardSet d id]).
Proof.
  intros Hg. unfold shard_set.
  now rewrite (bind_returns _ _ _ _ _ _ (shard_of_present st d s Hg)).
Qed.

Lemma shard_del_present (st : store B) d id s :
  Dict.get Z.eqb d (vectors_by_dimension st) = Some s ->
  shard_del d id st
  = (inr tt,
     {| vectors_by_dimension :=
          Dict.set Z.eqb d (Dict.del String.eqb id s) (vectors_by_dimension st);
        metadata := metadata st;
        bucket := bucket st |},
     [ShardDel d id]).
Proof.
  intros Hg. unfold shard_del.
  now rewrite (bind_returns _ _ _ _ _ _ (shard_of_present st d s Hg)).
Qed.

(** [add_vector] once the vector passed the checks: the record is written to
    memory, then sent to the bucket; when the bucket refuses it, the two
    entries are deleted again *)
Lemma add_vector_accepted (st : store B) id v m s :
  any_nonzero v = true ->
  Dict.get Z.eqb (Z.of_nat (List.length v)) (vectors_by_dimension st) = Some s ->
  100 <= Z.of_nat (List.length v) ->
  let d := Z.of_nat (List.length v) in
  let mw := with_dimension m d in
  let data := {| vd_id := id; vd_vector := v; vd_metadata := mw |} in
  let vbd1 := Dict.set Z.eqb d (Dict.set String.eqb id v s)
                (vectors_by_dimension st) in
  let md1 := Dict.set String.eqb id mw (metadata st) in
  add_vector id v m st =
  match put_object (bucket st) (s3_key d id) data with
  | inr b' =>
      (inr tt,
       {| vectors_by_dimension := vbd1; metadata := md1; bucket := b' |},
       [ShardSet d id; MetaSet id; S3Put (s3_key d id)])
  | inl msg =>
      (inl (SaveToS3Failed msg),
       {| vectors_by_dimension :=
            Dict.set Z.eqb d (Dict.del String.eqb id (Dict.set String.eqb id v s))
              vbd1;
          metadata := Dict.del String.eqb id md1;
          bucket := bucket st |},
       [ShardSet d id; MetaSet id; S3Put (s3_key d id);
        ShardDel d id; MetaDel id])
  end.
Proof.
  intros Hnz Hg Hd. cbv zeta.
  unfold add_vector. destruct v as [|x v']; [discriminate|].
  rewrite Hnz. cbn [negb].
  set (d := Z.of_nat (List.length (x :: v'))) in *.
  set (mw := with_dimension m d).
  set (data := {| vd_id := id; vd_vector := x :: v'; vd_metadata := mw |}).
  set (vbd1 := Dict.set Z.eqb d (Dict.set String.eqb id (x :: v') s)
                 (vectors_by_dimension st)).
  set (md1 := Dict.set String.eqb id mw (metadata st)).
  erewrite bind_returns by reflexivity. cbv beta.
  unfold Dict.mem at 1. rewrite Hg. cbn [negb].
  replace (d <? 100) with false by lia.
  rewrite (bind_returns _ _ _ _ _ _ (shard_set_present st d id _ s Hg)). cbv beta.
  erewrite bind_returns by reflexivity. cbv beta.
  cbn [vectors_by_dimension metadata bucket].
  destruct (put_object (bucket st) (s3_key d id) data) as [msg|b'] eqn:Hput.
  - erewrite try_handles
      by (unfold s3_put; cbn [bucket]; rewrite Hput; reflexivity).
    cbn [vectors_by_dimension metadata bucket cause_of].
    set (st2 := {| vectors_by_dimension := vbd1; metadata := md1;
                   bucket := bucket st |}).
    assert (Hg2 : Dict.get Z.eqb d (vectors_by_dimension st2)
                  = Some (Dict.set String.eqb id (x :: v') s)).
    { apply (dict_get_set_same Z.eqb Z.eqb_refl). }
    rewrite (bind_returns _ _ _ _ _ _ (shard_of_present st2 d _ Hg2)). cbv beta.
    unfold Dict.mem at 1.
    rewrite (dict_get_set_same String.eqb String.eqb_refl).
    unfold Eff.when at 1.
    rewrite (bind_returns _ _ _ _ _ _ (shard_del_present st2 d id _ Hg2)). cbv beta.
    erewrite bind_returns by reflexivity. cbv beta.
    cbn [vectors_by_dimension metadata bucket st2].
    unfold Dict.mem at 1. unfold md1 at 1.
    rewrite (dict_get_set_same String.eqb String.eqb_refl).
    unfold Eff.when at 1.
    erewrite bind_returns by reflexivity. cbv beta.
    reflexivity.
  - erewrite try_returns
      by (unfold s3_put; cbn [bucket]; rewrite Hput; reflexivity).
    reflexivity.
Qed.


(** ** the shards are never added or removed *)

Lemma keeps_ret {A} (a : A) : keeps_shards (B := B) (Eff.ret a).
Proof. now intros st. Qed.

Lemma keeps_raise {A} (e : exn) :
  keeps_shards (B := B) (Eff.raise (A := A) e).
Proof. now intros st. Qed.

Lemma keeps_bind {A C} (m : @M B A) (k : A -> @M B C) :
  keeps_shards (B := B) m -> (forall a, keeps_shards (B := B) (k a)) -> keeps_shards (B := B) (Eff.bind m k).
Proof.
  intros Hm Hk st. specialize (Hm st). unfold Eff.bind, Eff.state in *.
  destruct (m st) as [[[e|a] st1] tr1]; cbn [fst snd] in *; [exact Hm|].
  specialize (Hk a st1). unfold Eff.state in Hk.
  destruct (k a st1) as [[r st2] tr2]; cbn [fst snd] in *. congruence.
Qed.

Lemma keeps_try {A} (body : @M B A) (h : exn -> @M B A) :
  keeps_shards (B := B) body -> (forall e, keeps_shards (B := B) (h e)) ->
  keeps_shards (B := B) (Eff.try_except body h).
Proof.
  intros Hb Hh st. specialize (Hb st). unfold Eff.try_except, Eff.state in *.
  destruct (body st) as [[[e|a] st1] tr1]; cbn [fst snd] in *; [|exact Hb].
  specialize (Hh e st1). unfold Eff.state in Hh.
  destruct (h e st1) as [[r st2] tr2]; cbn [fst snd] in *. congruence.
Qed.

Lemma keeps_when c (m : @M B unit) : keeps_shards (B := B) m -> keeps_shards (B := B) (Eff.when c m).
Proof. intros Hm. destruct c; [exact Hm|apply keeps_ret]. Qed.

Lemma keeps_for_each {A} (body : A -> @M B unit) l :
  (forall x, keeps_shards (B := B) (body x)) -> keeps_shards (B := B) (Eff.for_each body l).
Proof.
  intros Hb. induction l as [|x l IH]; cbn [Eff.for_each].
  - apply keeps_ret.
  - apply keeps_bind; [apply Hb|intros _; exact IH].
Qed.

Lemma keeps_shard_of d : keeps_shards (B := B) (shard_of d).
Proof.
  intros st. unfold shard_of.
  now destruct (Dict.get Z.eqb d (vectors_by_dimension st)).
Qed.

Lemma keeps_shard_set d id v : keeps_shards (B := B) (shard_set d id v).
Proof.
  intros st. unfold shard_set, shard_of, Eff.bind, Eff.state.
  destruct (Dict.get Z.eqb d (vectors_by_dimension st)) eqn:Hg;
    cbn [fst snd vectors_by_dimension]; [|reflexivity].
  apply dict_keys_set_present. unfold Dict.mem. now rewrite Hg.
Qed.

Lemma keeps_shard_del d id : keeps_shards (B := B) (shard_del d id).
Proof.
  intros st. unfold shard_del, shard_of, Eff.bind, Eff.state.
  destruct (Dict.get Z.eqb d (vectors_by_dimension st)) eqn:Hg;
    cbn [fst snd vectors_by_dimension]; [|reflexivity].
  apply dict_keys_set_present. unfold Dict.mem. now rewrite Hg.
Qed.

Lemma keeps_s3_put key data : keeps_shards (B := B) (s3_put key data).
Proof.
  intros st. unfold s3_put.
  now destruct (put_object (bucket st) key data).
Qed.

Lemma keeps_add_vector id v m : keeps_shards (B := B) (add_vector id v m).
Proof.
  unfold add_vector. destruct v as [|x v']; [apply keeps_raise|].
  destruct (negb (any_nonzero (x :: v'))); [apply keeps_raise|].
  apply keeps_bind; [now intros st|]. intros st.
  destruct (negb _); [apply keeps_raise|].
  destruct (_ <? 100); [apply keeps_raise|].
  apply keeps_bind; [apply keeps_shard_set|]. intros _.
  apply keeps_bind; [now intros st0|]. intros _.
  apply keeps_try; [apply keeps_s3_put|]. intros e.
  apply keeps_bind; [apply keeps_shard_of|]. intros s.
  apply keeps_bind; [apply keeps_when, keeps_shard_del|]. intros _.
  apply keeps_bind; [now intros st0|]. intros st'.
  apply keeps_bind; [apply keeps_when; now intros st0|]. intros _.
  apply keeps_raise.
Qed.

Lemma keeps_load_one d key : keeps_shards (B := B) (load_one d key).
Proof.
  unfold load_one. destruct (PyStr.endswith _ _); [|apply keeps_ret].
  apply keeps_try; [|intros _; apply keeps_ret].
  apply keeps_bind.
  - intros st. unfold s3_get. now destruct (get_object (bucket st) key).
  - intros doc. apply keeps_bind; [apply keeps_shard_set|]. intros _.
    destruct (ld_metadata doc); [now intros st|apply keeps_raise].
Qed.

Lemma keeps_load d : keeps_shards (B := B) (load_vectors_by_dimension d).
Proof.
  unfold load_vectors_by_dimension.
  apply keeps_try; [|intros _; apply keeps_ret].
  apply keeps_bind.
  - intros st. unfold s3_list. now destruct (list_objects_v2 (bucket st) _).
  - intros [keys|]; [|apply keeps_ret].
    apply keeps_for_each. intros key. apply keeps_load_one.
Qed.

Lemma keeps_search q k t : keeps_shards (B := B) (search q k t).
Proof.
  unfold search.
  apply keeps_bind.
  { destruct t as [t|]; [|apply keeps_ret].
    destruct (negb _); [apply keeps_raise|apply keeps_ret]. }
  intros d. apply keeps_bind; [apply keeps_shard_of|]. intros s.
  apply keeps_bind; [apply keeps_when, keeps_load|]. intros _.
  apply keeps_bind; [apply keeps_shard_of|]. intros vectors.
  destruct vectors; [apply keeps_ret|].
  apply keeps_bind; [now intros st|]. intros st. apply keeps_ret.
Qed.

(** every method leaves a well-formed store well-formed, whether it returns
    or raises *)
Lemma add_vector_well_formed (st : store B) id v m :
  well_formed st -> well_formed (Eff.state (add_vector id v m st)).
Proof. unfold well_formed. intros Hw. now rewrite keeps_add_vector. Qed.

Lemma search_well_formed (st : store B) q k t :
  well_formed st -> well_formed (Eff.state (search q k t st)).
Proof. unfold well_formed. intros Hw. now rewrite keeps_search. Qed.

End InsertPersistence.

Section InsertValidation.
Import VectorStore.
Context {B : Type} `{S3Client B}.

Lemma any_nonzero_nil : any_nonzero [] = false.
Proof. reflexivity. Qed.

(** the two checks on the components come first *)
Lemma add_vector_all_zero (st : store B) id v m :
  any_nonzero v = false ->
  add_vector id v m st
  = (inl (match v with [] => VectorIsEmpty | _ => VectorAllZeros end), st, []).
Proof.
  intros Hz. unfold add_vector. destruct v as [|x v]; [reflexivity|].
  now rewrite Hz.
Qed.

(** then the membership of the length among the shards *)
Lemma add_vector_unsupported (st : store B) id v m :
  well_formed st ->
  any_nonzero v = true ->
  supported (Z.of_nat (List.length v)) = false ->
  add_vector id v m st
  = (inl (UnsupportedDim (Z.of_nat (List.length v))), st, []).
Proof.
  intros Hw Hnz Hs. unfold add_vector.
  destruct v as [|x v]; [discriminate|].
  rewrite Hnz. cbn [negb].
  unfold Eff.bind, Eff.get_state.
  rewrite (well_formed_mem st _ Hw), Hs. reflexivity.
Qed.

End InsertValidation.

(** C3, as amended.  On a store whose shards are those of [__init__]:
    [add_vector] rejects every empty vector and every vector whose components
    are all zero with an [InvalidVector] error ("Vector is empty", "Vector
    contains all zeros"); it rejects every other vector whose length is not
    one of 256, 384, 1024, 3072 with [UnsupportedDimension]; hence a vector
    with fewer than 100 components, one of length 50 in particular, is
    rejected with [InvalidVector] when it is empty or all zero and with
    [UnsupportedDimension] otherwise.  A rejected insert changes nothing and
    reaches neither the memory nor the bucket. *)
Theorem insert_rejects_malformed_vectors :
  forall (B : Type) (C : VectorStore.S3Client B) (st : VectorStore.store B)
         (id : string) (v : vector) (m : VectorStore.meta),
    VectorStore.well_formed st ->
    let o := VectorStore.add_vector id v m st in
    (VectorStore.any_nonzero v = false ->
       exists e, o = (inl e, st, []) /\
                 VectorStore.kind_of e = VectorStore.InvalidVector)
    /\ (VectorStore.any_nonzero v = true ->
        VectorStore.supported (Z.of_nat (List.length v)) = false ->
        exists e, o = (inl e, st, []) /\
                  VectorStore.kind_of e = VectorStore.UnsupportedDimension)
    /\ ((List.length v < 100)%nat ->
        exists e, o = (inl e, st, []) /\
                  VectorStore.kind_of e =
                    if VectorStore.any_nonzero v
                    then VectorStore.UnsupportedDimension
                    else VectorStore.InvalidVector).
Proof.
  intros B C st id v m Hw o. subst o.
  assert (Hzero : VectorStore.any_nonzero v = false ->
            exists e, VectorStore.add_vector id v m st = (inl e, st, []) /\
                      VectorStore.kind_of e = VectorStore.InvalidVector).
  { intros Hz. rewrite (add_vector_all_zero st id v m Hz).
    eexists; split; [reflexivity|]. now destruct v. }
  assert (Hdim : VectorStore.any_nonzero v = true ->
            VectorStore.supported (Z.of_nat (List.length v)) = false ->
            exists e, VectorStore.add_vector id v m st = (inl e, st, []) /\
                      VectorStore.kind_of e = VectorStore.UnsupportedDimension).
  { intros Hnz Hs. rewrite (add_vector_unsupported st id v m Hw Hnz Hs).
    eexists; split; reflexivity. }
  split; [exact Hzero|]. split; [exact Hdim|].
  intros Hlen. destruct (VectorStore.any_nonzero v) eqn:Hnz.
  - apply Hdim; [reflexivity|].
    destruct (VectorStore.supported (Z.of_nat (List.length v))) eqn:Hs;
      [|reflexivity].
    apply supported_at_least_256 in Hs. lia.
  - now apply Hzero.
Qed.

(** C3 at fifty ones on a fresh store: the error is [UnsupportedDimension]. *)
Lemma insert_rejects_malformed_vectors_witness :
  VectorStore.well_formed (VectorStore.init Examples.empty_online) /\
  exists e,
    VectorStore.add_vector "a" Examples.ones50 []
      (VectorStore.init Examples.empty_online)
    = (inl e, VectorStore.init Examples.empty_online, []) /\
    VectorStore.kind_of e = VectorStore.UnsupportedDimension.
Proof.
  split; [reflexivity|].
  destruct (insert_rejects_malformed_vectors _ _
              (VectorStore.init Examples.empty_online) "a" Examples.ones50 []
              eq_refl) as (_ & _ & H50).
  apply H50. vm_compute. lia.
Defined.

(** C3 as stated fails: fifty ones are not rejected with [InvalidVector]. *)
Lemma insert_of_fifty_ones_is_not_invalid_vector :
  ~ (exists e,
       Eff.result (VectorStore.add_vector "a" Examples.ones50 []
                     (VectorStore.init Examples.empty_online)) = inl e /\
       VectorStore.kind_of e = VectorStore.InvalidVector).
Proof.
  intros (e & He & Hk). vm_compute in He. inversion He; subst e.
  discriminate Hk.
Qed.

(** C2, as amended.  For an id that is in neither the shard of the vector's
    dimension nor the metadata, and a vector that passes the checks:
    when the write to the bucket fails, [add_vector] raises the persistence
    error ("Failed to save vector to S3: ...") and the whole object, memory
    included, is exactly as before the call; when it succeeds, the record was
    first written to the in-memory shard and to the metadata and then stored
    in the bucket under [vectors/{dimension}/{id}.json], and at the end it is
    in both. *)
Theorem insert_persists_or_rolls_back_fresh_id :
  forall (B : Type) (C : VectorStore.S3Client B) (st : VectorStore.store B)
         (id : string) (v : vector) (m : VectorStore.meta),
    let d := Z.of_nat (List.length v) in
    let mw := VectorStore.with_dimension m d in
    let key := VectorStore.s3_key d id in
    let data := {| VectorStore.vd_id := id; VectorStore.vd_vector := v;
                   VectorStore.vd_metadata := mw |} in
    VectorStore.well_formed st ->
    VectorStore.any_nonzero v = true ->
    VectorStore.supported d = true ->
    VectorStore.stored st d id = None ->
    Dict.get String.eqb id (VectorStore.metadata st) = None ->
    match VectorStore.put_object (VectorStore.bucket st) key data with
    | inl msg =>
        VectorStore.add_vector id v m st
        = (inl (VectorStore.SaveToS3Failed msg), st,
           [VectorStore.ShardSet d id; VectorStore.MetaSet id;
            VectorStore.S3Put key;
            VectorStore.ShardDel d id; VectorStore.MetaDel id])
        /\ VectorStore.kind_of (VectorStore.SaveToS3Failed msg)
           = VectorStore.PersistenceError
    | inr b' =>
        exists st',
          VectorStore.add_vector id v m st
          = (inr tt, st',
             [VectorStore.ShardSet d id; VectorStore.MetaSet id;
              VectorStore.S3Put key])
          /\ VectorStore.bucket st' = b'
          /\ VectorStore.stored st' d id = Some v
          /\ Dict.get String.eqb id (VectorStore.metadata st') = Some mw
    end.
Proof.
  intros B C st id v m d mw key data Hw Hnz Hs Hfresh Hmeta.
  destruct (well_formed_shard st d Hw Hs) as (s & Hg).
  pose proof (supported_at_least_256 d Hs) as Hd.
  assert (Hd' : 100 <= Z.of_nat (List.length v)) by (fold d; lia).
  pose proof (add_vector_accepted st id v m s Hnz Hg Hd') as Hrun.
  cbv zeta in Hrun. fold d in Hrun. fold mw in Hrun. fold key in Hrun.
  fold data in Hrun.
  unfold VectorStore.stored in Hfresh. rewrite Hg in Hfresh.
  destruct (VectorStore.put_object (VectorStore.bucket st) key data)
    as [msg|b'].
  - split; [|reflexivity]. rewrite Hrun. f_equal. f_equal.
    destruct st as [vbd md b].
    cbn [VectorStore.vectors_by_dimension VectorStore.metadata
         VectorStore.bucket] in *.
    f_equal.
    + transitivity (Dict.set Z.eqb d s
                      (Dict.set Z.eqb d (Dict.set String.eqb id v s) vbd)).
      { f_equal.
        exact (dict_del_set_fresh String.eqb String.eqb_refl id v s Hfresh). }
      transitivity (Dict.set Z.eqb d s vbd).
      { apply (dict_set_set Z.eqb Z.eqb_refl). }
      exact (dict_set_get Z.eqb d s vbd Hg).
    + exact (dict_del_set_fresh String.eqb String.eqb_refl id mw md Hmeta).
  - eexists. split; [exact Hrun|].
    cbn [VectorStore.bucket VectorStore.metadata]. split; [reflexivity|].
    split.
    + unfold VectorStore.stored. cbn [VectorStore.vectors_by_dimension].
      rewrite (dict_get_set_same Z.eqb Z.eqb_refl).
      apply (dict_get_set_same String.eqb String.eqb_refl).
    + apply (dict_get_set_same String.eqb String.eqb_refl).
Qed.

(** C2 on a fresh store: with the bucket offline the insert of ["a"] fails and
    leaves the store as it was. *)
Lemma insert_persists_or_rolls_back_fresh_id_witness :
  VectorStore.add_vector "a" (Examples.v256 Examples.f1) []
    (VectorStore.init Examples.empty_offline)
  = (inl (VectorStore.SaveToS3Failed "bucket is offline"),
     VectorStore.init Examples.empty_offline,
     [VectorStore.ShardSet 256 "a"; VectorStore.MetaSet "a";
      VectorStore.S3Put "vectors/256/a.json";
      VectorStore.ShardDel 256 "a"; VectorStore.MetaDel "a"]).
Proof.
  exact (proj1 (insert_persists_or_rolls_back_fresh_id _ _
                  (VectorStore.init Examples.empty_offline) "a"
                  (Examples.v256 Examples.f1) []
                  eq_refl eq_refl eq_refl eq_refl eq_refl)).
Defined.

(** C2 as stated fails twice.  An insert under an id that is already stored,
    whose write to the bucket fails, deletes the record that was there
    instead of restoring it; and a successful insert writes the in-memory
    shard before it writes to the bucket. *)
Lemma insert_rollback_deletes_stored_record :
  let st := Examples.unplug Examples.store_a in
  let o := VectorStore.add_vector "a" (Examples.v256 Examples.f2) [] st in
  (Eff.result o = inl (VectorStore.SaveToS3Failed "bucket is offline")
   /\ VectorStore.stored st 256 "a" = Some (Examples.v256 Examples.f1)
   /\ VectorStore.stored (Eff.state o) 256 "a" = None
   /\ VectorStore.memory (Eff.state o) <> VectorStore.memory st)
  /\ Eff.trace (VectorStore.add_vector "a" (Examples.v256 Examples.f1) []
                  (VectorStore.init Examples.empty_online))
     = [VectorStore.ShardSet 256 "a"; VectorStore.MetaSet "a";
        VectorStore.S3Put "vectors/256/a.json"].
Proof.
  cbv zeta. split; [|vm_compute; reflexivity].
  split; [vm_compute; reflexivity|].
  split; [vm_compute; reflexivity|].
  split; [vm_compute; reflexivity|].
  intros E.
  assert (E' : Dict.get String.eqb "a"%string
                 (snd (VectorStore.memory
                         (Eff.state
                            (VectorStore.add_vector "a"
                               (Examples.v256 Examples.f2) []
                               (Examples.unplug Examples.store_a)))))
               = Dict.get String.eqb "a"%string
                   (snd (VectorStore.memory (Examples.unplug Examples.store_a))))
    by now rewrite E.
  vm_compute in E'. discriminate E'.
Qed.

(** C10.  On a store whose shards are those of [__init__], [search] without a
    target dimension and with a query whose length is not one of 256, 384,
    1024, 3072 raises [KeyError] at the lookup of the shard: it returns no
    result list, raises no dimension-mismatch error, and touches neither the
    memory nor the bucket. *)
Theorem search_of_unsupported_length_raises_key_error :
  forall (B : Type) (C : VectorStore.S3Client B) (st : VectorStore.store B)
         (query_vector : vector) (top_k : Z),
    VectorStore.well_formed st ->
    VectorStore.supported (Z.of_nat (List.length query_vector)) = false ->
    VectorStore.search query_vector top_k None st
    = (inl (VectorStore.KeyError (Z.of_nat (List.length query_vector))), st, [])
    /\ VectorStore.kind_of
         (VectorStore.KeyError (Z.of_nat (List.length query_vector)))
       = VectorStore.Unhandled.
Proof.
  intros B C st q k Hw Hs. split; [|reflexivity].
  unfold VectorStore.search.
  erewrite bind_returns by reflexivity. cbv beta.
  erewrite bind_raises; [reflexivity|].
  apply shard_of_absent.
  pose proof (well_formed_mem st (Z.of_nat (List.length q)) Hw) as Hm.
  rewrite Hs in Hm. unfold Dict.mem in Hm.
  now destruct (Dict.get Z.eqb _ (VectorStore.vectors_by_dimension st)).
Qed.

(** C10 for a query of five components on a store that holds two vectors. *)
Lemma search_of_unsupported_length_raises_key_error_witness :
  VectorStore.search (repeat Examples.f1 5) 5 None Examples.store_ab
  = (inl (VectorStore.KeyError 5), Examples.store_ab, []).
Proof.
  exact (proj1 (search_of_unsupported_length_raises_key_error _ _
                  Examples.store_ab (repeat Examples.f1 5) 5
                  eq_refl eq_refl)).
Defined.

(* ================================================================== *)
(** * Cosine similarity *)
Section CosineFacts.
Import VectorStore.

Lemma float_mul_comm (x y : PyFloat.float) : PyFloat.mul x y = PyFloat.mul y x.
Proof.
  unfold PyFloat.mul.
  destruct x as [sx|sx| |sx mx ex], y as [sy|sy| |sy my ey];
    cbn [SFmul]; try reflexivity;
    try (now rewrite (xorb_comm sx sy)).
  now rewrite (xorb_comm sx sy), (Pos.mul_comm mx my), (Z.add_comm ex ey).
Qed.

Lemma dot_from_comm (a b : vector) (acc : PyFloat.float) :
  dot_from acc a b = dot_from acc b a.
Proof.
  revert b acc. induction a as [|x a IH]; intros [|y b] acc; cbn [dot_from];
    try reflexivity.
  now rewrite (float_mul_comm x y), IH.
Qed.

Lemma dot_comm (a b : vector) : dot a b = dot b a.
Proof.
  unfold dot. rewrite (Nat.eqb_sym (List.length a) (List.length b)).
  now rewrite (dot_from_comm a b).
Qed.

Lemma dot_same_length (a b : vector) :
  List.length a = List.length b -> dot a b = Some (dot_from PyFloat.zero a b).
Proof. intros E. unfold dot. now rewrite E, Nat.eqb_refl. Qed.

End CosineFacts.

(** C9, as amended.  [cosine_similarity(a, b)] returns 0 when either norm is
    0; for vectors of the same length whose norms are both non-zero it
    returns [dot(a,b) / (|a| * |b|)] when that quotient is a finite number,
    and 0 when the quotient is NaN or infinite; and it is symmetric:
    [cosine_similarity(a, b)] and [cosine_similarity(b, a)] are the same
    answer for all [a] and [b]. *)
Theorem cosine_similarity_is_guarded_quotient :
  forall a b : vector,
    let norm1 := VectorStore.norm a in
    let norm2 := VectorStore.norm b in
    let quotient :=
      PyFloat.div (VectorStore.dot_from PyFloat.zero a b)
                  (PyFloat.mul norm1 norm2) in
    (PyFloat.eqb norm1 PyFloat.zero = true \/
     PyFloat.eqb norm2 PyFloat.zero = true ->
       VectorStore.cosine_similarity a b = inr PyFloat.zero)
    /\ (PyFloat.eqb norm1 PyFloat.zero = false ->
        PyFloat.eqb norm2 PyFloat.zero = false ->
        List.length a = List.length b ->
        VectorStore.cosine_similarity a b
        = inr (if PyFloat.isnan quotient || PyFloat.isinf quotient
               then PyFloat.zero else quotient))
    /\ VectorStore.cosine_similarity a b = VectorStore.cosine_similarity b a.
Proof.
  intros a b norm1 norm2 quotient. split; [|split].
  - intros Hz. unfold VectorStore.cosine_similarity. fold norm1 norm2.
    destruct Hz as [Hz|Hz]; rewrite Hz; [reflexivity|].
    now rewrite orb_true_r.
  - intros H1 H2 Hlen. unfold VectorStore.cosine_similarity.
    fold norm1 norm2. rewrite H1, H2. cbn [orb].
    rewrite (dot_same_length a b Hlen). fold quotient.
    now destruct (PyFloat.isnan quotient || PyFloat.isinf quotient).
  - unfold VectorStore.cosine_similarity.
    rewrite (orb_comm (PyFloat.eqb (VectorStore.norm a) PyFloat.zero)).
    rewrite (dot_comm a b).
    now rewrite (float_mul_comm (VectorStore.norm a) (VectorStore.norm b)).
Qed.

(** C9 on [3, 4] and [4, 3]: both norms are 5 and the similarity is 24/25. *)
Lemma cosine_similarity_is_guarded_quotient_witness :
  VectorStore.cosine_similarity
    [PyFloat.of_Z 3; PyFloat.of_Z 4] [PyFloat.of_Z 4; PyFloat.of_Z 3]
  = inr (PyFloat.div (PyFloat.of_Z 24) (PyFloat.of_Z 25))
  /\ VectorStore.cosine_similarity
       [PyFloat.of_Z 3; PyFloat.of_Z 4] [PyFloat.of_Z 4; PyFloat.of_Z 3]
     = VectorStore.cosine_similarity
         [PyFloat.of_Z 4; PyFloat.of_Z 3] [PyFloat.of_Z 3; PyFloat.of_Z 4].
Proof.
  destruct (cosine_similarity_is_guarded_quotient
              [PyFloat.of_Z 3; PyFloat.of_Z 4] [PyFloat.of_Z 4; PyFloat.of_Z 3])
    as (_ & Hq & Hsym).
  split; [|exact Hsym].
  exact (Hq eq_refl eq_refl eq_refl).
Defined.

(** C9 as stated fails: for [a = b = [2.0 ** 752]] both norms are non-zero
    (they are infinite) and [dot(a,b) / (|a| * |b|)] is NaN, but
    [cosine_similarity] returns 0.  And for vectors of different lengths with
    non-zero norms it returns nothing: [np.dot] raises. *)
Lemma cosine_similarity_of_huge_is_not_the_quotient :
  let a := [Examples.huge] in
  PyFloat.valid Examples.huge = true
  /\ PyFloat.eqb (VectorStore.norm a) PyFloat.zero = false
  /\ VectorStore.cosine_similarity a a = inr PyFloat.zero
  /\ PyFloat.div (VectorStore.dot_from PyFloat.zero a a)
                 (PyFloat.mul (VectorStore.norm a) (VectorStore.norm a))
     = S754_nan
  /\ VectorStore.cosine_similarity a a
     <> inr (PyFloat.div (VectorStore.dot_from PyFloat.zero a a)
                         (PyFloat.mul (VectorStore.norm a) (VectorStore.norm a)))
  /\ VectorStore.cosine_similarity [Examples.f1] [Examples.f1; Examples.f1]
     = inl VectorStore.ValueError.
Proof.
  cbv zeta. repeat split; try (vm_compute; reflexivity).
  vm_compute. discriminate.
Qed.

(* ================================================================== *)
(** * The order of binary64 numbers *)
Section FloatOrder.

Ltac compare_cases :=
  repeat match goal with
         | |- context [Pos.compare_cont Eq ?a ?b] =>
             change (Pos.compare_cont Eq a b) with (Pos.compare a b)
         | H : context [Pos.compare_cont Eq ?a ?b] |- _ =>
             change (Pos.compare_cont Eq a b) with (Pos.compare a b) in H
         end;
  repeat match goal with
         | |- context [Z.compare ?a ?b] => destruct (Z.compare_spec a b)
         | H : context [Z.compare ?a ?b] |- _ => destruct (Z.compare_spec a b)
         | |- context [Pos.compare ?a ?b] => destruct (Pos.compare_spec a b)
         | H : context [Pos.compare ?a ?b] |- _ => destruct (Pos.compare_spec a b)
         end;
  cbn in *; subst; try reflexivity; try discriminate; try lia.

(** [not (x < y)] gives [x >= y] when neither is NaN *)
Lemma float_not_lt_ge (x y : PyFloat.float) :
  PyFloat.isnan x = false -> PyFloat.isnan y = false ->
  PyFloat.ltb x y = false -> PyFloat.geb x y = true.
Proof.
  unfold PyFloat.ltb, PyFloat.geb, SFltb, SFleb, SFcompare, PyFloat.isnan.
  destruct x as [[|]|[|]| |[|] mx ex], y as [[|]|[|]| |[|] my ey];
    intros Hx Hy H; try reflexivity; try discriminate;
    compare_cases.
Qed.

(** [x < y] gives [y >= x] *)
Lemma float_lt_ge (x y : PyFloat.float) :
  PyFloat.ltb x y = true -> PyFloat.geb y x = true.
Proof.
  unfold PyFloat.ltb, PyFloat.geb, SFltb, SFleb.
  now destruct (SFcompare x y) as [[| |]|].
Qed.

Lemma float_ge_trans (x y z : PyFloat.float) :
  PyFloat.geb x y = true -> PyFloat.geb y z = true -> PyFloat.geb x z = true.
Proof.
  unfold PyFloat.geb, SFleb, SFcompare.
  destruct x as [[|]|[|]| |[|] mx ex], y as [[|]|[|]| |[|] my ey],
           z as [[|]|[|]| |[|] mz ez];
    intros H1 H2; try reflexivity; try discriminate;
    compare_cases.
Qed.

(** two numbers equal to a third are not strictly ordered *)
Lemma float_eq_not_lt (x y k : PyFloat.float) :
  PyFloat.eqb x k = true -> PyFloat.eqb y k = true -> PyFloat.ltb x y = false.
Proof.
  unfold PyFloat.eqb, PyFloat.ltb, SFeqb, SFltb, SFcompare.
  destruct x as [[|]|[|]| |[|] mx ex], y as [[|]|[|]| |[|] my ey],
           k as [[|]|[|]| |[|] mk ek];
    intros H1 H2; try reflexivity; try discriminate;
    compare_cases.
Qed.

Lemma float_eqb_refl (x : PyFloat.float) :
  PyFloat.isnan x = false -> PyFloat.eqb x x = true.
Proof.
  unfold PyFloat.eqb, SFeqb, SFcompare, PyFloat.isnan.
  destruct x as [[|]|[|]| |[|] mx ex]; intros Hx;
    try reflexivity; try discriminate;
    rewrite Z.compare_refl, Pos.compare_cont_refl; reflexivity.
Qed.

End FloatOrder.

(* ================================================================== *)
(** * Lists: positions, slices and the two sorts *)
Section BeforeFacts.
Context {A : Type}.

Lemma before_cons (z x y : A) l :
  PyList.before x y l -> PyList.before x y (z :: l).
Proof. intros (l1 & l2 & l3 & E). exists (z :: l1), l2, l3. now rewrite E. Qed.

Lemma before_head (x y : A) l : In y l -> PyList.before x y (x :: l).
Proof.
  intros Hy. destruct (in_split _ _ Hy) as (l2 & l3 & E).
  exists [], l2, l3. now rewrite E.
Qed.

Lemma before_inv (z x y : A) l :
  PyList.before x y (z :: l) -> (z = x /\ In y l) \/ PyList.before x y l.
Proof.
  intros ([|w l1] & l2 & l3 & E); cbn [app] in E; inversion E; subst.
  - left. split; [reflexivity|]. apply in_or_app. right. now left.
  - right. now exists l1, l2, l3.
Qed.

Lemma before_nil (x y : A) : ~ PyList.before x y [].
Proof. intros ([|w l1] & l2 & l3 & E); discriminate E. Qed.

Lemma before_in_r (x y : A) l : PyList.before x y l -> In y l.
Proof.
  intros (l1 & l2 & l3 & E). rewrite E.
  apply in_or_app. right. right. apply in_or_app. right. now left.
Qed.

Lemma before_filter (p : A -> bool) (x y : A) l :
  PyList.before x y l -> p x = true -> p y = true ->
  PyList.before x y (filter p l).
Proof.
  intros (l1 & l2 & l3 & E) Hx Hy. rewrite E.
  exists (filter p l1), (filter p l2), (filter p l3).
  rewrite filter_app. cbn [filter]. rewrite Hx, filter_app. cbn [filter].
  now rewrite Hy.
Qed.

Lemma before_of_filter (p : A -> bool) (x y : A) l :
  PyList.before x y (filter p l) -> PyList.before x y l.
Proof.
  induction l as [|z l IH]; cbn [filter]; intros Hb.
  - exact Hb.
  - destruct (p z).
    + destruct (before_inv _ _ _ _ Hb) as [[-> Hy]|Hb'].
      * apply before_head. apply filter_In in Hy. exact (proj1 Hy).
      * apply before_cons, IH, Hb'.
    + apply before_cons, IH, Hb.
Qed.

Lemma before_firstn (n : nat) (x y : A) l :
  PyList.before x y (firstn n l) -> PyList.before x y l.
Proof.
  intros (l1 & l2 & l3 & E). exists l1, l2, (l3 ++ skipn n l).
  rewrite <- (firstn_skipn n l) at 1. rewrite E.
  now rewrite <- !app_assoc, <- !app_comm_cons, <- !app_assoc, <- !app_comm_cons.
Qed.

Lemma slice_to_is_firstn (k : Z) (l : list A) :
  exists n, PyList.slice_to k l = firstn n l.
Proof. unfold PyList.slice_to. destruct (0 <=? k); eexists; reflexivity. Qed.

Lemma slice_to_length (k : Z) (l : list A) :
  0 <= k -> Z.of_nat (List.length (PyList.slice_to k l)) <= k.
Proof.
  intros Hk. unfold PyList.slice_to.
  replace (0 <=? k) with true by lia.
  rewrite length_firstn. lia.
Qed.

End BeforeFacts.

Section SortDescFacts.
Context {A : Type}.
Variable key : A -> PyFloat.float.

Let not_nan := PyList.not_nan key.
Let ge_key := PyList.ge_key key.

Lemma insert_desc_perm x l : Permutation (PyList.insert_desc key x l) (x :: l).
Proof.
  induction l as [|y l IH]; cbn [PyList.insert_desc]; [reflexivity|].
  destruct (PyFloat.ltb (key x) (key y)); [|reflexivity].
  rewrite IH. apply perm_swap.
Qed.

Lemma sort_desc_perm l : Permutation (PyList.sort_desc key l) l.
Proof.
  induction l as [|x l IH]; cbn; [reflexivity|].
  fold (PyList.sort_desc key l). rewrite insert_desc_perm. now rewrite IH.
Qed.

Lemma insert_desc_hd x y l :
  ge_key y x -> HdRel ge_key y l -> HdRel ge_key y (PyList.insert_desc key x l).
Proof.
  intros Hyx Hl. destruct l as [|z l]; cbn [PyList.insert_desc].
  - now constructor.
  - destruct (PyFloat.ltb (key x) (key z)); constructor;
      [now inversion Hl|exact Hyx].
Qed.

Lemma insert_desc_sorted x l :
  not_nan x -> Forall not_nan l -> Sorted ge_key l ->
  Sorted ge_key (PyList.insert_desc key x l).
Proof.
  intros Hx Hl Hs. induction l as [|y l IH]; cbn [PyList.insert_desc].
  - repeat constructor.
  - inversion Hl; subst. inversion Hs; subst.
    destruct (PyFloat.ltb (key x) (key y)) eqn:Hlt.
    + constructor; [now apply IH|].
      apply insert_desc_hd; [|assumption].
      now apply float_lt_ge.
    + constructor; [assumption|]. constructor.
      now apply float_not_lt_ge.
Qed.

Lemma sort_desc_sorted l :
  Forall not_nan l -> Sorted ge_key (PyList.sort_desc key l).
Proof.
  induction l as [|x l IH]; intros Hl; cbn; [constructor|].
  fold (PyList.sort_desc key l). inversion Hl; subst.
  apply insert_desc_sorted; [assumption| |now apply IH].
  eapply Permutation_Forall; [symmetry; apply sort_desc_perm|assumption].
Qed.

Lemma sort_desc_strongly_sorted l :
  Forall not_nan l -> StronglySorted ge_key (PyList.sort_desc key l).
Proof.
  intros Hl. apply Sorted_StronglySorted; [|now apply sort_desc_sorted].
  intros x y z. apply float_ge_trans.
Qed.

(** the sort is stable: the elements whose key equals [k] keep their order *)
Lemma insert_desc_filter k x l :
  filter (fun a => PyFloat.eqb (key a) k) (PyList.insert_desc key x l)
  = filter (fun a => PyFloat.eqb (key a) k) (x :: l).
Proof.
  induction l as [|y l IH]; cbn [PyList.insert_desc]; [reflexivity|].
  destruct (PyFloat.ltb (key x) (key y)) eqn:Hlt; [|reflexivity].
  cbn [filter] in *. rewrite IH.
  destruct (PyFloat.eqb (key x) k) eqn:Ex, (PyFloat.eqb (key y) k) eqn:Ey;
    try reflexivity.
  now rewrite (float_eq_not_lt _ _ _ Ex Ey) in Hlt.
Qed.

Lemma sort_desc_filter k l :
  filter (fun a => PyFloat.eqb (key a) k) (PyList.sort_desc key l)
  = filter (fun a => PyFloat.eqb (key a) k) l.
Proof.
  induction l as [|x l IH]; cbn; [reflexivity|].
  fold (PyList.sort_desc key l). rewrite insert_desc_filter.
  cbn [filter]. now rewrite IH.
Qed.

Lemma sort_desc_stable l x y :
  Forall not_nan l ->
  PyList.before x y (PyList.sort_desc key l) ->
  PyFloat.eqb (key x) (key y) = true ->
  PyList.before x y l.
Proof.
  intros Hl Hb He.
  apply (before_of_filter (fun a => PyFloat.eqb (key a) (key y))).
  rewrite <- sort_desc_filter. apply before_filter; [exact Hb|exact He|].
  apply float_eqb_refl.
  assert (Hy : In y l).
  { eapply Permutation_in; [apply sort_desc_perm|].
    eapply before_in_r; exact Hb. }
  rewrite Forall_forall in Hl. exact (Hl y Hy).
Qed.

Lemma strongly_sorted_firstn (R : A -> A -> Prop) n l :
  StronglySorted R l -> StronglySorted R (firstn n l).
Proof.
  revert n. induction l as [|x l IH]; intros [|n] Hs; cbn; try constructor.
  - inversion Hs; subst. now apply IH.
  - inversion Hs; subst. rewrite Forall_forall in *.
    intros y Hy. apply H2. rewrite <- (firstn_skipn n l).
    apply in_or_app. now left.
Qed.

End SortDescFacts.

(* ================================================================== *)
(** * Search *)
Section SearchFacts.
Import VectorStore.
Context {B : Type} `{S3Client B}.

Lemma try_swallow (body : @M B unit) (st : store B) :
  exists st1 tr,
    Eff.try_except body (fun _ => Eff.ret tt) st = (inr tt, st1, tr).
Proof.
  unfold Eff.try_except, Eff.ret.
  destruct (body st) as [[[e|[]] st1] tr1]; eauto.
Qed.

(** loading never raises *)
Lemma load_returns (d : Z) (st : store B) :
  exists st1 tr, load_vectors_by_dimension d st = (inr tt, st1, tr).
Proof. apply try_swallow. Qed.

Lemma similarities_of_finite md q vs :
  Forall (fun h => PyFloat.finite (similarity h)) (similarities_of md q vs).
Proof.
  induction vs as [|[id v] vs IH]; cbn [similarities_of]; [constructor|].
  destruct (cosine_similarity q v) as [e|sim]; [exact IH|].
  destruct (PyFloat.isnan sim || PyFloat.isinf sim) eqn:Hbad; cbn [negb];
    [exact IH|].
  constructor; [|exact IH].
  cbn [similarity]. unfold PyFloat.finite.
  now apply orb_false_elim in Hbad.
Qed.

Lemma similarities_of_ids md q vs h :
  In h (similarities_of md q vs) -> In (hit_id h) (Dict.keys vs).
Proof.
  induction vs as [|[id v] vs IH]; cbn [similarities_of]; [easy|].
  unfold Dict.keys in *. cbn [map fst].
  destruct (cosine_similarity q v) as [e|sim]; [intros Hi; right; auto|].
  destruct (negb _); [|intros Hi; right; auto].
  intros [<-|Hi]; [now left|right; auto].
Qed.

(** the hits are listed in the order of the shard *)
Lemma similarities_of_order md q vs h1 h2 :
  PyList.before h1 h2 (similarities_of md q vs) ->
  PyList.before (hit_id h1) (hit_id h2) (Dict.keys vs).
Proof.
  induction vs as [|[id v] vs IH]; cbn [similarities_of].
  - intros Hb. now apply before_nil in Hb.
  - unfold Dict.keys in *. cbn [map fst].
    destruct (cosine_similarity q v) as [e|sim];
      [intros Hb; apply before_cons; auto|].
    destruct (negb _); [|intros Hb; apply before_cons; auto].
    intros Hb. destruct (before_inv _ _ _ _ Hb) as [[<- Hin]|Hb'].
    + cbn [hit_id]. apply before_head.
      exact (similarities_of_ids md q vs h2 Hin).
    + apply before_cons; auto.
Qed.

(** [search] on a supported dimension: what it returns and where it leaves
    the store *)
Lemma search_runs (st : store B) (q : vector) (k : Z) (target : option Z) :
  well_formed st ->
  supported (Z.of_nat (List.length q)) = true ->
  target = None \/ target = Some (Z.of_nat (List.length q)) ->
  exists st' tr vectors,
    search q k target st
    = (inr (PyList.slice_to k
              (PyList.sort_desc similarity
                 (similarities_of (metadata st') q vectors))), st', tr)
    /\ Dict.get Z.eqb (Z.of_nat (List.length q)) (vectors_by_dimension st')
       = Some vectors.
Proof.
  intros Hw Hs Ht. set (d := Z.of_nat (List.length q)) in *.
  destruct (well_formed_shard st d Hw Hs) as (s & Hg).
  assert (Hpre : exists st1 tr1,
             Eff.when (match s with [] => true | _ => false end)
               (load_vectors_by_dimension d) st = (inr tt, st1, tr1)
             /\ well_formed st1).
  { destruct s as [|e s].
    - destruct (load_returns d st) as (st1 & tr1 & Hl).
      exists st1, tr1. split; [exact Hl|].
      unfold well_formed. pose proof (keeps_load d st) as Hk.
      rewrite Hl in Hk. cbn [Eff.state fst snd] in Hk. now rewrite Hk.
    - exists st, []. split; [reflexivity|exact Hw]. }
  destruct Hpre as (st1 & tr1 & Hload & Hw1).
  destruct (well_formed_shard st1 d Hw1 Hs) as (vectors & Hg1).
  exists st1, tr1, vectors. split; [|exact Hg1].
  unfold search. fold d.
  assert (Hdim : (match target with
                  | Some t =>
                      if negb (d =? t)
                      then Eff.raise (QueryDimensionMismatch d t)
                      else Eff.ret t
                  | None => Eff.ret d
                  end : @M B Z) st = (inr d, st, [])).
  { destruct Ht as [->| ->]; [reflexivity|]. now rewrite Z.eqb_refl. }
  rewrite (bind_returns _ _ _ _ _ _ Hdim). cbv beta.
  rewrite (bind_returns _ _ _ _ _ _ (shard_of_present st d s Hg)). cbv beta.
  rewrite (bind_returns _ _ _ _ _ _ Hload). cbv beta.
  rewrite (bind_returns _ _ _ _ _ _ (shard_of_present st1 d vectors Hg1)).
  cbv beta.
  destruct vectors as [|e vectors].
  - cbn [Eff.after Eff.ret app similarities_of PyList.sort_desc fold_right].
    rewrite app_nil_r. unfold PyList.slice_to.
    now destruct (0 <=? k); rewrite firstn_nil.
  - erewrite bind_returns by reflexivity. cbv beta.
    cbn [Eff.after Eff.ret app]. now rewrite !app_nil_r.
Qed.

End SearchFacts.

Section SortAscFacts.
Context {A : Type}.
Variable key : A -> Z.

Let le_key (x y : A) : Prop := key x <= key y.

Lemma insert_asc_perm x l : Permutation (PyList.insert_asc key x l) (x :: l).
Proof.
  induction l as [|y l IH]; cbn [PyList.insert_asc]; [reflexivity|].
  destruct (key y <? key x); [|reflexivity].
  rewrite IH. apply perm_swap.
Qed.

Lemma sort_asc_perm l : Permutation (PyList.sort_asc key l) l.
Proof.
  induction l as [|x l IH]; cbn; [reflexivity|].
  fold (PyList.sort_asc key l). rewrite insert_asc_perm. now rewrite IH.
Qed.

Lemma insert_asc_sorted x l :
  StronglySorted le_key l -> StronglySorted le_key (PyList.insert_asc key x l).
Proof.
  induction l as [|y l IH]; cbn [PyList.insert_asc]; intros Hs.
  - repeat constructor.
  - inversion Hs as [|? ? Hs' Hy]; subst.
    destruct (key y <? key x) eqn:Hlt.
    + constructor; [now apply IH|].
      eapply Permutation_Forall; [symmetry; apply insert_asc_perm|].
      constructor; [unfold le_key; lia|exact Hy].
    + constructor; [exact Hs|].
      constructor; [unfold le_key; lia|].
      eapply Forall_impl; [|exact Hy]. unfold le_key. intros z Hz. lia.
Qed.

Lemma sort_asc_sorted l : StronglySorted le_key (PyList.sort_asc key l).
Proof.
  induction l as [|x l IH]; cbn; [constructor|].
  fold (PyList.sort_asc key l). now apply insert_asc_sorted.
Qed.

Lemma sort_asc_sorted_keys l :
  StronglySorted Z.le (map key (PyList.sort_asc key l)).
Proof.
  pose proof (sort_asc_sorted l) as Hs.
  induction Hs as [|x l' Hs IH Hx]; cbn [map]; constructor; [exact IH|].
  rewrite Forall_map. exact Hx.
Qed.

End SortAscFacts.

(* ================================================================== *)
(** * Matching: the deduplication of the selected clips *)
Section DeduplicateFacts.
Import Highlight.

Lemma overlaps_false_apart c s : overlaps c s = false -> apart c s.
Proof. unfold overlaps, apart. lia. Qed.

Lemma apart_sym a b : apart a b -> apart b a.
Proof. unfold apart. lia. Qed.

(** ** first step: one clip per index *)

Lemma unique_clips_in seen l c : In c (unique_clips seen l) -> In c l.
Proof.
  revert seen. induction l as [|x l IH]; intros seen; cbn [unique_clips];
    [easy|].
  destruct (existsb (Z.eqb (idx x)) seen).
  - intros Hc. right. eauto.
  - intros [->|Hc]; [now left|right; eauto].
Qed.

Lemma unique_clips_unseen seen l c :
  In c (unique_clips seen l) -> ~ In (idx c) seen.
Proof.
  revert seen. induction l as [|x l IH]; intros seen; cbn [unique_clips];
    [easy|].
  destruct (existsb (Z.eqb (idx x)) seen) eqn:Hx.
  - apply IH.
  - intros [->|Hc].
    + intros Hin. assert (existsb (Z.eqb (idx c)) seen = true); [|congruence].
      apply existsb_exists. exists (idx c). split; [exact Hin|apply Z.eqb_refl].
    + intros Hin. apply (IH _ Hc). now right.
Qed.

Lemma unique_clips_nodup seen l : NoDup (map idx (unique_clips seen l)).
Proof.
  revert seen. induction l as [|x l IH]; intros seen; cbn [unique_clips];
    [constructor|].
  destruct (existsb (Z.eqb (idx x)) seen); [apply IH|].
  cbn [map]. constructor; [|apply IH].
  intros Hin. apply in_map_iff in Hin. destruct Hin as (c & Hc & Hin).
  apply unique_clips_unseen in Hin. apply Hin. left. now symmetry.
Qed.

Lemma unique_clips_sorted seen l :
  StronglySorted (fun a b => start a <= start b) l ->
  StronglySorted (fun a b => start a <= start b) (unique_clips seen l).
Proof.
  revert seen. induction l as [|x l IH]; intros seen Hs; cbn [unique_clips];
    [constructor|].
  inversion Hs as [|? ? Hs' Hx]; subst.
  destruct (existsb (Z.eqb (idx x)) seen); [now apply IH|].
  constructor; [now apply IH|].
  rewrite Forall_forall in *. intros c Hc. apply Hx.
  eapply unique_clips_in; exact Hc.
Qed.

(** ** second step: the overlap window *)

Lemma first_overlap_none c filtered :
  first_overlap c filtered = None ->
  forall s, In s filtered -> overlaps c s = false.
Proof.
  induction filtered as [|x l IH]; cbn [first_overlap]; [easy|].
  destruct (overlaps c x) eqn:Hx; [discriminate|].
  destruct (first_overlap c l) as [[[b h] a]|]; [discriminate|].
  intros _ s [<-|Hs]; [exact Hx|now apply IH].
Qed.

Lemma first_overlap_some c filtered before s after :
  first_overlap c filtered = Some (before, s, after) ->
  filtered = before ++ s :: after /\ overlaps c s = true.
Proof.
  revert before. induction filtered as [|x l IH]; intros before;
    cbn [first_overlap]; [discriminate|].
  destruct (overlaps c x) eqn:Hx.
  - intros E. inversion E; subst. now split.
  - destruct (first_overlap c l) as [[[b h] a]|]; [|discriminate].
    intros E. inversion E; subst.
    destruct (IH b eq_refl) as [-> Ho]. now split.
Qed.

Lemma only_one_overlap filtered c s s' :
  accepted_so_far filtered c ->
  In s filtered -> In s' filtered ->
  overlaps c s = true -> overlaps c s' = true -> s = s'.
Proof.
  intros [He Hsp _ _] Hs Hs' Ho Ho'.
  rewrite Forall_forall in He.
  pose proof (He s Hs). pose proof (He s' Hs').
  destruct (Hsp s s' Hs Hs') as [E|Ha]; [exact E|].
  unfold overlaps, apart, overlap_window in *. lia.
Qed.

Lemma consider_in filtered c x :
  In x (consider filtered c) -> x = c \/ In x filtered.
Proof.
  unfold consider.
  destruct (first_overlap c filtered) as [[[b s] a]|] eqn:Hf.
  - destruct (first_overlap_some _ _ _ _ _ Hf) as [-> _].
    destruct (PyFloat.gtb _ _); [|now right].
    rewrite !in_app_iff. cbn [In]. intros [Hb|[Ha|[<-|[]]]]; auto.
  - rewrite in_app_iff. cbn [In]. intros [Hx|[<-|[]]]; auto.
Qed.

Lemma nodup_idx_remove (b a : list selected) s :
  NoDup (map idx (b ++ s :: a)) ->
  NoDup (map idx (b ++ a)) /\ ~ In s (b ++ a) /\
  forall x, In x (b ++ a) -> x <> s.
Proof.
  intros Hn. rewrite map_app in Hn. cbn [map] in Hn.
  pose proof (NoDup_remove_1 _ _ _ Hn) as H1.
  pose proof (NoDup_remove_2 _ _ _ Hn) as H2.
  rewrite <- map_app in H1, H2.
  assert (H3 : forall x, In x (b ++ a) -> x <> s).
  { intros x Hx ->. apply H2. now apply in_map. }
  split; [exact H1|]. split; [|exact H3].
  intros Hs. now apply (H3 s Hs).
Qed.

Lemma nodup_snoc {X : Type} (l : list X) (x : X) :
  NoDup l -> ~ In x l -> NoDup (l ++ [x]).
Proof.
  intros Hn Hx. apply NoDup_rev in Hn.
  rewrite <- (rev_involutive (l ++ [x])). apply NoDup_rev.
  rewrite rev_app_distr. cbn. constructor; [|exact Hn].
  now rewrite <- in_rev.
Qed.

(** one turn of the loop keeps the accepted clips spaced and distinct *)
Lemma consider_keeps filtered c :
  accepted_so_far filtered c ->
  (forall x y, In x (consider filtered c) -> In y (consider filtered c) ->
               x = y \/ apart x y)
  /\ NoDup (map idx (consider filtered c)).
Proof.
  intros Hacc. pose proof Hacc as [He Hsp Hnd Hfr].
  rewrite Forall_forall in He.
  unfold consider.
  destruct (first_overlap c filtered) as [[[b s] a]|] eqn:Hf.
  - destruct (first_overlap_some _ _ _ _ _ Hf) as [E Ho].
    destruct (PyFloat.gtb _ _); [|now split].
    subst filtered.
    destruct (nodup_idx_remove b a s Hnd) as (Hnd' & _ & Hne).
    assert (Hsub : forall x, In x (b ++ a) -> In x (b ++ s :: a)).
    { intros x. rewrite !in_app_iff. cbn [In]. tauto. }
    assert (Hs : In s (b ++ s :: a)).
    { apply in_or_app. right. now left. }
    assert (Hc : forall x, In x (b ++ a) -> apart x c).
    { intros x Hx. pose proof (He x (Hsub x Hx)). pose proof (He s Hs).
      destruct (Hsp x s (Hsub x Hx) Hs) as [->|Ha]; [now destruct (Hne s Hx)|].
      unfold overlaps, apart, overlap_window in *. lia. }
    split.
    + intros x y. rewrite !app_assoc, !in_app_iff. cbn [In].
      rewrite <- !in_app_iff.
      intros [Hx|[<-|[]]] [Hy|[<-|[]]]; auto.
      right. now apply apart_sym, Hc.
    + rewrite app_assoc, map_app. cbn [map].
      apply nodup_snoc; [exact Hnd'|].
      intros Hin. apply Hfr. rewrite map_app in *. cbn [map].
      rewrite in_app_iff in *. cbn [In]. tauto.
  - pose proof (first_overlap_none _ _ Hf) as Hno.
    split.
    + intros x y. rewrite !in_app_iff. cbn [In].
      intros [Hx|[<-|[]]] [Hy|[<-|[]]]; auto; right.
      * apply apart_sym, overlaps_false_apart. now apply Hno.
      * apply overlaps_false_apart. now apply Hno.
    + rewrite map_app. cbn [map]. now apply nodup_snoc.
Qed.


(** the whole loop, started from any accepted clips that precede the rest *)
Lemma accepted_run l : forall filtered,
  StronglySorted (fun a b => start a <= start b) l ->
  NoDup (map idx l) ->
  (forall s c, In s filtered -> In c l -> start s <= start c /\ idx s <> idx c) ->
  (forall x y, In x filtered -> In y filtered -> x = y \/ apart x y) ->
  NoDup (map idx filtered) ->
  (forall x y, In x (fold_left consider l filtered) ->
               In y (fold_left consider l filtered) -> x = y \/ apart x y)
  /\ NoDup (map idx (fold_left consider l filtered))
  /\ (forall x, In x (fold_left consider l filtered) -> In x filtered \/ In x l).
Proof.
  induction l as [|c l IH]; intros filtered Hs Hn Hrel Hsp Hnd; cbn [fold_left].
  - split; [exact Hsp|]. split; [exact Hnd|]. now left.
  - inversion Hs as [|? ? Hs' Hc]; subst. cbn [map] in Hn.
    inversion Hn as [|? ? Hc' Hn']; subst.
    assert (Hacc : accepted_so_far filtered c).
    { constructor; [|exact Hsp|exact Hnd|].
      - rewrite Forall_forall. intros s Hin.
        exact (proj1 (Hrel s c Hin (or_introl eq_refl))).
      - intros Hin. apply in_map_iff in Hin. destruct Hin as (s & E & Hin).
        exact (proj2 (Hrel s c Hin (or_introl eq_refl)) E). }
    destruct (consider_keeps filtered c Hacc) as [Hsp1 Hnd1].
    destruct (IH (consider filtered c) Hs' Hn') as (H1 & H2 & H3);
      [|exact Hsp1|exact Hnd1|].
    + intros s c' Hin Hc'in. destruct (consider_in _ _ _ Hin) as [->|Hold].
      * rewrite Forall_forall in Hc. split; [now apply Hc|].
        intros E. apply Hc'. rewrite E. now apply in_map.
      * apply Hrel; [exact Hold|now right].
    + split; [exact H1|]. split; [exact H2|].
      intros x Hx. destruct (H3 x Hx) as [Hin|Hin]; [|right; now right].
      destruct (consider_in _ _ _ Hin) as [->|Hold]; [right; now left|now left].
Qed.

Lemma spaced_offsets (r : list selected) :
  NoDup (map idx r) ->
  (forall x y, In x r -> In y r -> x = y \/ apart x y) ->
  ForallOrdPairs offsets_apart (map start r).
Proof.
  induction r as [|x r IH]; cbn [map]; intros Hn Hsp; [constructor|].
  inversion Hn as [|? ? Hx Hn']; subst.
  constructor.
  - rewrite Forall_map, Forall_forall. intros y Hy.
    destruct (Hsp x y (or_introl eq_refl) (or_intror Hy)) as [->|Ha];
      [|exact Ha].
    destruct Hx. now apply in_map.
  - apply IH; [exact Hn'|]. intros a b Ha Hb. apply Hsp; now right.
Qed.

(** lines 666-697 on any list of selected clips: the result is sorted by
    start offset, has no index twice and no two offsets within the window *)
Lemma deduplicate_spec (selected_clips : list selected) :
  let r := deduplicate selected_clips in
  StronglySorted Z.le (map start r)
  /\ NoDup (map idx r)
  /\ ForallOrdPairs offsets_apart (map start r).
Proof.
  cbv zeta. unfold deduplicate.
  set (u := unique_clips [] (PyList.sort_asc start selected_clips)).
  destruct (accepted_run u [] (unique_clips_sorted _ _ (sort_asc_sorted start _))
              (unique_clips_nodup _ _)) as (Hsp & Hnd & _);
    [easy|easy|constructor|].
  fold (accepted u) in Hsp, Hnd.
  pose proof (sort_asc_perm start (accepted u)) as Hp.
  assert (Hnd' : NoDup (map idx (PyList.sort_asc start (accepted u)))).
  { eapply Permutation_NoDup; [|exact Hnd].
    apply Permutation_map. now symmetry. }
  split; [apply sort_asc_sorted_keys|]. split; [exact Hnd'|].
  apply spaced_offsets; [exact Hnd'|].
  intros x y Hx Hy. apply Hsp; eapply Permutation_in; eauto.
Qed.

(** when a clip is considered, whichever of it and the accepted clip it
    overlaps has the higher similarity stays: the new one only when its
    similarity is strictly higher *)
Lemma overlap_keeps_more_similar (selected_clips p rest : list selected) c s :
  unique_clips [] (PyList.sort_asc start selected_clips) = p ++ c :: rest ->
  In s (accepted p) ->
  overlaps c s = true ->
  if PyFloat.gtb (similarity c) (similarity s)
  then In c (accepted (p ++ [c])) /\ ~ In s (accepted (p ++ [c]))
  else In s (accepted (p ++ [c])) /\ ~ In c (accepted (p ++ [c])).
Proof.
  intros Hu Hs Ho.
  pose proof (unique_clips_sorted [] _ (sort_asc_sorted start selected_clips))
    as Hsorted.
  pose proof (unique_clips_nodup [] (PyList.sort_asc start selected_clips))
    as Hnodup.
  rewrite Hu in Hsorted, Hnodup.
  assert (Hp_sorted : StronglySorted (fun a b => start a <= start b) p).
  { clear -Hsorted. induction p as [|x p IH]; [constructor|].
    cbn [app] in Hsorted. inversion Hsorted as [|? ? Hs' Hx]; subst.
    constructor; [now apply IH|].
    rewrite Forall_forall in *. intros y Hy. apply Hx.
    apply in_or_app. now left. }
  assert (Hp_le : forall x, In x p -> start x <= start c).
  { clear -Hsorted. induction p as [|x p IH]; [easy|].
    cbn [app] in Hsorted. inversion Hsorted as [|? ? Hs' Hx]; subst.
    intros y [<-|Hy]; [|now apply IH].
    rewrite Forall_forall in Hx. apply Hx. apply in_or_app. right. now left. }
  rewrite map_app in Hnodup. cbn [map] in Hnodup.
  pose proof (NoDup_remove_2 _ _ _ Hnodup) as Hc_fresh.
  pose proof (NoDup_remove_1 _ _ _ Hnodup) as Hrest.
  assert (Hp_nodup : NoDup (map idx p)).
  { clear -Hrest. induction (map idx p) as [|i l IH]; [constructor|].
    cbn [app] in Hrest. inversion Hrest as [|? ? Hi Hl]; subst.
    constructor; [|now apply IH].
    intros Hin. apply Hi. apply in_or_app. now left. }
  destruct (accepted_run p [] Hp_sorted Hp_nodup) as (Hsp & Hnd & Hin);
    [easy|easy|constructor|].
  fold (accepted p) in Hsp, Hnd, Hin.
  assert (Hfrom : forall x, In x (accepted p) -> In x p).
  { intros x Hx. now destruct (Hin x Hx). }
  assert (Hacc : accepted_so_far (accepted p) c).
  { constructor; [|exact Hsp|exact Hnd|].
    - rewrite Forall_forall. intros x Hx. now apply Hp_le, Hfrom.
    - intros Hi. apply Hc_fresh. apply in_or_app. left.
      apply in_map_iff in Hi. destruct Hi as (x & E & Hx).
      rewrite <- E. now apply in_map, Hfrom. }
  assert (Hc_new : ~ In c (accepted p)).
  { intros Hc. apply (fresh _ _ Hacc). now apply in_map. }
  unfold accepted. rewrite fold_left_app. cbn [fold_left].
  fold (accepted p). unfold consider.
  destruct (first_overlap c (accepted p)) as [[[b s'] a]|] eqn:Hf.
  - destruct (first_overlap_some _ _ _ _ _ Hf) as [E Ho'].
    assert (Hs' : In s' (accepted p)).
    { rewrite E. apply in_or_app. right. now left. }
    pose proof (only_one_overlap _ _ _ _ Hacc Hs Hs' Ho Ho') as <-.
    destruct (PyFloat.gtb (similarity c) (similarity s)).
    + split; [apply in_or_app; right; apply in_or_app; right; now left|].
      rewrite E in Hnd.
      destruct (nodup_idx_remove b a s Hnd) as (_ & Hns & _).
      rewrite app_assoc, in_app_iff. cbn [In]. intros [Hx|[->|[]]]; auto.
    + split; [exact Hs|exact Hc_new].
  - pose proof (first_overlap_none _ _ Hf s Hs). congruence.
Qed.

(** the extraction of the files changes the paths only *)
Lemma materialize_keeps {services : Services} (l r : list selected) :
  materialize l = inr r ->
  map start r = map start l /\ map idx r = map idx l.
Proof.
  revert r. induction l as [|c l IH]; intros r; cbn [materialize].
  - intros E. inversion E. now split.
  - unfold bindE at 1.
    destruct (match path (seg c) with
              | Some _ => inr c
              | None => _
              end) as [e|c'] eqn:Hc; [discriminate|].
    unfold bindE at 1.
    destruct (materialize l) as [e|r'] eqn:Hl; [discriminate|].
    intros E. inversion E; subst r.
    destruct (IH r' eq_refl) as [H1 H2]. cbn [map].
    assert (Hsame : start c' = start c /\ idx c' = idx c).
    { destruct (path (seg c)).
      - inversion Hc. now split.
      - unfold bindE in Hc.
        destruct (ffmpeg_extract _ _ _ _); [discriminate|].
        inversion Hc. now split. }
    destruct Hsame as [-> ->]. now rewrite H1, H2.
Qed.

End DeduplicateFacts.

Section MatchingFailures.
Import Highlight.
Context {services : Services}.

Lemma top_clips_embedding_fails threshold top_k valid pt e :
  get_embedding pt = inl e -> top_clips threshold top_k valid pt = inl e.
Proof. intros He. unfold top_clips, bindE. now rewrite He. Qed.

Lemma select_clips_fails threshold top_k valid points pt e :
  In pt points -> get_embedding pt = inl e ->
  exists e', select_clips threshold top_k valid points = inl e'.
Proof.
  intros Hin He. induction points as [|q points IH]; [easy|].
  cbn [select_clips]. unfold bindE at 1.
  destruct (top_clips threshold top_k valid q) as [e1|top] eqn:Hq;
    [now exists e1|].
  destruct Hin as [->|Hin].
  - rewrite (top_clips_embedding_fails _ _ _ _ _ He) in Hq. discriminate.
  - destruct (IH Hin) as (e' & ->). now exists e'.
Qed.

Lemma select_clips_first_failure threshold top_k valid before pt after e :
  Forall (fun q => exists l, top_clips threshold top_k valid q = inr l) before ->
  get_embedding pt = inl e ->
  select_clips threshold top_k valid (before ++ pt :: after) = inl e.
Proof.
  intros Hb He. induction Hb as [|q before (l & Hq) _ IH]; cbn [app select_clips].
  - now rewrite (top_clips_embedding_fails _ _ _ _ _ He).
  - rewrite Hq. unfold bindE at 1. now rewrite IH.
Qed.

End MatchingFailures.

(** C4, as amended.  If embedding the text of a highlight point fails,
    [match_clips] as a whole fails: it raises and returns no selection, so
    the matches of the other points are lost; when the point is the first
    one whose processing raises, the error raised is the one of the
    embedding call. *)
Theorem embedding_failure_of_a_point_fails_match_clips :
  forall (S : Highlight.Services) (analysis : string)
         (clips : list Highlight.clip) (threshold : PyFloat.float)
         (top_k_per_point : Z) (pt : string) (e : Highlight.exn),
    In pt (Highlight.extract_points analysis) ->
    Highlight.get_embedding pt = inl e ->
    (exists e',
       Highlight.match_clips analysis clips threshold top_k_per_point = inl e')
    /\ (forall before after,
          Highlight.extract_points analysis = before ++ pt :: after ->
          Forall (fun q => exists l,
                      Highlight.top_clips threshold top_k_per_point
                        (Highlight.valid_clips clips) q = inr l) before ->
          Highlight.match_clips analysis clips threshold top_k_per_point
          = inl e).
Proof.
  intros S analysis clips threshold top_k pt e Hin He. split.
  - destruct (select_clips_fails threshold top_k
                (Highlight.valid_clips clips) _ pt e Hin He) as (e' & Hs).
    exists e'. unfold Highlight.match_clips, Highlight.bindE. now rewrite Hs.
  - intros before after Hp Hb.
    unfold Highlight.match_clips, Highlight.bindE. rewrite Hp.
    now rewrite (select_clips_first_failure threshold top_k _ before pt after
                   e Hb He).
Qed.

(** C4 on an analysis with the points A and B where the text of B cannot be
    embedded. *)
Lemma embedding_failure_of_a_point_fails_match_clips_witness :
  exists e',
    Highlight.match_clips (services := Examples.scripted Examples.point_b_fails)
      Examples.two_points Examples.near_clips Highlight.default_threshold 3
    = inl e'.
Proof.
  exact (proj1 (embedding_failure_of_a_point_fails_match_clips
                  (Examples.scripted Examples.point_b_fails)
                  Examples.two_points Examples.near_clips
                  Highlight.default_threshold 3
                  "B. [2] - the save"
                  (Highlight.Exception "embedding service unavailable")
                  (or_intror (or_introl eq_refl)) eq_refl)).
Defined.

(** C4 as stated fails: point A has three matching segments, the embedding
    of point B fails, and [match_clips] raises instead of returning the
    matches of A. *)
Lemma one_failed_embedding_fails_the_matching :
  (exists top,
     Highlight.top_clips (services := Examples.scripted Examples.point_b_fails)
       Highlight.default_threshold 3
       (Highlight.valid_clips Examples.near_clips) "A. [1] - the goal"
     = inr top /\ List.length top = 3%nat)
  /\ Highlight.match_clips (services := Examples.scripted Examples.point_b_fails)
       Examples.two_points Examples.near_clips Highlight.default_threshold 3
     = inl (Highlight.Exception "embedding service unavailable").
Proof.
  split; [eexists; split|]; vm_compute; reflexivity.
Qed.

(* ================================================================== *)
(** * The worker of a highlight job *)
Section WorkerFacts.
Import Highlight Pipeline.
Context {services : Services}.
Local Open Scope string_scope.

Ltac run_bind :=
  rewrite ?bind_assoc;
  first [ erewrite bind_returns by reflexivity
        | erewrite bind_raises by reflexivity ];
  cbv beta.

Ltac run_binds := repeat run_bind.

Ltac waiting_steps :=
  let step := fresh "step" in
  let Hs := fresh "Hs" in
  intros step Hs;
  assert (step = 4 \/ step = 5 \/ step = 6 \/ step = 7) as [-> | [-> | [-> | ->]]]
    by lia; first [reflexivity | lia].

Ltac shows_record :=
  unfold shows;
  repeat match goal with
         | |- _ /\ _ => split
         | |- forall step, _ < step <= 6 -> _ => waiting_steps
         | |- _ => reflexivity
         end.

(** where the stages stop, by the answers of the four calls that can raise *)
Lemma stages_cases theme video_path work_dir :
  let j0 := new_job theme video_path work_dir in
  let criteria := generate_criteria theme in
  let compressed :=
    compress_video video_path (PyStr.path_join work_dir "compressed.mp4") 100 in
  let output := PyStr.path_join work_dir "highlight.mp4" in
  match analyze_video compressed criteria with
  | inl e =>
      exists j,
        stages theme video_path work_dir j0
        = (inl e, j, [GenerateCriteria; CompressVideo; AnalyzeVideo])
        /\ shows j 3 criteria compressed None None
  | inr analysis =>
      match extract_clips_with_embeddings compressed 3 with
      | inl e =>
          exists j,
            stages theme video_path work_dir j0
            = (inl e, j, [GenerateCriteria; CompressVideo; AnalyzeVideo;
                          ExtractClipsWithEmbeddings])
            /\ shows j 4 criteria compressed (Some analysis) None
      | inr clips =>
          match match_clips analysis clips default_threshold
                  default_top_k_per_point with
          | inl e =>
              exists j,
                stages theme video_path work_dir j0
                = (inl e, j, [GenerateCriteria; CompressVideo; AnalyzeVideo;
                              ExtractClipsWithEmbeddings; MatchClips])
                /\ shows j 5 criteria compressed (Some analysis)
                     (Some (VClips clips))
          | inr selected_clips =>
              match clips_info selected_clips with
              | inl e =>
                  exists j,
                    stages theme video_path work_dir j0
                    = (inl e, j, [GenerateCriteria; CompressVideo; AnalyzeVideo;
                                  ExtractClipsWithEmbeddings; MatchClips])
                    /\ shows j 5 criteria compressed (Some analysis)
                         (Some (VClips clips))
              | inr infos =>
                  match create_highlight_video selected_clips output with
                  | inl e =>
                      exists j,
                        stages theme video_path work_dir j0
                        = (inl e, j,
                           [GenerateCriteria; CompressVideo; AnalyzeVideo;
                            ExtractClipsWithEmbeddings; MatchClips;
                            CreateHighlightVideo])
                        /\ shows j 6 criteria compressed (Some analysis)
                             (Some (VClipsInfo infos))
                        /\ field "clips_count" j
                           = Some (VInt (Z.of_nat (List.length selected_clips)))
                  | inr _ =>
                      exists j,
                        stages theme video_path work_dir j0
                        = (inr tt, j,
                           [GenerateCriteria; CompressVideo; AnalyzeVideo;
                            ExtractClipsWithEmbeddings; MatchClips;
                            CreateHighlightVideo; GetVideoDuration;
                            GetVideoDuration])
                        /\ field "status" j = Some (VStr "completed")
                        /\ field "criteria" j = Some (VStr criteria)
                        /\ field "compressed_path" j = Some (VStr compressed)
                        /\ field "highlight_video_path" j = Some (VStr output)
                  end
              end
          end
      end
  end.
Proof.
  cbv zeta. unfold stages.
  run_bind. run_bind.
  unfold stage3. run_binds.
  destruct (analyze_video _ _) as [e3|analysis] eqn:H3.
  { eexists. split; [run_binds; reflexivity|]. shows_record. }
  run_binds.
  unfold stage4. run_binds.
  destruct (extract_clips_with_embeddings _ _) as [e4|clips] eqn:H4.
  { eexists. split; [run_binds; reflexivity|]. shows_record. }
  run_binds.
  unfold stage5. run_binds.
  destruct (match_clips _ _ _ _) as [e5|selected_clips] eqn:H5.
  { eexists. split; [run_binds; reflexivity|]. shows_record. }
  run_binds.
  destruct (clips_info selected_clips) as [e5'|infos] eqn:H5'.
  { eexists. split; [run_binds; reflexivity|]. shows_record. }
  run_binds.
  unfold stage6. run_binds.
  destruct (create_highlight_video _ _) as [e6|o] eqn:H6.
  { eexists. split; [run_binds; reflexivity|].
    split; [shows_record|reflexivity]. }
  run_binds.
  eexists. split; [reflexivity|]. repeat split.
Qed.

(** the handler of the worker: the record after a raise is the record at the
    raise with the status and the error set *)
Lemma run_failed theme video_path work_dir e j tr :
  stages theme video_path work_dir (new_job theme video_path work_dir)
  = (inl e, j, tr) ->
  run theme video_path work_dir
  = (Dict.set String.eqb "error" (VStr (str e))
       (Dict.set String.eqb "status" (VStr "failed") j), tr).
Proof.
  intros Hs. unfold run, process_highlight.
  rewrite (try_handles _ _ _ _ _ _ Hs).
  cbn. now rewrite app_nil_r.
Qed.

Lemma run_completed theme video_path work_dir j tr :
  stages theme video_path work_dir (new_job theme video_path work_dir)
  = (inr tt, j, tr) ->
  run theme video_path work_dir = (j, tr).
Proof.
  intros Hs. unfold run, process_highlight.
  now rewrite (try_returns _ _ _ _ _ _ Hs).
Qed.

Lemma field_after_failure (j : job) (e : exn) key :
  key <> "status" -> key <> "error" ->
  field key (Dict.set String.eqb "error" (VStr (str e))
               (Dict.set String.eqb "status" (VStr "failed") j))
  = field key j.
Proof.
  intros H1 H2. unfold field.
  rewrite !(dict_get_set_other String.eqb (fun a b => proj1 (String.eqb_eq a b)));
    [reflexivity| |]; now apply String.eqb_neq.
Qed.

Lemma status_after_failure (j : job) (e : exn) :
  field "status" (Dict.set String.eqb "error" (VStr (str e))
                    (Dict.set String.eqb "status" (VStr "failed") j))
  = Some (VStr "failed").
Proof.
  unfold field.
  rewrite (dict_get_set_other String.eqb (fun a b => proj1 (String.eqb_eq a b)))
    by reflexivity.
  apply (dict_get_set_same String.eqb String.eqb_refl).
Qed.

Lemma error_after_failure (j : job) (e : exn) :
  field "error" (Dict.set String.eqb "error" (VStr (str e))
                   (Dict.set String.eqb "status" (VStr "failed") j))
  = Some (VStr (str e)).
Proof. apply (dict_get_set_same String.eqb String.eqb_refl). Qed.

Lemma shows_after_failure (j : job) (e : exn) k criteria compressed analysis clips :
  shows j k criteria compressed analysis clips ->
  shows (Dict.set String.eqb "error" (VStr (str e))
           (Dict.set String.eqb "status" (VStr "failed") j))
        k criteria compressed analysis clips.
Proof.
  unfold shows, message.
  rewrite !field_after_failure by discriminate. exact (fun H => H).
Qed.

End WorkerFacts.

Section WorkerClaims.
Local Open Scope string_scope.

(** C7.  Whenever an exception leaves one of the stages of a highlight job:
    the status of the job is [failed] and its error field holds the text of
    the exception; every other entry of the record is as it was when the
    exception was raised; no call is made after the one that raised, so the
    stage [k] that raised is the current step, it is one of 3 to 6, no call
    of a later stage was made, the later stages are still shown as waiting
    and have left no artifact; and the artifacts recorded by the stages
    before [k] (the criteria, the compressed path, the analysis text, the
    clips) are in the record as those stages computed them. *)
Theorem unhandled_exception_fails_job_and_keeps_artifacts :
  forall (services : Highlight.Services) (theme video_path work_dir : string)
         (e : Highlight.exn),
    let body :=
      Pipeline.stages theme video_path work_dir
        (Pipeline.new_job theme video_path work_dir) in
    let criteria := Highlight.generate_criteria theme in
    let compressed :=
      Highlight.compress_video video_path
        (PyStr.path_join work_dir "compressed.mp4") 100 in
    let j := fst (Pipeline.run theme video_path work_dir) in
    let calls := snd (Pipeline.run theme video_path work_dir) in
    Eff.result body = inl e ->
    Pipeline.field "status" j = Some (Pipeline.VStr "failed")
    /\ Pipeline.field "error" j = Some (Pipeline.VStr (Highlight.str e))
    /\ (forall key : string,
          key <> "status" -> key <> "error" ->
          Pipeline.field key j = Pipeline.field key (Eff.state body))
    /\ calls = Eff.trace body
    /\ exists (k : Z) (clips : option Pipeline.value),
         3 <= k <= 6
         /\ (forall c, In c calls -> Pipeline.stage_of c <= k)
         /\ Pipeline.shows j k criteria compressed
              (match Highlight.analyze_video compressed criteria with
               | inr a => Some a
               | inl _ => None
               end) clips
         /\ (k <= 4 -> clips = None)
         /\ (k = 5 ->
             exists l,
               Highlight.extract_clips_with_embeddings compressed 3 = inr l
               /\ clips = Some (Pipeline.VClips l))
         /\ (k = 6 ->
             exists a l sel infos,
               Highlight.analyze_video compressed criteria = inr a
               /\ Highlight.extract_clips_with_embeddings compressed 3 = inr l
               /\ Highlight.match_clips a l Highlight.default_threshold
                    Highlight.default_top_k_per_point = inr sel
               /\ Pipeline.clips_info sel = inr infos
               /\ clips = Some (Pipeline.VClipsInfo infos)
               /\ Pipeline.field "clips_count" j
                  = Some (Pipeline.VInt (Z.of_nat (List.length sel)))).
Proof.
  intros services theme video_path work_dir e body criteria compressed j calls
         Hraise.
  pose proof (stages_cases theme video_path work_dir) as Hc. cbv zeta in Hc.
  fold criteria compressed in Hc.
  assert (Hreport : forall e' j' tr,
            Pipeline.stages theme video_path work_dir
              (Pipeline.new_job theme video_path work_dir) = (inl e', j', tr) ->
            e' = e
            /\ j = Dict.set String.eqb "error" (Pipeline.VStr (Highlight.str e))
                     (Dict.set String.eqb "status" (Pipeline.VStr "failed") j')
            /\ calls = tr /\ Eff.state body = j' /\ Eff.trace body = tr).
  { intros e' j' tr Hs. subst body j calls. rewrite Hs in Hraise |- *.
    cbn in Hraise. inversion Hraise; subst e'.
    rewrite (run_failed _ _ _ _ _ _ Hs). now repeat split. }
  assert (Hgeneric : forall e' j' tr,
            Pipeline.stages theme video_path work_dir
              (Pipeline.new_job theme video_path work_dir) = (inl e', j', tr) ->
            Pipeline.field "status" j = Some (Pipeline.VStr "failed")
            /\ Pipeline.field "error" j = Some (Pipeline.VStr (Highlight.str e))
            /\ (forall key : string,
                  key <> "status" -> key <> "error" ->
                  Pipeline.field key j = Pipeline.field key (Eff.state body))
            /\ calls = Eff.trace body).
  { intros e' j' tr Hs.
    destruct (Hreport e' j' tr Hs) as (_ & -> & -> & -> & ->).
    split; [apply status_after_failure|].
    split; [apply error_after_failure|].
    split; [|reflexivity]. intros key. apply field_after_failure. }
  destruct (Highlight.analyze_video compressed criteria) as [e3|a] eqn:Ha.
  { destruct Hc as (j' & Hs & Hshow).
    destruct (Hgeneric _ _ _ Hs) as (H1 & H2 & H3 & H4).
    destruct (Hreport _ _ _ Hs) as (_ & Hj & Hcalls & _).
    repeat (split; [assumption|]).
    exists 3, None. split; [lia|]. split.
    { rewrite Hcalls. cbn. intros c Hin.
      repeat destruct Hin as [<-|Hin]; cbn; try lia; contradiction. }
    split; [rewrite Hj; now apply shows_after_failure|].
    split; [reflexivity|]. split; intros; lia. }
  destruct (Highlight.extract_clips_with_embeddings compressed 3) as [e4|l]
    eqn:Hl.
  { destruct Hc as (j' & Hs & Hshow).
    destruct (Hgeneric _ _ _ Hs) as (H1 & H2 & H3 & H4).
    destruct (Hreport _ _ _ Hs) as (_ & Hj & Hcalls & _).
    repeat (split; [assumption|]).
    exists 4, None. split; [lia|]. split.
    { rewrite Hcalls. cbn. intros c Hin.
      repeat destruct Hin as [<-|Hin]; cbn; try lia; contradiction. }
    split; [rewrite Hj; now apply shows_after_failure|].
    split; [reflexivity|]. split; intros; lia. }
  destruct (Highlight.match_clips a l _ _) as [e5|sel] eqn:Hsel.
  { destruct Hc as (j' & Hs & Hshow).
    destruct (Hgeneric _ _ _ Hs) as (H1 & H2 & H3 & H4).
    destruct (Hreport _ _ _ Hs) as (_ & Hj & Hcalls & _).
    repeat (split; [assumption|]).
    exists 5, (Some (Pipeline.VClips l)). split; [lia|]. split.
    { rewrite Hcalls. cbn. intros c Hin.
      repeat destruct Hin as [<-|Hin]; cbn; try lia; contradiction. }
    split; [rewrite Hj; now apply shows_after_failure|].
    split; [intros; lia|]. split; [intros _; now exists l|intros; lia]. }
  destruct (Pipeline.clips_info sel) as [e5|infos] eqn:Hinfos.
  { destruct Hc as (j' & Hs & Hshow).
    destruct (Hgeneric _ _ _ Hs) as (H1 & H2 & H3 & H4).
    destruct (Hreport _ _ _ Hs) as (_ & Hj & Hcalls & _).
    repeat (split; [assumption|]).
    exists 5, (Some (Pipeline.VClips l)). split; [lia|]. split.
    { rewrite Hcalls. cbn. intros c Hin.
      repeat destruct Hin as [<-|Hin]; cbn; try lia; contradiction. }
    split; [rewrite Hj; now apply shows_after_failure|].
    split; [intros; lia|]. split; [intros _; now exists l|intros; lia]. }
  destruct (Highlight.create_highlight_video sel _) as [e6|o].
  { destruct Hc as (j' & Hs & Hshow & Hcount).
    destruct (Hgeneric _ _ _ Hs) as (H1 & H2 & H3 & H4).
    destruct (Hreport _ _ _ Hs) as (_ & Hj & Hcalls & _).
    repeat (split; [assumption|]).
    exists 6, (Some (Pipeline.VClipsInfo infos)). split; [lia|]. split.
    { rewrite Hcalls. cbn. intros c Hin.
      repeat destruct Hin as [<-|Hin]; cbn; try lia; contradiction. }
    split; [rewrite Hj; now apply shows_after_failure|].
    split; [intros; lia|]. split; [intros; lia|].
    intros _. exists a, l, sel, infos.
    repeat (split; [first [reflexivity|assumption]|]).
    rewrite Hj. rewrite field_after_failure by discriminate. exact Hcount. }
  destruct Hc as (j' & Hs & _). subst body. rewrite Hs in Hraise.
  discriminate Hraise.
Qed.

(** C7 on a run whose analysis call is throttled: the job fails in stage 3
    and still shows the criteria and the compressed path. *)
Lemma unhandled_exception_fails_job_and_keeps_artifacts_witness :
  let j := fst (Pipeline.run (services := Examples.scripted Examples.analysis_down)
                  "action" "jobs/1/video.mp4" "jobs/1") in
  Pipeline.field "status" j = Some (Pipeline.VStr "failed")
  /\ Pipeline.field "error" j = Some (Pipeline.VStr "throttled")
  /\ Pipeline.field "criteria" j = Some (Pipeline.VStr "## criteria")
  /\ Pipeline.field "compressed_path" j
     = Some (Pipeline.VStr "jobs/1/video.mp4").
Proof.
  cbv zeta.
  destruct (unhandled_exception_fails_job_and_keeps_artifacts
              (Examples.scripted Examples.analysis_down)
              "action" "jobs/1/video.mp4" "jobs/1"
              (Highlight.Exception "throttled") eq_refl)
    as (H1 & H2 & H3 & _).
  split; [exact H1|]. split; [exact H2|].
  split; (rewrite H3 by discriminate; vm_compute; reflexivity).
Defined.

(** C6, as amended.  Stage 1 falls back: when the call to the model raises,
    [generate_criteria] returns the built-in criteria, which are not empty.
    Stage 2 falls back as well: when anything raises inside
    [compress_video], it returns the path of the original video.  So
    whatever these two stages meet, the record holds criteria and a
    compressed path and the job goes on to call stage 3.  The stages 3 to 6
    have no fallback: the job ends completed or failed, and it completes only
    if the calls of all four of them returned. *)
Theorem criteria_and_compression_fall_back_later_stages_do_not :
  forall (services : Highlight.Services) (theme video_path work_dir : string),
    let criteria := Highlight.generate_criteria theme in
    let target := PyStr.path_join work_dir "compressed.mp4" in
    let compressed := Highlight.compress_video video_path target 100 in
    let j := fst (Pipeline.run theme video_path work_dir) in
    let calls := snd (Pipeline.run theme video_path work_dir) in
    (forall e, Highlight.invoke_claude theme = inl e ->
               criteria = Highlight.default_criteria)
    /\ Highlight.default_criteria <> ""
    /\ (forall e, Highlight.compress_video_body video_path target 100 = inl e ->
                  compressed = video_path)
    /\ Pipeline.field "criteria" j = Some (Pipeline.VStr criteria)
    /\ Pipeline.field "compressed_path" j = Some (Pipeline.VStr compressed)
    /\ firstn 3 calls
       = [Pipeline.GenerateCriteria; Pipeline.CompressVideo;
          Pipeline.AnalyzeVideo]
    /\ (Pipeline.field "status" j = Some (Pipeline.VStr "completed")
        \/ Pipeline.field "status" j = Some (Pipeline.VStr "failed"))
    /\ (Pipeline.field "status" j = Some (Pipeline.VStr "completed") ->
        exists a l sel o,
          Highlight.analyze_video compressed criteria = inr a
          /\ Highlight.extract_clips_with_embeddings compressed 3 = inr l
          /\ Highlight.match_clips a l Highlight.default_threshold
               Highlight.default_top_k_per_point = inr sel
          /\ Highlight.create_highlight_video sel
               (PyStr.path_join work_dir "highlight.mp4") = inr o).
Proof.
  intros services theme video_path work_dir criteria target compressed j calls.
  split.
  { intros e He. subst criteria. unfold Highlight.generate_criteria.
    now rewrite He. }
  split; [discriminate|].
  split.
  { intros e He. subst compressed. unfold Highlight.compress_video.
    now rewrite He. }
  pose proof (stages_cases theme video_path work_dir) as Hc. cbv zeta in Hc.
  fold criteria target compressed in Hc.
  assert (Hfail : forall e j' tr k an cl,
            Pipeline.stages theme video_path work_dir
              (Pipeline.new_job theme video_path work_dir) = (inl e, j', tr) ->
            Pipeline.shows j' k criteria compressed an cl ->
            firstn 3 tr = [Pipeline.GenerateCriteria; Pipeline.CompressVideo;
                           Pipeline.AnalyzeVideo] ->
            Pipeline.field "criteria" j = Some (Pipeline.VStr criteria)
            /\ Pipeline.field "compressed_path" j
               = Some (Pipeline.VStr compressed)
            /\ firstn 3 calls
               = [Pipeline.GenerateCriteria; Pipeline.CompressVideo;
                  Pipeline.AnalyzeVideo]
            /\ (Pipeline.field "status" j = Some (Pipeline.VStr "completed")
                \/ Pipeline.field "status" j = Some (Pipeline.VStr "failed"))
            /\ (Pipeline.field "status" j = Some (Pipeline.VStr "completed") ->
                False)).
  { intros e j' tr k an cl Hs Hshow Htr. subst j calls.
    rewrite (run_failed _ _ _ _ _ _ Hs). cbn [fst snd].
    pose proof (shows_after_failure j' e _ _ _ _ _ Hshow)
      as (_ & _ & Hcrit & Hcomp & _).
    split; [exact Hcrit|]. split; [exact Hcomp|]. split; [exact Htr|].
    rewrite status_after_failure. split; [now right|discriminate]. }
  destruct (Highlight.analyze_video compressed criteria) as [e3|a] eqn:Ha.
  { destruct Hc as (j' & Hs & Hshow).
    destruct (Hfail _ _ _ _ _ _ Hs Hshow eq_refl) as (H1 & H2 & H3 & H4 & H5).
    repeat (split; [assumption|]). intros Hx. destruct (H5 Hx). }
  destruct (Highlight.extract_clips_with_embeddings compressed 3) as [e4|l]
    eqn:Hl.
  { destruct Hc as (j' & Hs & Hshow).
    destruct (Hfail _ _ _ _ _ _ Hs Hshow eq_refl) as (H1 & H2 & H3 & H4 & H5).
    repeat (split; [assumption|]). intros Hx. destruct (H5 Hx). }
  destruct (Highlight.match_clips a l _ _) as [e5|sel] eqn:Hsel.
  { destruct Hc as (j' & Hs & Hshow).
    destruct (Hfail _ _ _ _ _ _ Hs Hshow eq_refl) as (H1 & H2 & H3 & H4 & H5).
    repeat (split; [assumption|]). intros Hx. destruct (H5 Hx). }
  destruct (Pipeline.clips_info sel) as [e5|infos] eqn:Hinfos.
  { destruct Hc as (j' & Hs & Hshow).
    destruct (Hfail _ _ _ _ _ _ Hs Hshow eq_refl) as (H1 & H2 & H3 & H4 & H5).
    repeat (split; [assumption|]). intros Hx. destruct (H5 Hx). }
  destruct (Highlight.create_highlight_video sel _) as [e6|o] eqn:Ho.
  { destruct Hc as (j' & Hs & Hshow & _).
    destruct (Hfail _ _ _ _ _ _ Hs Hshow eq_refl) as (H1 & H2 & H3 & H4 & H5).
    repeat (split; [assumption|]). intros Hx. destruct (H5 Hx). }
  destruct Hc as (j' & Hs & Hst & Hcrit & Hcomp & _).
  subst j calls. rewrite (run_completed _ _ _ _ _ Hs). cbn [fst snd].
  split; [exact Hcrit|]. split; [exact Hcomp|]. split; [reflexivity|].
  split; [now left|]. intros _. now exists a, l, sel, o.
Qed.

(** C6 on a run in which the model behind stage 1 is not available. *)
Lemma criteria_and_compression_fall_back_later_stages_do_not_witness :
  Highlight.generate_criteria (services := Examples.scripted Examples.claude_down)
    "action" = Highlight.default_criteria.
Proof.
  destruct (criteria_and_compression_fall_back_later_stages_do_not
              (Examples.scripted Examples.claude_down)
              "action" "jobs/1/video.mp4" "jobs/1") as (H1 & _).
  exact (H1 (Highlight.Exception "model not available") eq_refl).
Defined.

(** C6 as stated fails: stage 1 is not the only stage with a fallback.  When
    ffprobe cannot be run, the body of [compress_video] raises, the stage
    returns the original video and the job completes. *)
Lemma compression_failure_does_not_fail_the_job :
  let services := Examples.scripted Examples.ffprobe_missing in
  let j := fst (Pipeline.run (services := services)
                  "action" "jobs/1/video.mp4" "jobs/1") in
  Highlight.compress_video_body (services := services)
    "jobs/1/video.mp4" "jobs/1/compressed.mp4" 100
  = inl (Highlight.CalledProcessError "ffprobe: not found")
  /\ Pipeline.field "compressed_path" j
     = Some (Pipeline.VStr "jobs/1/video.mp4")
  /\ Pipeline.field "status" j = Some (Pipeline.VStr "completed").
Proof. cbv zeta. repeat split; vm_compute; reflexivity. Qed.

(** C5, as amended.  If no labelled highlight point parses from the analysis
    text, [match_clips] does not fail: it returns the empty selection.  The
    job fails in the next stage: [create_highlight_video] raises on an empty
    selection, so a job whose analysis has no labelled point ends failed with
    6 as its current step, the error text of the stitching stage and a clip
    count of 0. *)
Theorem no_points_gives_empty_selection_and_fails_at_stitching :
  forall (services : Highlight.Services) (analysis : string),
    Highlight.extract_points analysis = [] ->
    (forall clips threshold top_k_per_point,
       Highlight.match_clips analysis clips threshold top_k_per_point = inr [])
    /\ (forall output,
          Highlight.create_highlight_video [] output
          = inl (Highlight.Exception "没有选中的片段可以拼接"))
    /\ (forall theme video_path work_dir clips,
          let criteria := Highlight.generate_criteria theme in
          let compressed :=
            Highlight.compress_video video_path
              (PyStr.path_join work_dir "compressed.mp4") 100 in
          let j := fst (Pipeline.run theme video_path work_dir) in
          Highlight.analyze_video compressed criteria = inr analysis ->
          Highlight.extract_clips_with_embeddings compressed 3 = inr clips ->
          Pipeline.field "status" j = Some (Pipeline.VStr "failed")
          /\ Pipeline.field "current_step" j = Some (Pipeline.VInt 6)
          /\ Pipeline.field "error" j
             = Some (Pipeline.VStr "没有选中的片段可以拼接")
          /\ Pipeline.field "clips_count" j = Some (Pipeline.VInt 0)).
Proof.
  intros services analysis Hp.
  assert (Hm : forall clips threshold top_k,
             Highlight.match_clips analysis clips threshold top_k = inr []).
  { intros clips threshold top_k. unfold Highlight.match_clips.
    now rewrite Hp. }
  split; [exact Hm|]. split; [reflexivity|].
  intros theme video_path work_dir clips criteria compressed j Ha Hl.
  pose proof (stages_cases theme video_path work_dir) as Hc. cbv zeta in Hc.
  fold criteria compressed in Hc.
  rewrite Ha, Hl, Hm in Hc. cbn [Pipeline.clips_info] in Hc.
  cbn [Highlight.create_highlight_video] in Hc.
  destruct Hc as (j' & Hs & Hshow & Hcount).
  subst j. rewrite (run_failed _ _ _ _ _ _ Hs). cbn [fst snd].
  pose proof (shows_after_failure j' (Highlight.Exception "没有选中的片段可以拼接")
                _ _ _ _ _ Hshow) as (Hstep & _).
  split; [apply status_after_failure|]. split; [exact Hstep|].
  split; [apply error_after_failure|].
  rewrite field_after_failure by discriminate. exact Hcount.
Qed.

(** C5 on an analysis text without a labelled line. *)
Lemma no_points_gives_empty_selection_and_fails_at_stitching_witness :
  Highlight.match_clips (services := Examples.scripted Examples.all_fine)
    Examples.no_points Examples.near_clips Highlight.default_threshold 3
  = inr [].
Proof.
  exact (proj1 (no_points_gives_empty_selection_and_fails_at_stitching
                  (Examples.scripted Examples.all_fine) Examples.no_points
                  eq_refl)
               Examples.near_clips Highlight.default_threshold 3).
Defined.

(** C5 as stated fails: no point parses, and the matching step returns an
    empty selection instead of raising; the job is still in progress after
    stage 5 and fails only when stage 6 runs. *)
Lemma matching_without_points_returns_empty_selection :
  Highlight.extract_points Examples.no_points = []
  /\ Highlight.match_clips (services := Examples.scripted Examples.all_fine)
       Examples.no_points Examples.near_clips Highlight.default_threshold 3
     = inr []
  /\ Pipeline.field "current_step"
       (fst (Pipeline.run
               (services := Examples.scripted Examples.unlabelled_analysis)
               "action" "jobs/1/video.mp4" "jobs/1"))
     = Some (Pipeline.VInt 6).
Proof. repeat split; vm_compute; reflexivity. Qed.

End WorkerClaims.
(* ================================================================== *)
(** * More on the vector store: reading, loading and counting *)
Section StoreReads.
Import VectorStore.
Context {B : Type} `{S3Client B}.

(** the similarity of two vectors is a finite number whenever it is
    computed *)
Lemma cosine_returns_finite (a b : vector) x :
  cosine_similarity a b = inr x -> PyFloat.finite x.
Proof.
  unfold cosine_similarity.
  destruct (_ || _).
  - intros [= <-]. now split.
  - destruct (dot a b) as [d|]; [|discriminate].
    destruct (PyFloat.isnan _ || PyFloat.isinf _) eqn:Hg.
    + intros [= <-]. now split.
    + intros [= <-]. now apply orb_false_elim in Hg.
Qed.

Lemma cosine_same_length (a b : vector) :
  List.length a = List.length b -> exists x, cosine_similarity a b = inr x.
Proof.
  intros Hl. unfold cosine_similarity.
  destruct (_ || _); [eauto|].
  rewrite (dot_same_length a b Hl).
  destruct (_ || _); eauto.
Qed.

Lemma cosine_raises (a b : vector) e :
  cosine_similarity a b = inl e ->
  e = ValueError /\ List.length a <> List.length b.
Proof.
  intros He. split.
  - unfold cosine_similarity in He.
    destruct (_ || _); [discriminate|].
    destruct (dot a b); [|now injection He].
    destruct (_ || _); discriminate.
  - intros Hl. destruct (cosine_same_length a b Hl) as (x & Hx). congruence.
Qed.

(** a search in a shard that is in memory *)
Lemma search_loaded (st : store B) (q : vector) (k : Z) (s : shard) :
  Dict.get Z.eqb (Z.of_nat (List.length q)) (vectors_by_dimension st) = Some s ->
  s <> [] ->
  search q k None st
  = (inr (PyList.slice_to k
            (PyList.sort_desc similarity (similarities_of (metadata st) q s))),
     st, []).
Proof.
  intros Hg Hs. unfold search.
  erewrite bind_returns by reflexivity. cbv beta.
  rewrite (bind_returns _ _ _ _ _ _ (shard_of_present st _ s Hg)). cbv beta.
  destruct s as [|item s]; [contradiction|].
  erewrite bind_returns by reflexivity. cbv beta.
  rewrite (bind_returns _ _ _ _ _ _ (shard_of_present st _ _ Hg)). cbv beta.
  erewrite bind_returns by reflexivity. cbv beta.
  reflexivity.
Qed.

(** every vector of the length of the query gives a hit *)
Lemma similarities_of_all md (q : vector) (s : shard) :
  Forall (fun item => List.length (snd item) = List.length q) s ->
  map hit_id (similarities_of md q s) = Dict.keys s.
Proof.
  induction 1 as [|[id v] s Hv _ IH]; [reflexivity|].
  cbn [similarities_of Dict.keys map fst]. cbn [snd] in Hv.
  destruct (cosine_same_length q v (eq_sym Hv)) as (x & Hx). rewrite Hx.
  destruct (cosine_returns_finite q v x Hx) as [Hn Hi]. rewrite Hn, Hi.
  cbn [negb orb map hit_id]. f_equal. exact IH.
Qed.

Lemma similarities_of_length md (q : vector) (s : shard) :
  (List.length (similarities_of md q s) <= List.length s)%nat.
Proof.
  induction s as [|[id v] s IH]; [constructor|].
  cbn [similarities_of List.length].
  destruct (cosine_similarity q v) as [e|x]; [lia|].
  destruct (negb _); cbn [List.length]; lia.
Qed.

(** the hit of a stored vector of the length of the query *)
Lemma similarities_of_in md (q : vector) (s : shard) id v :
  In (id, v) s -> List.length v = List.length q ->
  exists h, In h (similarities_of md q s)
            /\ hit_id h = id
            /\ hit_metadata h = match Dict.get String.eqb id md with
                                | Some m => m
                                | None => []
                                end.
Proof.
  intros Hin Hl. induction s as [|[id' v'] s IH]; [destruct Hin|].
  cbn [similarities_of].
  destruct Hin as [[= -> ->]|Hin].
  - destruct (cosine_same_length q v (eq_sym Hl)) as (x & Hx). rewrite Hx.
    destruct (cosine_returns_finite q v x Hx) as [Hn Hi]. rewrite Hn, Hi.
    cbn [negb orb]. eexists. split; [left; reflexivity|]. now split.
  - destruct (IH Hin) as (h & Hh & Hid & Hm).
    exists h. split; [|now split].
    destruct (cosine_similarity q v') as [e|x]; [exact Hh|].
    destruct (negb _); [now right|exact Hh].
Qed.

Lemma slice_to_all {A} (k : Z) (l : list A) :
  Z.of_nat (List.length l) <= k -> PyList.slice_to k l = l.
Proof.
  intros Hk. unfold PyList.slice_to.
  replace (0 <=? k) with true by lia.
  apply firstn_all2. lia.
Qed.

Lemma sort_desc_length {A} (key : A -> PyFloat.float) (l : list A) :
  List.length (PyList.sort_desc key l) = List.length l.
Proof. apply Permutation_length, sort_desc_perm. Qed.

Lemma dict_get_in {V} (id : string) (v : V) (s : sdict V) :
  Dict.get String.eqb id s = Some v -> In (id, v) s.
Proof.
  induction s as [|[k w] s IH]; [discriminate|]. cbn [Dict.get].
  destruct (String.eqb id k) eqn:E.
  - apply String.eqb_eq in E. intros [= ->]. subst. now left.
  - intros Hg. right. now apply IH.
Qed.

End StoreReads.

(** X1.  On a shard in memory whose vectors all have the length of the
    query, a search with [top_k] at least the size of the shard returns one
    hit for every stored vector: the ids of the hits are the ids of the shard
    up to order, and nothing is sent to S3. *)
Theorem search_returns_every_vector_of_the_query_length :
  forall (B : Type) (C : VectorStore.S3Client B) (st : VectorStore.store B)
         (query_vector : vector) (top_k : Z) (s : VectorStore.shard),
    Dict.get Z.eqb (Z.of_nat (List.length query_vector))
      (VectorStore.vectors_by_dimension st) = Some s ->
    s <> [] ->
    Forall (fun item => List.length (snd item) = List.length query_vector) s ->
    Z.of_nat (List.length s) <= top_k ->
    exists hits,
      VectorStore.search query_vector top_k None st = (inr hits, st, [])
      /\ Permutation (map VectorStore.hit_id hits) (Dict.keys s)
      /\ List.length hits = List.length s.
Proof.
  intros B C st q k s Hg Hs Hall Hk.
  eexists. split; [exact (search_loaded st q k s Hg Hs)|].
  pose proof (similarities_of_all (VectorStore.metadata st) q s Hall) as Hids.
  assert (Hlen : List.length (VectorStore.similarities_of
                                (VectorStore.metadata st) q s)
                 = List.length s).
  { rewrite <- (length_map VectorStore.hit_id), Hids.
    unfold Dict.keys. apply length_map. }
  rewrite slice_to_all by (rewrite sort_desc_length; lia).
  split.
  - rewrite <- Hids. apply Permutation_map, sort_desc_perm.
  - now rewrite sort_desc_length.
Qed.

(** X1 on the store that holds ["a"] and ["b"]. *)
Lemma search_returns_every_vector_of_the_query_length_witness :
  exists hits,
    VectorStore.search (Examples.v256 Examples.f1) 2 None Examples.store_ab
    = (inr hits, Examples.store_ab, [])
    /\ Permutation (map VectorStore.hit_id hits) ["a"; "b"]%string
    /\ List.length hits = 2%nat.
Proof.
  assert (Hne : [("a"%string, Examples.v256 Examples.f1);
                 ("b"%string, Examples.v256 Examples.f2)] <> [])
    by discriminate.
  apply (search_returns_every_vector_of_the_query_length _ _ Examples.store_ab
           (Examples.v256 Examples.f1) 2 _ eq_refl Hne).
  - repeat constructor.
  - cbn. lia.
Defined.

(** X2.  [cosine_similarity] of the store never answers NaN or an infinity:
    for vectors of equal length it returns a finite number, zero vectors and
    overflowing products included; it raises only numpy's error for vectors
    of different lengths. *)
Theorem store_cosine_similarity_is_finite_or_shape_error :
  forall a b : vector,
    match VectorStore.cosine_similarity a b with
    | inr x => PyFloat.isnan x = false /\ PyFloat.isinf x = false
    | inl e => e = VectorStore.ValueError /\ List.length a <> List.length b
    end
    /\ (List.length a = List.length b ->
        exists x, VectorStore.cosine_similarity a b = inr x).
Proof.
  intros a b. split.
  - destruct (VectorStore.cosine_similarity a b) as [e|x] eqn:Hc.
    + now apply cosine_raises.
    + now apply (cosine_returns_finite a b).
  - apply cosine_same_length.
Qed.

(* ================================================================== *)
(** * Loading from the bucket *)
Section LoadFacts.
Import VectorStore.
Context {B : Type} `{S3Client B}.

Lemma load_one_shape (d : Z) (key : string) (st : store B) :
  exists st' tr,
    load_one d key st = (inr tt, st', tr)
    /\ bucket st' = bucket st
    /\ Forall loads tr.
Proof.
  unfold load_one. destruct (PyStr.endswith _ _).
  2:{ exists st, []. repeat split. constructor. }
  unfold Eff.try_except, Eff.bind, s3_get.
  destruct (get_object (bucket st) key) as [doc|].
  2:{ exists st. eexists. repeat split. repeat constructor. }
  unfold shard_set, Eff.bind, shard_of.
  destruct (Dict.get Z.eqb d (vectors_by_dimension st)) as [s|].
  2:{ exists st. eexists. repeat split. repeat constructor. }
  destruct (ld_metadata doc) as [m|]; cbn.
  - eexists. eexists. repeat split. repeat constructor.
  - eexists. eexists. repeat split. repeat constructor.
Qed.

Lemma for_each_load_shape (d : Z) (keys : list string) : forall st : store B,
  exists st' tr,
    Eff.for_each (load_one d) keys st = (inr tt, st', tr)
    /\ bucket st' = bucket st
    /\ Forall loads tr.
Proof.
  induction keys as [|key keys IH]; intros st.
  - exists st, []. repeat split. constructor.
  - destruct (load_one_shape d key st) as (st1 & tr1 & H1 & Hb1 & Hl1).
    destruct (IH st1) as (st2 & tr2 & H2 & Hb2 & Hl2).
    exists st2, (tr1 ++ tr2). cbn [Eff.for_each].
    rewrite (bind_returns _ _ _ _ _ _ H1). cbv beta. rewrite H2.
    cbn [Eff.after]. split; [reflexivity|]. split; [congruence|].
    now apply Forall_app.
Qed.

Lemma load_shape (d : Z) (st : store B) :
  exists st' tr,
    load_vectors_by_dimension d st = (inr tt, st', S3List (prefix_of d) :: tr)
    /\ bucket st' = bucket st
    /\ Forall loads tr
    /\ match list_objects_v2 (bucket st) (prefix_of d) with
       | inr (Some keys) =>
           Eff.for_each (load_one d) keys st = (inr tt, st', tr)
       | _ => st' = st /\ tr = []
       end.
Proof.
  unfold load_vectors_by_dimension. change ("vectors/" ++ PyStr.of_Z d ++ "/")%string with (prefix_of d).
  unfold Eff.try_except, Eff.bind at 1, s3_list.
  destruct (list_objects_v2 (bucket st) (prefix_of d)) as [msg|[keys|]].
  - exists st, []. cbn. repeat split. constructor.
  - destruct (for_each_load_shape d keys st) as (st1 & tr1 & H1 & Hb1 & Hl1).
    rewrite H1. exists st1, tr1. cbn. repeat split; assumption.
  - exists st, []. cbn. repeat split. constructor.
Qed.

End LoadFacts.

(** X3.  Loading a dimension never raises and never writes to the bucket: it
    sends one listing request for the prefix of the dimension, then only reads
    documents and sets entries in memory; it adds and removes no shard; and
    when the listing raises or has no contents, the store is left as it
    was. *)
Theorem load_vectors_by_dimension_never_raises_or_writes :
  forall (B : Type) (C : VectorStore.S3Client B) (st : VectorStore.store B)
         (dimension : Z),
    exists st' tr,
      VectorStore.load_vectors_by_dimension dimension st
      = (inr tt, st', VectorStore.S3List (VectorStore.prefix_of dimension) :: tr)
      /\ VectorStore.bucket st' = VectorStore.bucket st
      /\ Forall VectorStore.loads tr
      /\ Dict.keys (VectorStore.vectors_by_dimension st')
         = Dict.keys (VectorStore.vectors_by_dimension st)
      /\ match VectorStore.list_objects_v2 (VectorStore.bucket st)
                 (VectorStore.prefix_of dimension) with
         | inr (Some _) => True
         | _ => st' = st /\ tr = []
         end.
Proof.
  intros B C st d.
  destruct (load_shape d st) as (st' & tr & Hl & Hb & Hev & Hcase).
  exists st', tr. split; [exact Hl|]. split; [exact Hb|]. split; [exact Hev|].
  split.
  - pose proof (keeps_load d st) as Hk. rewrite Hl in Hk. exact Hk.
  - destruct (VectorStore.list_objects_v2 _ _) as [msg|[keys|]];
      [exact Hcase|exact I|exact Hcase].
Qed.

(* ================================================================== *)
(** * Insertion: what it changes and what a search then finds *)
Section InsertFacts.
Import VectorStore.
Context {B : Type} `{S3Client B}.

Lemma dict_get_del_other {K V} (keq : K -> K -> bool)
  (keq_eq : forall a b, keq a b = true -> a = b) (k k' : K) (d : list (K * V)) :
  keq k k' = false ->
  Dict.get keq k (Dict.del keq k' d) = Dict.get keq k d.
Proof.
  intros Hk. induction d as [|[k0 v0] d IH]; [reflexivity|].
  cbn [Dict.del Dict.get].
  destruct (keq k' k0) eqn:E.
  - apply keq_eq in E. subst k0. now rewrite Hk.
  - cbn [Dict.get]. now rewrite IH.
Qed.

Lemma dict_set_not_nil {K V} (keq : K -> K -> bool) (k : K) (v : V) d :
  Dict.set keq k v d <> [].
Proof.
  destruct d as [|[k0 v0] d]; cbn [Dict.set]; [discriminate|].
  destruct (keq k k0); discriminate.
Qed.

Lemma dict_set_length {K V} (keq : K -> K -> bool) (k : K) (v : V) d :
  Dict.mem keq k d = true ->
  List.length (Dict.set keq k v d) = List.length d.
Proof.
  intros Hm.
  rewrite <- (length_map fst (Dict.set keq k v d)), <- (length_map fst d).
  change (List.length (Dict.keys (Dict.set keq k v d))
          = List.length (Dict.keys d)).
  f_equal. clear - Hm.
  induction d as [|[k0 v0] d IH]; [discriminate|].
  unfold Dict.mem in Hm. cbn [Dict.get Dict.set] in *.
  destruct (keq k k0); [reflexivity|].
  cbn [Dict.keys map fst]. f_equal. apply IH. exact Hm.
Qed.

(** the store after an insertion, by the way the insertion ends *)
Lemma add_vector_outcomes (st : store B) id (v : vector) (m : meta) :
  let d := Z.of_nat (List.length v) in
  let mw := with_dimension m d in
  (exists e, add_vector id v m st = (inl e, st, []))
  \/ exists s,
       Dict.get Z.eqb d (vectors_by_dimension st) = Some s
       /\ any_nonzero v = true
       /\ ((exists b' tr,
              add_vector id v m st
              = (inr tt,
                 {| vectors_by_dimension :=
                      Dict.set Z.eqb d (Dict.set String.eqb id v s)
                        (vectors_by_dimension st);
                    metadata := Dict.set String.eqb id mw (metadata st);
                    bucket := b' |}, tr))
           \/ (exists e tr,
                 add_vector id v m st
                 = (inl e,
                    {| vectors_by_dimension :=
                         Dict.set Z.eqb d
                           (Dict.del String.eqb id (Dict.set String.eqb id v s))
                           (vectors_by_dimension st);
                       metadata :=
                         Dict.del String.eqb id
                           (Dict.set String.eqb id mw (metadata st));
                       bucket := bucket st |}, tr))).
Proof.
  cbv zeta.
  destruct (any_nonzero v) eqn:Hnz.
  2:{ left. eexists. now apply add_vector_all_zero. }
  destruct (Dict.get Z.eqb (Z.of_nat (List.length v)) (vectors_by_dimension st))
    as [s|] eqn:Hg.
  2:{ left. exists (UnsupportedDim (Z.of_nat (List.length v))).
      unfold add_vector. destruct v as [|x v']; [discriminate|].
      rewrite Hnz. cbn [negb].
      erewrite bind_returns by reflexivity. cbv beta.
      unfold Dict.mem. now rewrite Hg. }
  destruct (Z.of_nat (List.length v) <? 100) eqn:Hsmall.
  { left. exists (DimensionTooSmall (Z.of_nat (List.length v))).
    unfold add_vector. destruct v as [|x v']; [discriminate|].
    rewrite Hnz. cbn [negb].
    erewrite bind_returns by reflexivity. cbv beta.
    unfold Dict.mem. rewrite Hg. cbn [negb]. now rewrite Hsmall. }
  right. exists s. split; [reflexivity|]. split; [reflexivity|].
  pose proof (add_vector_accepted st id v m s Hnz Hg ltac:(lia)) as Ha.
  cbv zeta in Ha.
  destruct (put_object _ _ _) as [msg|b'].
  - right. do 2 eexists. rewrite Ha.
    rewrite (dict_set_set Z.eqb Z.eqb_refl). reflexivity.
  - left. do 2 eexists. exact Ha.
Qed.

End InsertFacts.

Section InsertFrame.
Import VectorStore.
Context {B : Type} `{S3Client B}.

Lemma z_eqb_true (a b : Z) : Z.eqb a b = true -> a = b.
Proof. apply Z.eqb_eq. Qed.

Lemma string_eqb_true (a b : string) : String.eqb a b = true -> a = b.
Proof. apply String.eqb_eq. Qed.

Lemma stored_other_id (vbd vbd' : zdict shard) (md md' : sdict meta) (b b' : B)
  (d : Z) (id id' : string) (s s' : shard) :
  Dict.get Z.eqb d vbd = Some s ->
  vbd' = Dict.set Z.eqb d s' vbd ->
  Dict.get String.eqb id' s' = Dict.get String.eqb id' s ->
  forall d',
    stored {| vectors_by_dimension := vbd'; metadata := md'; bucket := b' |} d' id'
    = stored {| vectors_by_dimension := vbd; metadata := md; bucket := b |} d' id'.
Proof.
  intros Hg -> Hs d'. unfold stored. cbn [vectors_by_dimension].
  destruct (Z.eqb d' d) eqn:E.
  - apply Z.eqb_eq in E. subst d'.
    rewrite (dict_get_set_same Z.eqb Z.eqb_refl), Hg. exact Hs.
  - now rewrite (dict_get_set_other Z.eqb z_eqb_true) by exact E.
Qed.

Lemma add_vector_frame (st : store B) id (v : vector) (m : meta) :
  let st' := Eff.state (add_vector id v m st) in
  (forall d' id', id' <> id -> stored st' d' id' = stored st d' id')
  /\ (forall d', d' <> Z.of_nat (List.length v) ->
        Dict.get Z.eqb d' (vectors_by_dimension st')
        = Dict.get Z.eqb d' (vectors_by_dimension st))
  /\ (forall id', id' <> id ->
        Dict.get String.eqb id' (metadata st')
        = Dict.get String.eqb id' (metadata st)).
Proof.
  cbv zeta.
  destruct (add_vector_outcomes st id v m)
    as [(e & ->)|(s & Hg & _ & [(b' & tr & ->)|(e & tr & ->)])];
    cbn [Eff.state fst snd].
  - repeat split; reflexivity.
  - split; [|split].
    + intros d' id' Hid. apply String.eqb_neq in Hid.
      destruct st as [vbd md b].
      apply (stored_other_id vbd _ md _ b b' _ id id' s _ Hg eq_refl).
      now apply (dict_get_set_other String.eqb string_eqb_true).
    + intros d' Hd. apply Z.eqb_neq in Hd. cbn [vectors_by_dimension].
      now apply (dict_get_set_other Z.eqb z_eqb_true).
    + intros id' Hid. apply String.eqb_neq in Hid. cbn [metadata].
      now apply (dict_get_set_other String.eqb string_eqb_true).
  - split; [|split].
    + intros d' id' Hid. apply String.eqb_neq in Hid.
      destruct st as [vbd md b].
      apply (stored_other_id vbd _ md _ b b _ id id' s _ Hg eq_refl).
      rewrite (dict_get_del_other String.eqb string_eqb_true) by exact Hid.
      now apply (dict_get_set_other String.eqb string_eqb_true).
    + intros d' Hd. apply Z.eqb_neq in Hd. cbn [vectors_by_dimension].
      now apply (dict_get_set_other Z.eqb z_eqb_true).
    + intros id' Hid. apply String.eqb_neq in Hid. cbn [metadata].
      rewrite (dict_get_del_other String.eqb string_eqb_true) by exact Hid.
      now apply (dict_get_set_other String.eqb string_eqb_true).
Qed.

(** a successful insertion, read backwards *)
Lemma add_vector_returned (st st' : store B) id (v : vector) (m : meta) tr :
  add_vector id v m st = (inr tt, st', tr) ->
  exists s,
    Dict.get Z.eqb (Z.of_nat (List.length v)) (vectors_by_dimension st) = Some s
    /\ vectors_by_dimension st'
       = Dict.set Z.eqb (Z.of_nat (List.length v)) (Dict.set String.eqb id v s)
           (vectors_by_dimension st)
    /\ metadata st'
       = Dict.set String.eqb id
           (with_dimension m (Z.of_nat (List.length v))) (metadata st).
Proof.
  intros Ha.
  destruct (add_vector_outcomes st id v m)
    as [(e & He)|(s & Hg & _ & [(b' & tr' & Hok)|(e & tr' & He)])];
    try congruence.
  exists s. split; [exact Hg|].
  rewrite Hok in Ha. injection Ha as <- _. now split.
Qed.

End InsertFrame.

(** X4.  Whatever the outcome of an insertion (rejected, persisted or rolled
    back), it concerns one id and one shard: the vector stored under any
    other id, in any dimension, the shard of any other dimension and the
    metadata of any other id are as before. *)
Theorem add_vector_leaves_other_ids_and_shards_alone :
  forall (B : Type) (C : VectorStore.S3Client B) (st : VectorStore.store B)
         (id : string) (v : vector) (m : VectorStore.meta),
    let st' := Eff.state (VectorStore.add_vector id v m st) in
    (forall d' id', id' <> id ->
       VectorStore.stored st' d' id' = VectorStore.stored st d' id')
    /\ (forall d', d' <> Z.of_nat (List.length v) ->
          Dict.get Z.eqb d' (VectorStore.vectors_by_dimension st')
          = Dict.get Z.eqb d' (VectorStore.vectors_by_dimension st))
    /\ (forall id', id' <> id ->
          Dict.get String.eqb id' (VectorStore.metadata st')
          = Dict.get String.eqb id' (VectorStore.metadata st)).
Proof.
  intros B C st id v m. apply add_vector_frame.
Qed.

(** X5.  A vector that was inserted is found: after [add_vector] returned, a
    search with that vector as the query and a [top_k] that is at least the
    size of its shard returns, without any request to S3, a hit with the id
    of the vector and the metadata it was inserted with, the dimension
    added. *)
Theorem inserted_vector_is_found_by_search :
  forall (B : Type) (C : VectorStore.S3Client B) (st st' : VectorStore.store B)
         (id : string) (v : vector) (m : VectorStore.meta)
         (tr : list VectorStore.event) (top_k : Z),
    let d := Z.of_nat (List.length v) in
    VectorStore.add_vector id v m st = (inr tt, st', tr) ->
    (forall s, Dict.get Z.eqb d (VectorStore.vectors_by_dimension st') = Some s ->
               Z.of_nat (List.length s) <= top_k) ->
    exists hits h,
      VectorStore.search v top_k None st' = (inr hits, st', [])
      /\ In h hits
      /\ VectorStore.hit_id h = id
      /\ VectorStore.hit_metadata h = VectorStore.with_dimension m d.
Proof.
  intros B C st st' id v m tr k d Ha Hk.
  destruct (add_vector_returned st st' id v m tr Ha) as (s & Hg & Hv & Hm).
  fold d in Hg, Hv, Hm.
  set (s' := Dict.set String.eqb id v s) in *.
  assert (Hg' : Dict.get Z.eqb d (VectorStore.vectors_by_dimension st') = Some s').
  { rewrite Hv. apply (dict_get_set_same Z.eqb Z.eqb_refl). }
  assert (Hin : In (id, v) s').
  { apply dict_get_in. apply (dict_get_set_same String.eqb String.eqb_refl). }
  destruct (similarities_of_in (VectorStore.metadata st') v s' id v Hin eq_refl)
    as (h & Hh & Hid & Hmeta).
  eexists. exists h.
  split; [exact (search_loaded st' v k s' Hg' (dict_set_not_nil _ _ _ _))|].
  split; [|split; [exact Hid|]].
  - rewrite slice_to_all.
    + apply (Permutation_in h (Permutation_sym (sort_desc_perm _ _)) Hh).
    + rewrite sort_desc_length.
      pose proof (similarities_of_length (VectorStore.metadata st') v s').
      specialize (Hk s' Hg'). lia.
  - rewrite Hmeta, Hm.
    now rewrite (dict_get_set_same String.eqb String.eqb_refl).
Qed.

(** X5 on an empty store: ["a"] is inserted and then searched for. *)
Lemma inserted_vector_is_found_by_search_witness :
  exists hits h,
    VectorStore.search (Examples.v256 Examples.f1) 5 None Examples.store_a
    = (inr hits, Examples.store_a, [])
    /\ In h hits
    /\ VectorStore.hit_id h = "a"%string
    /\ VectorStore.hit_metadata h = VectorStore.with_dimension [] 256.
Proof.
  assert (Ha : VectorStore.add_vector "a" (Examples.v256 Examples.f1) []
                 (VectorStore.init Examples.empty_online)
               = (inr tt, Examples.store_a,
                  [VectorStore.ShardSet 256 "a"; VectorStore.MetaSet "a";
                   VectorStore.S3Put "vectors/256/a.json"]))
    by (vm_compute; reflexivity).
  apply (inserted_vector_is_found_by_search _ _ _ _ _ _ _ _ 5 Ha).
  intros s Hs. vm_compute in Hs. injection Hs as <-. cbn. lia.
Defined.

(** X6.  Inserting under an id that its shard already holds replaces the
    vector in place: after [add_vector] returned, the shard holds the new
    vector under that id and has the same ids in the same order, so the order
    that breaks ties in a search is unchanged. *)
Theorem reinserting_an_id_replaces_its_vector_in_place :
  forall (B : Type) (C : VectorStore.S3Client B) (st st' : VectorStore.store B)
         (id : string) (v old : vector) (m : VectorStore.meta)
         (tr : list VectorStore.event) (s : VectorStore.shard),
    let d := Z.of_nat (List.length v) in
    Dict.get Z.eqb d (VectorStore.vectors_by_dimension st) = Some s ->
    Dict.get String.eqb id s = Some old ->
    VectorStore.add_vector id v m st = (inr tt, st', tr) ->
    exists s',
      Dict.get Z.eqb d (VectorStore.vectors_by_dimension st') = Some s'
      /\ Dict.keys s' = Dict.keys s
      /\ Dict.get String.eqb id s' = Some v.
Proof.
  intros B C st st' id v old m tr s d Hg Hold Ha.
  destruct (add_vector_returned st st' id v m tr Ha) as (s0 & Hg0 & Hv & _).
  fold d in Hg0, Hv. rewrite Hg in Hg0. injection Hg0 as <-.
  exists (Dict.set String.eqb id v s).
  split; [rewrite Hv; apply (dict_get_set_same Z.eqb Z.eqb_refl)|].
  split.
  - apply (dict_keys_set_present String.eqb). unfold Dict.mem. now rewrite Hold.
  - apply (dict_get_set_same String.eqb String.eqb_refl).
Qed.

(** X6 on the store that holds ["a"] and ["b"]: ["a"] is inserted again. *)
Lemma reinserting_an_id_replaces_its_vector_in_place_witness :
  exists s',
    Dict.get Z.eqb 256
      (VectorStore.vectors_by_dimension
         (Eff.state (VectorStore.add_vector "a" (Examples.v256 Examples.f2) []
                       Examples.store_ab))) = Some s'
    /\ Dict.keys s' = ["a"; "b"]%string
    /\ Dict.get String.eqb "a"%string s' = Some (Examples.v256 Examples.f2).
Proof.
  assert (Hg : Dict.get Z.eqb (Z.of_nat (List.length (Examples.v256 Examples.f2)))
                 (VectorStore.vectors_by_dimension Examples.store_ab)
               = Some [("a"%string, Examples.v256 Examples.f1);
                       ("b"%string, Examples.v256 Examples.f2)])
    by (vm_compute; reflexivity).
  apply (reinserting_an_id_replaces_its_vector_in_place _ _
           Examples.store_ab _ "a" (Examples.v256 Examples.f2)
           (Examples.v256 Examples.f1) []
           [VectorStore.ShardSet 256 "a"; VectorStore.MetaSet "a";
            VectorStore.S3Put "vectors/256/a.json"] _ Hg eq_refl).
  vm_compute. reflexivity.
Defined.

(* ================================================================== *)
(** * Loading every dimension and counting *)
Section CountFacts.
Import VectorStore.
Context {B : Type} `{S3Client B}.

Lemma loads_not_listing (tr : list event) :
  Forall loads tr -> filter is_listing tr = [].
Proof.
  induction 1 as [|ev tr Hev _ IH]; [reflexivity|].
  cbn [filter]. rewrite IH. now destruct ev.
Qed.

Lemma for_each_load_dimensions (dims : list Z) : forall st : store B,
  exists st' tr,
    Eff.for_each load_vectors_by_dimension dims st = (inr tt, st', tr)
    /\ bucket st' = bucket st
    /\ filter is_listing tr = map (fun d => S3List (prefix_of d)) dims
    /\ Forall (fun ev => is_listing ev = true \/ loads ev) tr
    /\ Dict.keys (vectors_by_dimension st') = Dict.keys (vectors_by_dimension st).
Proof.
  induction dims as [|d dims IH]; intros st.
  - exists st, []. repeat split. constructor.
  - destruct (load_shape d st) as (st1 & tr1 & H1 & Hb1 & Hl1 & _).
    destruct (IH st1) as (st2 & tr2 & H2 & Hb2 & Hf2 & Hev2 & Hk2).
    exists st2, ((S3List (prefix_of d) :: tr1) ++ tr2). cbn [Eff.for_each].
    rewrite (bind_returns _ _ _ _ _ _ H1). cbv beta. rewrite H2.
    cbn [Eff.after]. split; [reflexivity|]. split; [congruence|].
    split; [|split].
    + cbn [app filter is_listing map]. rewrite filter_app, Hf2.
      now rewrite (loads_not_listing tr1 Hl1).
    + apply Forall_app. split; [|exact Hev2].
      constructor; [now left|].
      eapply Forall_impl; [|exact Hl1]. intros ev Hev. now right.
    + rewrite Hk2. pose proof (keeps_load d st) as Hk. rewrite H1 in Hk.
      exact Hk.
Qed.

Lemma memory_stats_keys (vbd : zdict shard) :
  Dict.keys (memory_stats vbd) = Dict.keys vbd.
Proof.
  unfold Dict.keys, memory_stats. rewrite map_map. reflexivity.
Qed.

Lemma dict_mem_keys {V} (k : Z) (d : zdict V) :
  In k (Dict.keys d) -> Dict.mem Z.eqb k d = true.
Proof.
  unfold Dict.mem. induction d as [|[k0 v0] d IH]; [intros []|].
  cbn [Dict.keys map fst In Dict.get].
  destruct (Z.eqb k k0) eqn:E; [reflexivity|].
  intros [->|Hin]; [now rewrite Z.eqb_refl in E|now apply IH].
Qed.

Lemma dict_get_keys {V} (k : Z) (v : V) (d : zdict V) :
  Dict.get Z.eqb k d = Some v -> In (k, v) d.
Proof.
  induction d as [|[k0 v0] d IH]; [discriminate|]. cbn [Dict.get].
  destruct (Z.eqb k k0) eqn:E.
  - apply Z.eqb_eq in E. intros [= ->]. subst. now left.
  - intros Hg. right. now apply IH.
Qed.

Lemma dict_in_get {V} (k : Z) (v : V) (d : zdict V) :
  NoDup (Dict.keys d) -> In (k, v) d -> Dict.get Z.eqb k d = Some v.
Proof.
  induction d as [|[k0 v0] d IH]; [intros _ []|].
  cbn [Dict.keys map fst Dict.get]. intros Hnd Hin.
  apply NoDup_cons_iff in Hnd as [Hnot Hnd].
  destruct Hin as [[= -> ->]|Hin]; [now rewrite Z.eqb_refl|].
  destruct (Z.eqb k k0) eqn:E; [|now apply IH].
  apply Z.eqb_eq in E. subst k0. exfalso. apply Hnot.
  now apply (in_map fst) in Hin.
Qed.

(** what the listings leave in [stats]: the requests are listings, no key is
    added, and a count that was 0 or the size of a listing is 0 or the size
    of a listing *)
Lemma stats_from_s3_spec (b : B) (dims : list Z) : forall stats : zdict Z,
  (forall d, In d dims -> In d (Dict.keys stats)) ->
  let o := stats_from_s3 b dims stats in
  Dict.keys (fst o) = Dict.keys stats
  /\ Forall (fun ev => is_listing ev = true) (snd o)
  /\ ((forall d c, Dict.get Z.eqb d stats = Some c ->
         c = 0 \/ exists contents,
                    list_objects_v2 b (prefix_of d) = inr contents
                    /\ c = contents_count contents) ->
      forall d c, Dict.get Z.eqb d (fst o) = Some c ->
        c = 0 \/ exists contents,
                   list_objects_v2 b (prefix_of d) = inr contents
                   /\ c = contents_count contents).
Proof.
  induction dims as [|d dims IH]; intros stats Hin; cbv zeta.
  - cbn. repeat split; [constructor|auto].
  - cbn [stats_from_s3].
    destruct (list_objects_v2 b (prefix_of d)) as [msg|contents] eqn:Hl.
    + cbn. repeat split; [repeat constructor|auto].
    + assert (Hk : Dict.keys (Dict.set Z.eqb d (contents_count contents) stats)
                   = Dict.keys stats).
      { apply dict_keys_set_present, dict_mem_keys, Hin. now left. }
      specialize (IH (Dict.set Z.eqb d (contents_count contents) stats)).
      destruct (stats_from_s3 b dims _) as [stats' tr] eqn:Hs.
      cbv zeta in IH. cbn [fst snd] in *.
      destruct IH as (IHk & IHev & IHc).
      { intros d' Hd'. rewrite Hk. apply Hin. now right. }
      split; [congruence|]. split; [now constructor|].
      intros Hc. apply IHc. intros d' c'.
      destruct (Z.eqb d' d) eqn:E.
      * apply Z.eqb_eq in E. subst d'.
        rewrite (dict_get_set_same Z.eqb Z.eqb_refl). intros [= <-].
        right. now exists contents.
      * rewrite (dict_get_set_other Z.eqb z_eqb_true) by exact E. apply Hc.
Qed.

Lemma total_memory_stats (vbd : zdict shard) :
  0 <= total (memory_stats vbd)
  /\ ((exists d s, In (d, s) vbd /\ s <> []) -> total (memory_stats vbd) <> 0)
  /\ (total (memory_stats vbd) = 0 ->
      forall d c, Dict.get Z.eqb d (memory_stats vbd) = Some c -> c = 0).
Proof.
  unfold total, memory_stats.
  induction vbd as [|[d0 s0] vbd (IH0 & IH1 & IH2)].
  - cbn. split; [lia|]. split; [intros (d & s & [] & _)|discriminate].
  - cbn [map fst snd fold_right].
    set (rest := fold_right Z.add 0 _) in *.
    split; [lia|]. split.
    + intros (d & s & [[= -> ->]|Hin] & Hs).
      * destruct s; [contradiction|]. cbn [List.length]. lia.
      * assert (rest <> 0) by (apply IH1; eauto). lia.
    + intros Hz d c. cbn [Dict.get].
      destruct (Z.eqb d d0).
      * intros [= <-]. lia.
      * apply IH2. lia.
Qed.

Lemma get_dimension_stats_spec (st : store B) :
  exists stats tr,
    get_dimension_stats st = (inr stats, st, tr)
    /\ Dict.keys stats = Dict.keys (vectors_by_dimension st)
    /\ Forall (fun ev => is_listing ev = true) tr
    /\ ((exists d s, In (d, s) (vectors_by_dimension st) /\ s <> []) ->
        tr = [] /\ stats = memory_stats (vectors_by_dimension st))
    /\ ((forall d s, In (d, s) (vectors_by_dimension st) -> s = []) ->
        forall d c, Dict.get Z.eqb d stats = Some c ->
          c = 0 \/ exists contents,
                     list_objects_v2 (bucket st) (prefix_of d) = inr contents
                     /\ c = contents_count contents).
Proof.
  unfold get_dimension_stats.
  destruct (total_memory_stats (vectors_by_dimension st)) as (_ & Hne & Hz).
  destruct (total (memory_stats (vectors_by_dimension st)) =? 0) eqn:Ht.
  - apply Z.eqb_eq in Ht.
    pose proof (stats_from_s3_spec (bucket st)
                  (Dict.keys (vectors_by_dimension st))
                  (memory_stats (vectors_by_dimension st))) as Hs.
    destruct (stats_from_s3 _ _ _) as [stats' tr].
    cbv zeta in Hs. cbn [fst snd] in Hs.
    destruct Hs as (Hk & Hev & Hc).
    { intros d Hd. now rewrite memory_stats_keys. }
    exists stats', tr. split; [reflexivity|].
    split; [now rewrite Hk, memory_stats_keys|]. split; [exact Hev|].
    split.
    + intros Hex. now apply Hne in Hex.
    + intros _. apply Hc. intros d c Hg. left. exact (Hz Ht d c Hg).
  - exists (memory_stats (vectors_by_dimension st)), [].
    split; [reflexivity|]. split; [apply memory_stats_keys|].
    split; [constructor|]. split; [now split|].
    intros Hall d c Hg. left.
    apply dict_get_keys in Hg. unfold memory_stats in Hg.
    apply in_map_iff in Hg as ([d' s] & [= <- <-] & Hin).
    now rewrite (Hall _ _ Hin).
Qed.

Lemma max_item_spec (items : list (Z * Z)) : forall best,
  In (max_item best items) (best :: items)
  /\ forall item, In item (best :: items) ->
                  snd item <= snd (max_item best items).
Proof.
  induction items as [|x items IH]; intros best.
  - cbn. split; [now left|]. intros item [<-|[]]. lia.
  - cbn [max_item].
    destruct (IH (if snd best <? snd x then x else best)) as (Hin & Hmax).
    split.
    + destruct Hin as [Hin|Hin]; [|now right; right].
      rewrite <- Hin. destruct (snd best <? snd x); [right; now left|now left].
    + intros item [<-|[<-|Hi]].
      * etransitivity; [|apply Hmax; now left].
        destruct (snd best <? snd x) eqn:E; lia.
      * etransitivity; [|apply Hmax; now left].
        destruct (snd x <? snd x) eqn:E'; destruct (snd best <? snd x) eqn:E; lia.
      * apply Hmax. now right.
Qed.

Lemma all_zero_counts (stats : zdict Z) :
  existsb (fun c => negb (c =? 0)) (map snd stats) = false ->
  forall d c, In (d, c) stats -> c = 0.
Proof.
  intros Hex d c Hin.
  destruct (Z.eqb c 0) eqn:E; [now apply Z.eqb_eq|].
  assert (existsb (fun c => negb (c =? 0)) (map snd stats) = true); [|congruence].
  apply existsb_exists. exists c. split; [|now rewrite E].
  now apply (in_map snd) in Hin.
Qed.

End CountFacts.

(** X7.  On a store with the four shards of [__init__], [load_all_vectors]
    never raises and sends exactly one listing request per dimension, for the
    prefixes of 256, 384, 1024 and 3072 in this order; every other effect is
    a document read or an entry set in memory; the bucket is not written and
    the store still has its four shards. *)
Theorem load_all_vectors_lists_each_dimension_once :
  forall (B : Type) (C : VectorStore.S3Client B) (st : VectorStore.store B),
    VectorStore.well_formed st ->
    exists st' tr,
      VectorStore.load_all_vectors st = (inr tt, st', tr)
      /\ filter VectorStore.is_listing tr
         = [VectorStore.S3List "vectors/256/"; VectorStore.S3List "vectors/384/";
            VectorStore.S3List "vectors/1024/";
            VectorStore.S3List "vectors/3072/"]
      /\ Forall (fun ev => VectorStore.is_listing ev = true
                           \/ VectorStore.loads ev) tr
      /\ VectorStore.bucket st' = VectorStore.bucket st
      /\ VectorStore.well_formed st'.
Proof.
  intros B C st Hw.
  destruct (for_each_load_dimensions [256; 384; 1024; 3072] st)
    as (st' & tr & Hl & Hb & Hf & Hev & Hk).
  exists st', tr.
  split.
  { unfold VectorStore.load_all_vectors.
    erewrite bind_returns by reflexivity. cbv beta.
    rewrite Hw, Hl. cbn [Eff.after app]. reflexivity. }
  split; [exact Hf|]. split; [exact Hev|]. split; [exact Hb|].
  unfold VectorStore.well_formed in *. now rewrite Hk.
Qed.

(** X7 on a store that was just created over an empty bucket. *)
Lemma load_all_vectors_lists_each_dimension_once_witness :
  exists st' tr,
    VectorStore.load_all_vectors (VectorStore.init Examples.empty_online)
    = (inr tt, st', tr)
    /\ filter VectorStore.is_listing tr
       = [VectorStore.S3List "vectors/256/"; VectorStore.S3List "vectors/384/";
          VectorStore.S3List "vectors/1024/"; VectorStore.S3List "vectors/3072/"]
    /\ Forall (fun ev => VectorStore.is_listing ev = true
                         \/ VectorStore.loads ev) tr
    /\ VectorStore.bucket st' = Examples.empty_online
    /\ VectorStore.well_formed st'.
Proof.
  exact (load_all_vectors_lists_each_dimension_once _ _
           (VectorStore.init Examples.empty_online) eq_refl).
Defined.

(** X8.  [get_dimension_stats] never raises and leaves the store as it is;
    its answer has one count per shard; it sends listing requests only, and
    none at all when some shard holds a vector in memory, in which case the
    counts are the sizes of the shards in memory; when every shard is empty
    in memory, each count is 0 or the number of objects that the listing of
    its dimension answered. *)
Theorem get_dimension_stats_counts_memory_before_s3 :
  forall (B : Type) (C : VectorStore.S3Client B) (st : VectorStore.store B),
    exists stats tr,
      VectorStore.get_dimension_stats st = (inr stats, st, tr)
      /\ Dict.keys stats = Dict.keys (VectorStore.vectors_by_dimension st)
      /\ Forall (fun ev => VectorStore.is_listing ev = true) tr
      /\ ((exists d s, In (d, s) (VectorStore.vectors_by_dimension st)
                       /\ s <> []) ->
          tr = []
          /\ stats = VectorStore.memory_stats
                       (VectorStore.vectors_by_dimension st))
      /\ ((forall d s, In (d, s) (VectorStore.vectors_by_dimension st) ->
                       s = []) ->
          forall d c, Dict.get Z.eqb d stats = Some c ->
            c = 0
            \/ exists contents,
                 VectorStore.list_objects_v2 (VectorStore.bucket st)
                   (VectorStore.prefix_of d) = inr contents
                 /\ c = VectorStore.contents_count contents).
Proof.
  intros B C st. apply get_dimension_stats_spec.
Qed.

(** X9.  On a store with the four shards of [__init__],
    [detect_vector_dimension] never raises and answers one of the dimensions
    256, 384, 1024 and 3072; no dimension has a greater count in the
    statistics than the one answered; and the answer is 1024 when every
    count is 0. *)
Theorem detect_vector_dimension_is_a_most_populated_dimension :
  forall (B : Type) (C : VectorStore.S3Client B) (st : VectorStore.store B),
    VectorStore.well_formed st ->
    exists dim stats tr,
      VectorStore.get_dimension_stats st = (inr stats, st, tr)
      /\ VectorStore.detect_vector_dimension st = (inr dim, st, tr)
      /\ VectorStore.supported dim = true
      /\ (forall d c, Dict.get Z.eqb d stats = Some c ->
            exists c', Dict.get Z.eqb dim stats = Some c' /\ c <= c')
      /\ ((forall d c, Dict.get Z.eqb d stats = Some c -> c = 0) -> dim = 1024).
Proof.
  intros B C st Hw.
  destruct (get_dimension_stats_spec st) as (stats & tr & Hs & Hk & _).
  rewrite Hw in Hk.
  assert (Hnd : NoDup (Dict.keys stats)).
  { rewrite Hk. repeat constructor; cbn; intuition discriminate. }
  assert (Hsup : forall d, In d (Dict.keys stats) ->
                           VectorStore.supported d = true).
  { rewrite Hk. intros d [<-|[<-|[<-|[<-|[]]]]]; reflexivity. }
  unfold VectorStore.detect_vector_dimension.
  rewrite (bind_returns _ _ _ _ _ _ Hs). cbv beta.
  destruct (existsb _ (map snd stats)) eqn:Hex; cbn [negb].
  - destruct stats as [|item rest]; [discriminate|].
    destruct (max_item_spec rest item) as (Hin & Hmax).
    set (best := VectorStore.max_item item rest) in *.
    exists (fst best), (item :: rest), tr.
    split; [exact Hs|]. split; [cbn; now rewrite app_nil_r|].
    split; [apply Hsup; now apply (in_map fst) in Hin|].
    assert (Hbest : Dict.get Z.eqb (fst best) (item :: rest) = Some (snd best)).
    { apply (dict_in_get _ _ _ Hnd). now destruct best. }
    split.
    + intros d c Hg. exists (snd best). split; [exact Hbest|].
      apply dict_get_keys in Hg. exact (Hmax (d, c) Hg).
    + intros Hall. apply existsb_exists in Hex as (c & Hc & Hnz).
      apply in_map_iff in Hc as ([d c'] & <- & Hin').
      apply (dict_in_get _ _ _ Hnd) in Hin'. apply Hall in Hin'.
      cbn in Hnz. subst c'. discriminate.
  - pose proof (all_zero_counts stats Hex) as Hz.
    exists 1024, stats, tr.
    split; [exact Hs|]. split; [cbn; now rewrite app_nil_r|].
    split; [reflexivity|].
    assert (Hin : In 1024 (Dict.keys stats)).
    { rewrite Hk. cbn. tauto. }
    apply in_map_iff in Hin as ([d0 c0] & Hd0 & Hin0). cbn in Hd0. subst d0.
    pose proof (Hz _ _ Hin0) as ->.
    split; [|reflexivity].
    intros d c Hg. exists 0. split; [exact (dict_in_get _ _ _ Hnd Hin0)|].
    apply dict_get_keys in Hg. rewrite (Hz _ _ Hg). lia.
Qed.

(** X9 on the store that holds two vectors of dimension 256. *)
Lemma detect_vector_dimension_is_a_most_populated_dimension_witness :
  exists dim stats tr,
    VectorStore.get_dimension_stats Examples.store_ab
    = (inr stats, Examples.store_ab, tr)
    /\ VectorStore.detect_vector_dimension Examples.store_ab
       = (inr dim, Examples.store_ab, tr)
    /\ VectorStore.supported dim = true
    /\ (forall d c, Dict.get Z.eqb d stats = Some c ->
          exists c', Dict.get Z.eqb dim stats = Some c' /\ c <= c')
    /\ ((forall d c, Dict.get Z.eqb d stats = Some c -> c = 0) -> dim = 1024).
Proof.
  exact (detect_vector_dimension_is_a_most_populated_dimension _ _
           Examples.store_ab eq_refl).
Defined.

(* ================================================================== *)
(** * The points of an analysis text *)
Section PointFacts.
Import Highlight.

Let blank (ch : string) : Prop := PyStr.isspace_char ch = true.

Lemma chars_cons c d (s : string) :
  PyStr.chars (String c (String d s))
  = if PyStr.continues d
    then match PyStr.chars (String d s) with
         | ch :: rest => String c ch :: rest
         | [] => [String c EmptyString]
         end
    else String c EmptyString :: PyStr.chars (String d s).
Proof. reflexivity. Qed.

Lemma chars_head c (s : string) :
  exists t rest, PyStr.chars (String c s) = String c t :: rest.
Proof.
  revert c. induction s as [|d s IH]; intros c.
  - now exists EmptyString, [].
  - rewrite chars_cons. destruct (IH d) as (t & rest & ->).
    destruct (PyStr.continues d); eauto.
Qed.

Lemma join_chars (s : string) : PyStr.join (PyStr.chars s) = s.
Proof.
  induction s as [|c s IH]; [reflexivity|].
  destruct s as [|d s]; [reflexivity|].
  rewrite chars_cons.
  destruct (chars_head d s) as (t & rest & E). rewrite E in *.
  destruct (PyStr.continues d).
  - cbn [PyStr.join fold_right String.append] in *. now rewrite IH.
  - cbn [PyStr.join fold_right String.append] in *. now rewrite IH.
Qed.

Lemma append_assoc (a b c : string) :
  ((a ++ b) ++ c = a ++ b ++ c)%string.
Proof.
  induction a as [|x a IH]; [reflexivity|]. cbn [String.append]. now rewrite IH.
Qed.

Lemma join_app (a b : list string) :
  PyStr.join (a ++ b) = (PyStr.join a ++ PyStr.join b)%string.
Proof.
  induction a as [|x a IH]; [reflexivity|].
  cbn [app PyStr.join fold_right]. fold (PyStr.join (a ++ b)) (PyStr.join a).
  rewrite IH. symmetry. apply append_assoc.
Qed.

(** the characters of a string are well formed: each is a byte followed by
    continuation bytes, and all but the first begin a character *)
Lemma chars_formed (s : string) :
  Forall (fun ch => PyStr.is_char ch = true) (PyStr.chars s)
  /\ Forall (fun ch => PyStr.begins ch = true) (tl (PyStr.chars s)).
Proof.
  induction s as [|c s IH]; [split; constructor|].
  destruct s as [|d s]; [split; repeat constructor|].
  rewrite chars_cons.
  destruct (chars_head d s) as (t & rest & E). rewrite E in *.
  destruct IH as (Hc & Hb). cbn [tl] in Hb.
  inversion Hc as [|? ? Ht Hrest]; subst.
  destruct (PyStr.continues d) eqn:Hd.
  - split; [|exact Hb]. constructor; [|exact Hrest].
    cbn [PyStr.is_char PyStr.continuation] in *. now rewrite Hd, Ht.
  - split; [constructor; [reflexivity|exact Hc]|].
    cbn [tl]. constructor; [|exact Hb].
    cbn [PyStr.begins]. now rewrite Hd.
Qed.

Lemma chars_step c (t r : string) :
  PyStr.continuation t = true ->
  match r with
  | String d _ => PyStr.continues d = false
  | EmptyString => True
  end ->
  PyStr.chars (String c (t ++ r)) = String c t :: PyStr.chars r.
Proof.
  revert c. induction t as [|d t IH]; intros c Ht Hr.
  - cbn [String.append]. destruct r as [|d r]; [reflexivity|].
    rewrite chars_cons. now rewrite Hr.
  - cbn [PyStr.continuation] in Ht. apply andb_true_iff in Ht as (Hd & Ht).
    cbn [String.append]. rewrite chars_cons, Hd, (IH d Ht Hr). reflexivity.
Qed.

Lemma chars_join (l : list string) :
  Forall (fun ch => PyStr.is_char ch = true) l ->
  Forall (fun ch => PyStr.begins ch = true) (tl l) ->
  PyStr.chars (PyStr.join l) = l.
Proof.
  induction l as [|ch l IH]; intros Hc Hb; [reflexivity|].
  inversion Hc as [|? ? Hch Hl]; subst. cbn [tl] in Hb.
  destruct ch as [|c t]; [discriminate|]. cbn [PyStr.is_char] in Hch.
  cbn [PyStr.join fold_right String.append]. fold (PyStr.join l).
  rewrite (chars_step c t (PyStr.join l) Hch).
  - rewrite IH; [reflexivity|exact Hl|].
    destruct l; [constructor|]. inversion Hb; subst. assumption.
  - destruct l as [|ch2 l]; [exact I|].
    inversion Hb as [|? ? Hb2 _]; subst.
    destruct ch2 as [|d t2]; [discriminate|].
    cbn [PyStr.join fold_right String.append].
    cbn [PyStr.begins] in Hb2. now apply negb_true_iff in Hb2.
Qed.

Lemma formed_app (a b : list string) :
  Forall (fun ch => PyStr.is_char ch = true) (a ++ b)
  /\ Forall (fun ch => PyStr.begins ch = true) (tl (a ++ b)) ->
  (Forall (fun ch => PyStr.is_char ch = true) a
   /\ Forall (fun ch => PyStr.begins ch = true) (tl a))
  /\ (Forall (fun ch => PyStr.is_char ch = true) b
      /\ Forall (fun ch => PyStr.begins ch = true) (tl b)).
Proof.
  intros (Hc & Hb). apply Forall_app in Hc as (Ha & Hb').
  destruct a as [|x a].
  - cbn [app] in Hb. repeat split; auto.
  - cbn [app tl] in *. apply Forall_app in Hb as (H1 & H2).
    repeat split; auto. destruct b; [constructor|].
    inversion H2; subst. assumption.
Qed.

Lemma lstrip_chars_spec (l : list string) :
  exists a,
    l = a ++ PyStr.lstrip_chars l
    /\ Forall blank a
    /\ forall ch r, PyStr.lstrip_chars l = ch :: r ->
                    PyStr.isspace_char ch = false.
Proof.
  induction l as [|x l IH].
  - exists []. repeat split; [constructor|discriminate].
  - cbn [PyStr.lstrip_chars]. destruct (PyStr.isspace_char x) eqn:Hx.
    + destruct IH as (a & E & Ha & Hh). exists (x :: a).
      split; [cbn [app]; now rewrite <- E|].
      split; [now constructor|exact Hh].
    + exists []. split; [reflexivity|]. split; [constructor|].
      now intros ch r [= <- _].
Qed.

Lemma rstrip_chars_spec (l : list string) :
  exists b,
    l = PyStr.rstrip_chars l ++ b
    /\ Forall blank b
    /\ forall i ch, PyStr.rstrip_chars l = i ++ [ch] ->
                    PyStr.isspace_char ch = false.
Proof.
  induction l as [|x l IH].
  - exists []. repeat split; [constructor|].
    intros [|? ?] ch; discriminate.
  - destruct IH as (b & E & Hb & Hlast). cbn [PyStr.rstrip_chars].
    destruct (PyStr.rstrip_chars l) as [|y r] eqn:Hr.
    + cbn [app] in E. subst b.
      destruct (PyStr.isspace_char x) eqn:Hx.
      * exists (x :: l). split; [reflexivity|]. split; [now constructor|].
        intros [|? ?] ch; discriminate.
      * exists l. split; [reflexivity|]. split; [exact Hb|].
        intros [|? [|? ?]] ch; try discriminate. now intros [= <-].
    + exists b. split; [cbn [app]; now rewrite E at 1|].
      split; [exact Hb|].
      intros [|z i] ch; [discriminate|].
      cbn [app]. intros [= <- Hi]. exact (Hlast i ch Hi).
Qed.

Lemma rstrip_chars_fixed (l : list string) :
  (forall i ch, l = i ++ [ch] -> PyStr.isspace_char ch = false) ->
  PyStr.rstrip_chars l = l.
Proof.
  intros Hlast. destruct (rstrip_chars_spec l) as (b & E & Hb & _).
  destruct b as [|y b0]; [rewrite app_nil_r in E; now symmetry|].
  destruct (@exists_last _ (y :: b0)) as (b' & x & Ex); [discriminate|].
  rewrite Ex in E, Hb. rewrite app_assoc in E.
  pose proof (Hlast _ _ E) as Hx.
  apply Forall_app in Hb as (_ & Hb). inversion Hb as [|? ? Hx' _]; subst.
  unfold blank in Hx'. congruence.
Qed.

Lemma lstrip_chars_fixed (l : list string) :
  (forall ch r, l = ch :: r -> PyStr.isspace_char ch = false) ->
  PyStr.lstrip_chars l = l.
Proof.
  intros Hhead. destruct l as [|x l]; [reflexivity|].
  cbn [PyStr.lstrip_chars]. now rewrite (Hhead x l eq_refl).
Qed.

(** what [strip] does to a string: it removes a run of white space at each
    end, and what is left has white space at neither end *)
Lemma strip_spec (s : string) :
  exists a b : string,
    s = (a ++ PyStr.strip s ++ b)%string
    /\ Forall blank (PyStr.chars a)
    /\ Forall blank (PyStr.chars b)
    /\ (forall ch r, PyStr.chars (PyStr.strip s) = ch :: r ->
                     PyStr.isspace_char ch = false)
    /\ (forall i ch, PyStr.chars (PyStr.strip s) = i ++ [ch] ->
                     PyStr.isspace_char ch = false).
Proof.
  unfold PyStr.strip.
  destruct (lstrip_chars_spec (PyStr.chars s)) as (la & El & Hla & Hhead).
  set (m := PyStr.lstrip_chars (PyStr.chars s)) in *.
  destruct (rstrip_chars_spec m) as (lb & Er & Hlb & Hlast).
  set (mid := PyStr.rstrip_chars m) in *.
  pose proof (chars_formed s) as Hf. rewrite El in Hf.
  apply formed_app in Hf as ((Hfa1 & Hfa2) & Hfm). rewrite Er in Hfm.
  apply formed_app in Hfm as ((Hfm1 & Hfm2) & (Hfb1 & Hfb2)).
  exists (PyStr.join la), (PyStr.join lb).
  rewrite !chars_join by assumption.
  split.
  { rewrite <- !join_app, <- Er, <- El. symmetry. apply join_chars. }
  split; [exact Hla|]. split; [exact Hlb|]. split; [|exact Hlast].
  intros ch r Hm. apply (Hhead ch (r ++ lb)). rewrite Er, Hm. reflexivity.
Qed.

Lemma strip_idem (s : string) : PyStr.strip (PyStr.strip s) = PyStr.strip s.
Proof.
  destruct (strip_spec s) as (_ & _ & _ & _ & _ & Hhead & Hlast).
  unfold PyStr.strip at 1.
  rewrite (lstrip_chars_fixed _ Hhead), (rstrip_chars_fixed _ Hlast).
  apply join_chars.
Qed.

Lemma lstrip_chars_blank (l : list string) :
  Forall blank l -> PyStr.lstrip_chars l = [].
Proof.
  induction 1 as [|x l Hx _ IH]; [reflexivity|].
  cbn [PyStr.lstrip_chars]. now rewrite Hx.
Qed.

(** [strip] answers the empty string exactly on the strings made of white
    space only *)
Lemma strip_empty (s : string) :
  PyStr.strip s = EmptyString
  <-> Forall blank (PyStr.chars s).
Proof.
  unfold PyStr.strip. split.
  - intros He.
    destruct (lstrip_chars_spec (PyStr.chars s)) as (la & El & Hla & _).
    destruct (rstrip_chars_spec (PyStr.lstrip_chars (PyStr.chars s)))
      as (lb & Er & Hlb & _).
    pose proof (chars_formed s) as Hf. rewrite El in Hf.
    apply formed_app in Hf as (_ & Hfm). rewrite Er in Hfm.
    apply formed_app in Hfm as ((Hfm & _) & _).
    destruct (PyStr.rstrip_chars (PyStr.lstrip_chars (PyStr.chars s)))
      as [|ch mid].
    + rewrite El, Er. apply Forall_app. now split.
    + inversion Hfm as [|? ? Hch _]; subst.
      destruct ch as [|c t]; [discriminate|]. discriminate.
  - intros Hb. now rewrite (lstrip_chars_blank _ Hb).
Qed.

Lemma split_from_app (sep : ascii) (a b : string) : forall cur,
  PyStr.split_from sep cur (a ++ String sep b)
  = PyStr.split_from sep cur a ++ PyStr.split_from sep EmptyString b.
Proof.
  induction a as [|c a IH]; intros cur.
  - cbn. now rewrite Ascii.eqb_refl.
  - cbn [String.append PyStr.split_from].
    destruct (Ascii.eqb c sep).
    + cbn [app]. now rewrite IH.
    + apply IH.
Qed.

Lemma extract_points_forall (analysis : string) :
  Forall (fun p =>
            exists line a b : string,
              In line (PyStr.split PyStr.newline analysis)
              /\ p = PyStr.strip line
              /\ line = (a ++ p ++ b)%string
              /\ Forall blank (PyStr.chars a)
              /\ Forall blank (PyStr.chars b)
              /\ (forall ch r, PyStr.chars p = ch :: r ->
                               PyStr.isspace_char ch = false)
              /\ (forall i ch, PyStr.chars p = i ++ [ch] ->
                               PyStr.isspace_char ch = false)
              /\ exists m, In m markers /\ PyStr.startswith m p = true)
         (extract_points analysis).
Proof.
  unfold extract_points. apply Forall_forall. intros p Hp.
  apply in_map_iff in Hp as (line & <- & Hline).
  apply filter_In in Hline as (Hline & Hpt).
  unfold is_point in Hpt. apply andb_true_iff in Hpt as (Hne & Hm).
  destruct (strip_spec line) as (a & b & E & Ha & Hb & Hhead & Hlast).
  exists line, a, b. repeat (split; [assumption || reflexivity|]).
  apply existsb_exists in Hm as (m & Hin & Hs). now exists m.
Qed.

(** the ideographic space U+3000 at both ends of a line is removed *)
Lemma strip_removes_wide_spaces :
  let wide := PyStr.of_bytes [227; 128; 128]%nat in
  PyStr.strip (wide ++ "B. tail" ++ wide) = "B. tail"%string
  /\ extract_points (wide ++ "B. tail" ++ wide) = ["B. tail"%string].
Proof. split; reflexivity. Qed.

End PointFacts.

(** X10.  Every point that [match_clips] extracts from an analysis text is a
    line of the text without the white space at its two ends: the line is a
    run of white-space characters, the point, and a run of white-space
    characters; the point has white space neither as its first nor as its
    last character; and it begins with one of the ten markers ["A."] to
    ["J."].  White space is that of [str.isspace], the characters above 127
    included. *)
Theorem extracted_points_are_stripped_labelled_lines :
  forall analysis : string,
    Forall (fun p =>
              exists line a b : string,
                In line (PyStr.split PyStr.newline analysis)
                /\ p = PyStr.strip line
                /\ line = (a ++ p ++ b)%string
                /\ Forall (fun ch => PyStr.isspace_char ch = true)
                     (PyStr.chars a)
                /\ Forall (fun ch => PyStr.isspace_char ch = true)
                     (PyStr.chars b)
                /\ (forall ch r, PyStr.chars p = ch :: r ->
                                 PyStr.isspace_char ch = false)
                /\ (forall i ch, PyStr.chars p = i ++ [ch] ->
                                 PyStr.isspace_char ch = false)
                /\ exists m, In m Highlight.markers
                             /\ PyStr.startswith m p = true)
           (Highlight.extract_points analysis).
Proof. exact extract_points_forall. Qed.

(** X11.  The points are extracted line by line: the points of two texts
    joined by a line break are the points of the first followed by the points
    of the second. *)
Theorem extract_points_works_line_by_line :
  forall a b : string,
    Highlight.extract_points (a ++ String PyStr.newline b)
    = Highlight.extract_points a ++ Highlight.extract_points b.
Proof.
  intros a b. unfold Highlight.extract_points, PyStr.split.
  now rewrite split_from_app, filter_app, map_app.
Qed.

(* ================================================================== *)
(** * Compression and segmentation *)
Section SegmentFacts.
Import Highlight.
Context {services : Services}.

Lemma compress_video_cases (input_path output_path : string) (max_size_mb : Z) :
  let r := compress_video input_path output_path max_size_mb in
  (r = input_path \/ r = output_path)
  /\ (r <> input_path ->
      exists size duration n,
        ffprobe_format input_path = inr (size, duration)
        /\ 25 * MB < size /\ max_size_mb * MB < size
        /\ PyFloat.eqb duration PyFloat.zero = false
        /\ PyFloat.to_Z (PyFloat.div (PyFloat.of_Z (max_size_mb * 8 * 1024))
                                     duration) = Some n
        /\ ffmpeg_compress input_path output_path (n - 128) = inr tt
        /\ path_exists output_path = true)
  /\ (forall size duration,
        ffprobe_format input_path = inr (size, duration) ->
        size <= 25 * MB \/ size <= max_size_mb * MB ->
        r = input_path).
Proof.
  cbv zeta. unfold compress_video, compress_video_body, bindE.
  destruct (ffprobe_format input_path) as [e|[size duration]].
  { split; [now left|]. split; [intros Hn; now destruct Hn|discriminate]. }
  destruct (size <=? 25 * MB) eqn:H25.
  { split; [now left|]. split; [intros Hn; now destruct Hn|reflexivity]. }
  destruct (size <=? max_size_mb * MB) eqn:Hmax.
  { split; [now left|]. split; [intros Hn; now destruct Hn|reflexivity]. }
  unfold true_div, int.
  destruct (PyFloat.eqb duration PyFloat.zero) eqn:Hz.
  { split; [now left|]. split; [intros Hn; now destruct Hn|].
    intros s d [= <- <-] Hs; lia. }
  destruct (PyFloat.to_Z _) as [n|] eqn:Hn.
  2:{ split; [now left|]. split; [intros Hx; now destruct Hx|].
      intros s d [= <- <-] Hs; lia. }
  destruct (ffmpeg_compress input_path output_path (n - 128)) as [e|[]] eqn:Hf.
  { split; [now left|]. split; [intros Hx; now destruct Hx|].
    intros s d [= <- <-] Hs; lia. }
  destruct (path_exists output_path) eqn:He.
  - split; [now right|]. split.
    + intros _. exists size, duration, n. repeat split; try assumption; lia.
    + intros s d [= <- <-] Hs; lia.
  - split; [now left|]. split; [intros Hx; now destruct Hx|].
    intros s d [= <- <-] Hs; lia.
Qed.

Lemma clips_from_spec (video_path dir : string) (segment_duration : Z)
  (segments : list (option vector)) : forall (i : Z) (n : nat) (c : clip),
  nth_error (clips_from video_path dir segment_duration i segments) n = Some c ->
  index c = i + Z.of_nat n
  /\ timestamp c = (i + Z.of_nat n) * segment_duration
  /\ duration c = segment_duration
  /\ path c = None
  /\ video_source c = video_path
  /\ output_dir c = dir
  /\ nth_error segments n = Some (embedding c).
Proof.
  induction segments as [|e segments IH]; intros i n c.
  - destruct n; discriminate.
  - cbn [clips_from]. destruct n as [|n].
    + cbn [nth_error]. intros [= <-]. cbn. rewrite Z.add_0_r. now repeat split.
    + cbn [nth_error]. intros Hn. destruct (IH (i + 1) n c Hn)
        as (H1 & H2 & H3 & H4 & H5 & H6 & H7).
      replace (i + Z.of_nat (S n)) with (i + 1 + Z.of_nat n) by lia.
      now repeat split.
Qed.

Lemma clips_from_length video_path dir segment_duration segments : forall i,
  List.length (clips_from video_path dir segment_duration i segments)
  = List.length segments.
Proof.
  induction segments as [|e segments IH]; intros i; [reflexivity|].
  cbn [clips_from List.length]. now rewrite IH.
Qed.

End SegmentFacts.

(** X12.  [compress_video] never raises and returns one of its two paths.  It
    returns the path of the compressed file only when the probe answered a
    size above both 25 MB and the limit, the duration is not 0, the bitrate
    [int(limit * 8 * 1024 / duration) - 128] could be computed, ffmpeg ran
    with that bitrate and the output file exists; a video of at most 25 MB or
    at most the limit is returned as it is. *)
Theorem compress_video_returns_input_unless_a_large_video_was_compressed :
  forall (services : Highlight.Services) (input_path output_path : string)
         (max_size_mb : Z),
    let r := Highlight.compress_video input_path output_path max_size_mb in
    (r = input_path \/ r = output_path)
    /\ (r <> input_path ->
        exists size duration n,
          Highlight.ffprobe_format input_path = inr (size, duration)
          /\ 25 * Highlight.MB < size /\ max_size_mb * Highlight.MB < size
          /\ PyFloat.eqb duration PyFloat.zero = false
          /\ PyFloat.to_Z (PyFloat.div (PyFloat.of_Z (max_size_mb * 8 * 1024))
                                       duration) = Some n
          /\ Highlight.ffmpeg_compress input_path output_path (n - 128) = inr tt
          /\ Highlight.path_exists output_path = true)
    /\ (forall size duration,
          Highlight.ffprobe_format input_path = inr (size, duration) ->
          size <= 25 * Highlight.MB \/ size <= max_size_mb * Highlight.MB ->
          r = input_path).
Proof.
  intros services input_path output_path max_size_mb.
  apply compress_video_cases.
Qed.

(** X13.  When [extract_clips_with_embeddings] returns, it returns one clip
    per segment that the embedding model answered, in order: the clip at
    position [n] has index [n], starts at [n * segment_duration], lasts
    [segment_duration], carries the embedding of segment [n], names the video
    as its source and has no file yet. *)
Theorem extracted_clips_are_the_numbered_segments :
  forall (services : Highlight.Services) (video_path : string)
         (segment_duration : Z) (clips : list Highlight.clip),
    Highlight.extract_clips_with_embeddings video_path segment_duration
    = inr clips ->
    exists segments,
      Highlight.segmented_embeddings video_path segment_duration = inr segments
      /\ List.length clips = List.length segments
      /\ forall (n : nat) (c : Highlight.clip),
           nth_error clips n = Some c ->
           Highlight.index c = Z.of_nat n
           /\ Highlight.timestamp c = Z.of_nat n * segment_duration
           /\ Highlight.duration c = segment_duration
           /\ Highlight.path c = None
           /\ Highlight.video_source c = video_path
           /\ nth_error segments n = Some (Highlight.embedding c).
Proof.
  intros services video_path d clips. unfold Highlight.extract_clips_with_embeddings.
  destruct (Highlight.segmented_embeddings video_path d) as [e|segments];
    [discriminate|].
  cbn [Highlight.bindE]. intros [= <-]. exists segments.
  split; [reflexivity|]. split; [apply clips_from_length|].
  intros n c Hn.
  destruct (clips_from_spec _ _ _ _ 0 n c Hn) as (H1 & H2 & H3 & H4 & H5 & _ & H7).
  rewrite Z.add_0_l in H1, H2. now repeat split.
Qed.

(** X13 on the four segments of the scripted run. *)
Lemma extracted_clips_are_the_numbered_segments_witness :
  exists segments,
    Highlight.segmented_embeddings (Services := Examples.scripted Examples.all_fine)
      "video.mp4" 3 = inr segments
    /\ List.length segments = 4%nat.
Proof.
  destruct (extracted_clips_are_the_numbered_segments
              (Examples.scripted Examples.all_fine) "video.mp4" 3 _ eq_refl)
    as (segments & Hs & Hl & _).
  exists segments. split; [exact Hs|]. rewrite <- Hl. reflexivity.
Defined.

(* ================================================================== *)
(** * What the matching selects *)
Section SelectionFacts.
Import Highlight.
Context {services : Services}.

Lemma valid_clips_in (clips : list clip) c e :
  In (c, e) (valid_clips clips) -> In c clips /\ embedding c = Some e.
Proof.
  induction clips as [|c0 clips IH]; [intros []|]. cbn [valid_clips].
  destruct (embedding c0) as [e0|] eqn:He.
  - intros [[= <- <-]|Hin]; [split; [now left|exact He]|].
    destruct (IH Hin). split; [now right|assumption].
  - intros Hin. destruct (IH Hin). split; [now right|assumption].
Qed.

Lemma valid_clips_length (clips : list clip) :
  (List.length (valid_clips clips) <= List.length clips)%nat.
Proof.
  induction clips as [|c0 clips IH]; [constructor|]. cbn [valid_clips].
  destruct (embedding c0); cbn [List.length]; lia.
Qed.

Lemma clip_similarities_spec threshold pt text_emb valid : forall sims,
  clip_similarities threshold pt text_emb valid = inr sims ->
  Forall (fun c =>
            point c = pt
            /\ PyFloat.gtb (similarity c) threshold = true
            /\ exists video_emb,
                 In (seg c, video_emb) valid
                 /\ cosine_similarity text_emb video_emb = inr (similarity c))
         sims.
Proof.
  induction valid as [|[c video_emb] valid IH]; intros sims.
  - intros [= <-]. constructor.
  - cbn [clip_similarities]. unfold bindE.
    destruct (cosine_similarity text_emb video_emb) as [e|sim] eqn:Hc;
      [discriminate|].
    destruct (clip_similarities threshold pt text_emb valid) as [e|more];
      [discriminate|].
    specialize (IH more eq_refl).
    assert (Hmore : Forall (fun c0 =>
              point c0 = pt
              /\ PyFloat.gtb (similarity c0) threshold = true
              /\ exists video_emb0,
                   In (seg c0, video_emb0) ((c, video_emb) :: valid)
                   /\ cosine_similarity text_emb video_emb0
                      = inr (similarity c0)) more).
    { eapply Forall_impl; [|exact IH].
      intros c0 (H1 & H2 & v & H3 & H4). split; [exact H1|].
      split; [exact H2|]. exists v. split; [now right|exact H4]. }
    destruct (PyFloat.gtb sim threshold) eqn:Hg; intros [= <-]; [|exact Hmore].
    constructor; [|exact Hmore]. cbn.
    split; [reflexivity|]. split; [exact Hg|].
    exists video_emb. split; [now left|exact Hc].
Qed.

Lemma slice_to_incl {A} (k : Z) (l : list A) x :
  In x (PyList.slice_to k l) -> In x l.
Proof.
  destruct (slice_to_is_firstn k l) as (n & ->).
  intros Hin. rewrite <- (firstn_skipn n l). apply in_or_app. now left.
Qed.

Lemma top_clips_spec threshold top_k valid pt top :
  top_clips threshold top_k valid pt = inr top ->
  Forall (matched threshold valid [pt]) top
  /\ (0 <= top_k -> Z.of_nat (List.length top) <= top_k).
Proof.
  unfold top_clips, bindE.
  destruct (get_embedding pt) as [e|text_emb] eqn:He; [discriminate|].
  destruct (clip_similarities threshold pt text_emb valid) as [e|sims] eqn:Hs;
    [discriminate|].
  intros [= <-]. split; [|apply slice_to_length].
  pose proof (clip_similarities_spec _ _ _ _ _ Hs) as Hall.
  rewrite Forall_forall in Hall. apply Forall_forall. intros c Hc.
  apply slice_to_incl in Hc.
  apply (Permutation_in c (sort_desc_perm similarity sims)) in Hc.
  destruct (Hall c Hc) as (Hp & Hg & v & Hv & Hcos).
  split; [rewrite Hp; now left|]. split; [exact Hg|].
  exists v, text_emb. rewrite Hp. now repeat split.
Qed.

Lemma matched_more_points threshold valid (p q : list string) c :
  (forall x, In x p -> In x q) ->
  matched threshold valid p c -> matched threshold valid q c.
Proof. intros Hpq (H1 & H2 & H3). split; [now apply Hpq|now split]. Qed.

Lemma select_clips_spec threshold top_k valid points : forall sel,
  select_clips threshold top_k valid points = inr sel ->
  Forall (matched threshold valid points) sel
  /\ (0 <= top_k ->
      Z.of_nat (List.length sel) <= top_k * Z.of_nat (List.length points)).
Proof.
  induction points as [|pt points IH]; intros sel.
  - intros [= <-]. split; [constructor|cbn; lia].
  - cbn [select_clips]. unfold bindE.
    destruct (top_clips threshold top_k valid pt) as [e|top] eqn:Ht;
      [discriminate|].
    destruct (select_clips threshold top_k valid points) as [e|more];
      [discriminate|].
    intros [= <-].
    destruct (top_clips_spec _ _ _ _ _ Ht) as (Htop & Hlen).
    destruct (IH more eq_refl) as (Hmore & Hlen').
    split.
    + apply Forall_app. split.
      * eapply Forall_impl; [|exact Htop]. intros c.
        apply matched_more_points. intros x [<-|[]]. now left.
      * eapply Forall_impl; [|exact Hmore]. intros c.
        apply matched_more_points. intros x Hx. now right.
    + intros Hk. rewrite length_app. cbn [List.length].
      specialize (Hlen Hk). specialize (Hlen' Hk). lia.
Qed.

(** ** the deduplication keeps clips of the selection *)

Lemma fold_consider_in (l : list selected) : forall acc x,
  In x (fold_left consider l acc) -> In x acc \/ In x l.
Proof.
  induction l as [|c l IH]; intros acc x; cbn [fold_left]; [now left|].
  intros Hx. destruct (IH _ _ Hx) as [Hx'|Hx']; [|right; now right].
  destruct (consider_in acc c x Hx') as [->|Hacc]; [right; now left|now left].
Qed.

Lemma consider_length (acc : list selected) c :
  (List.length (consider acc c) <= S (List.length acc))%nat.
Proof.
  unfold consider.
  destruct (first_overlap c acc) as [[[before s] after]|] eqn:Hf.
  - destruct (first_overlap_some _ _ _ _ _ Hf) as (-> & _).
    destruct (PyFloat.gtb _ _); rewrite ?length_app; cbn [List.length];
      rewrite ?length_app; cbn [List.length]; lia.
  - rewrite length_app. cbn [List.length]. lia.
Qed.

Lemma fold_consider_length (l : list selected) : forall acc,
  (List.length (fold_left consider l acc)
   <= List.length acc + List.length l)%nat.
Proof.
  induction l as [|c l IH]; intros acc; cbn [fold_left List.length]; [lia|].
  specialize (IH (consider acc c)). pose proof (consider_length acc c). lia.
Qed.

Lemma unique_clips_length seen (l : list selected) :
  (List.length (unique_clips seen l) <= List.length l)%nat.
Proof.
  revert seen. induction l as [|c l IH]; intros seen; [constructor|].
  cbn [unique_clips]. destruct (existsb _ _); cbn [List.length].
  - specialize (IH seen). lia.
  - specialize (IH (idx c :: seen)). lia.
Qed.

Lemma deduplicate_in (l : list selected) x :
  In x (deduplicate l) -> In x l.
Proof.
  unfold deduplicate, accepted. intros Hx.
  apply (Permutation_in x (sort_asc_perm start _)) in Hx.
  apply fold_consider_in in Hx as [[]|Hx].
  apply unique_clips_in in Hx.
  exact (Permutation_in x (sort_asc_perm start l) Hx).
Qed.

Lemma deduplicate_length (l : list selected) :
  (List.length (deduplicate l) <= List.length l)%nat.
Proof.
  unfold deduplicate, accepted.
  rewrite (Permutation_length (sort_asc_perm start _)).
  pose proof (fold_consider_length (unique_clips [] (PyList.sort_asc start l)) []).
  pose proof (unique_clips_length [] (PyList.sort_asc start l)).
  pose proof (Permutation_length (sort_asc_perm start l)).
  cbn [List.length] in *. lia.
Qed.

(** ** the extraction of the files *)

Lemma materialize_spec (l : list selected) : forall r,
  materialize l = inr r -> Forall2 with_file l r.
Proof.
  induction l as [|c l IH]; intros r.
  - intros [= <-]. constructor.
  - cbn [materialize]. unfold bindE.
    destruct (path (seg c)) as [p|] eqn:Hp.
    + destruct (materialize l) as [e|rest]; [discriminate|].
      intros [= <-]. constructor; [|now apply IH].
      unfold with_file. now rewrite Hp.
    + destruct (ffmpeg_extract _ _ _ _) as [e|[]]; [discriminate|].
      destruct (materialize l) as [e|rest]; [discriminate|].
      intros [= <-]. constructor; [|now apply IH].
      unfold with_file. now rewrite Hp.
Qed.

Lemma with_file_keeps (c c' : selected) :
  with_file c c' ->
  similarity c' = similarity c /\ point c' = point c
  /\ idx c' = idx c /\ start c' = start c
  /\ embedding (seg c') = embedding (seg c)
  /\ path (seg c') <> None.
Proof.
  unfold with_file. destruct (path (seg c)) as [p|] eqn:Hp; intros ->.
  - repeat split. now rewrite Hp.
  - repeat split. discriminate.
Qed.

Lemma forall2_in_r {X Y} (R : X -> Y -> Prop) (l : list X) (r : list Y) y :
  Forall2 R l r -> In y r -> exists x, In x l /\ R x y.
Proof.
  induction 1 as [|x y0 l r Hxy _ IH]; [intros []|].
  intros [<-|Hin]; [exists x; split; [now left|exact Hxy]|].
  destruct (IH Hin) as (x' & Hx' & Hr). exists x'. split; [now right|exact Hr].
Qed.

(** a clip that [match_clips] returns, traced back to the selection *)
Lemma match_clips_origin analysis clips threshold top_k r :
  match_clips analysis clips threshold top_k = inr r ->
  exists sel,
    select_clips threshold top_k (valid_clips clips) (extract_points analysis)
    = inr sel
    /\ Forall2 with_file (deduplicate sel) r
    /\ Forall (matched threshold (valid_clips clips) (extract_points analysis))
              sel
    /\ (0 <= top_k ->
        Z.of_nat (List.length sel)
        <= top_k * Z.of_nat (List.length (extract_points analysis))).
Proof.
  unfold match_clips, bindE.
  destruct (select_clips _ _ _ _) as [e|sel] eqn:Hs; [discriminate|].
  intros Hm. exists sel. split; [reflexivity|].
  split; [now apply materialize_spec|]. now apply select_clips_spec.
Qed.

Lemma clips_info_total (r : list selected) :
  Forall (fun c => path (seg c) <> None) r ->
  exists infos,
    Pipeline.clips_info r = inr infos
    /\ List.length infos = List.length r
    /\ map Pipeline.info_timestamp infos = map start r.
Proof.
  induction 1 as [|c r Hc _ (infos & Hi & Hl & Ht)].
  - exists []. now repeat split.
  - cbn [Pipeline.clips_info]. unfold Pipeline.info_of, bindE.
    destruct (path (seg c)) as [p|]; [|contradiction].
    rewrite Hi. eexists. split; [reflexivity|].
    cbn [List.length map Pipeline.info_timestamp]. now rewrite Hl, Ht.
Qed.

End SelectionFacts.

(** X14.  Every clip that [match_clips] returns was matched to a point of the
    analysis with a similarity strictly above the threshold, is one of the
    candidate clips that have an embedding (same index, start offset and
    embedding), and has a file path; so the list of clip entries that the
    worker builds from the result never raises and has one entry per clip,
    with the start offsets in the same order. *)
Theorem selected_clips_exceed_the_threshold_and_have_files :
  forall (services : Highlight.Services) (analysis : string)
         (clips : list Highlight.clip) (threshold : PyFloat.float)
         (top_k_per_point : Z),
    match Highlight.match_clips analysis clips threshold top_k_per_point with
    | inr result =>
        Forall (fun c =>
                  PyFloat.gtb (Highlight.similarity c) threshold = true
                  /\ In (Highlight.point c) (Highlight.extract_points analysis)
                  /\ Highlight.path (Highlight.seg c) <> None
                  /\ exists c0,
                       In c0 clips
                       /\ Highlight.index c0 = Highlight.idx c
                       /\ Highlight.timestamp c0 = Highlight.start c
                       /\ Highlight.embedding c0
                          = Highlight.embedding (Highlight.seg c)
                       /\ Highlight.embedding c0 <> None)
               result
        /\ exists infos,
             Pipeline.clips_info result = inr infos
             /\ List.length infos = List.length result
             /\ map Pipeline.info_timestamp infos
                = map Highlight.start result
    | inl _ => True
    end.
Proof.
  intros services analysis clips threshold top_k.
  destruct (Highlight.match_clips analysis clips threshold top_k)
    as [e|r] eqn:Hm; [exact I|].
  destruct (match_clips_origin _ _ _ _ _ Hm) as (sel & _ & Hf & Hsel & _).
  rewrite Forall_forall in Hsel.
  assert (Hall : Forall (fun c =>
                  PyFloat.gtb (Highlight.similarity c) threshold = true
                  /\ In (Highlight.point c) (Highlight.extract_points analysis)
                  /\ Highlight.path (Highlight.seg c) <> None
                  /\ exists c0,
                       In c0 clips
                       /\ Highlight.index c0 = Highlight.idx c
                       /\ Highlight.timestamp c0 = Highlight.start c
                       /\ Highlight.embedding c0
                          = Highlight.embedding (Highlight.seg c)
                       /\ Highlight.embedding c0 <> None) r).
  { apply Forall_forall. intros c' Hc'.
    destruct (forall2_in_r _ _ _ _ Hf Hc') as (c & Hc & Hw).
    apply deduplicate_in in Hc.
    destruct (Hsel c Hc) as (Hp & Hg & v & t & Hv & _ & _).
    destruct (valid_clips_in _ _ _ Hv) as (Hin & Hemb).
    destruct (with_file_keeps c c' Hw) as (Hs & Hpt & Hi & Hst & He & Hpath).
    split; [now rewrite Hs|]. split; [now rewrite Hpt|].
    split; [exact Hpath|].
    exists (Highlight.seg c). split; [exact Hin|].
    split; [now rewrite Hi|]. split; [now rewrite Hst|].
    split; [now rewrite He|]. now rewrite Hemb. }
  split; [exact Hall|].
  apply clips_info_total. eapply Forall_impl; [|exact Hall].
  intros c (_ & _ & Hp & _). exact Hp.
Qed.

(** X15.  For a non-negative [top_k_per_point], [match_clips] returns at most
    [top_k_per_point] clips per extracted point, and never more clips than
    there are candidates with an embedding. *)
Theorem selection_size_is_bounded_by_points_and_candidates :
  forall (services : Highlight.Services) (analysis : string)
         (clips : list Highlight.clip) (threshold : PyFloat.float)
         (top_k_per_point : Z),
    0 <= top_k_per_point ->
    match Highlight.match_clips analysis clips threshold top_k_per_point with
    | inr result =>
        Z.of_nat (List.length result)
        <= top_k_per_point
           * Z.of_nat (List.length (Highlight.extract_points analysis))
        /\ (List.length result
            <= List.length (Highlight.valid_clips clips))%nat
        /\ (List.length result <= List.length clips)%nat
    | inl _ => True
    end.
Proof.
  intros services analysis clips threshold top_k Hk.
  destruct (Highlight.match_clips analysis clips threshold top_k)
    as [e|r] eqn:Hm; [exact I|].
  destruct (match_clips_origin _ _ _ _ _ Hm) as (sel & _ & Hf & Hsel & Hlen).
  pose proof (Forall2_length Hf) as Hl.
  pose proof (deduplicate_length sel) as Hd.
  specialize (Hlen Hk).
  split; [lia|].
  assert (Hv : (List.length r <= List.length (Highlight.valid_clips clips))%nat).
  { assert (Hidx : map Highlight.idx r
                   = map Highlight.idx (Highlight.deduplicate sel)).
    { clear - Hf. induction Hf as [|c c' l r Hw _ IH]; [reflexivity|].
      cbn [map]. destruct (with_file_keeps c c' Hw) as (_ & _ & Hi & _).
      now rewrite Hi, IH. }
    destruct (deduplicate_spec sel) as (_ & Hnd & _). cbv zeta in Hnd.
    rewrite <- Hidx in Hnd.
    rewrite <- (length_map Highlight.idx r).
    rewrite <- (length_map (fun p => Highlight.index (fst p))
                           (Highlight.valid_clips clips)).
    apply NoDup_incl_length; [exact Hnd|].
    intros i Hi. rewrite Hidx in Hi.
    apply in_map_iff in Hi as (c & <- & Hc).
    apply deduplicate_in in Hc. rewrite Forall_forall in Hsel.
    destruct (Hsel c Hc) as (_ & _ & v & t & Hin & _).
    apply in_map_iff. now exists (Highlight.seg c, v). }
  split; [exact Hv|].
  pose proof (valid_clips_length clips). lia.
Qed.

(** X15 on the three candidates that start at 0, 2 and 9. *)
Lemma selection_size_is_bounded_by_points_and_candidates_witness :
  match Highlight.match_clips (services := Examples.scripted Examples.all_fine)
          Examples.two_points Examples.near_clips
          Highlight.default_threshold 3 with
  | inr result =>
      Z.of_nat (List.length result)
      <= 3 * Z.of_nat (List.length (Highlight.extract_points Examples.two_points))
      /\ (List.length result
          <= List.length (Highlight.valid_clips Examples.near_clips))%nat
      /\ (List.length result <= List.length Examples.near_clips)%nat
  | inl _ => True
  end.
Proof.
  apply (selection_size_is_bounded_by_points_and_candidates
           (Examples.scripted Examples.all_fine)
           Examples.two_points Examples.near_clips
           Highlight.default_threshold 3).
  lia.
Defined.

(* ================================================================== *)
(** * Segments of a fixed duration *)
Section GridFacts.
Import Highlight.
Context {services : Services}.
Variable segment_duration : Z.
Hypothesis window : overlap_window <= segment_duration.

(** a clip starts at its index times the duration of a segment *)
Lemma grid_apart (x y : selected) :
  start x = idx x * segment_duration ->
  start y = idx y * segment_duration ->
  idx x <> idx y -> overlaps x y = false.
Proof.
  intros Hx Hy Hi. unfold overlaps. apply Z.ltb_ge. rewrite Hx, Hy.
  unfold overlap_window in *. nia.
Qed.

Lemma first_overlap_apart c (acc : list selected) :
  (forall s, In s acc -> overlaps c s = false) ->
  first_overlap c acc = None.
Proof.
  induction acc as [|s acc IH]; [reflexivity|]. intros Ha.
  cbn [first_overlap]. rewrite (Ha s (or_introl eq_refl)).
  rewrite IH; [reflexivity|]. intros s' Hs'. apply Ha. now right.
Qed.

Lemma fold_consider_grid (l : list selected) : forall acc,
  NoDup (map idx (acc ++ l)) ->
  Forall (fun c => start c = idx c * segment_duration) (acc ++ l) ->
  fold_left consider l acc = acc ++ l.
Proof.
  induction l as [|c l IH]; intros acc Hnd Hg; cbn [fold_left].
  - now rewrite app_nil_r.
  - assert (Hc : consider acc c = acc ++ [c]).
    { unfold consider. rewrite first_overlap_apart; [reflexivity|].
      intros s Hs. rewrite Forall_forall in Hg.
      apply grid_apart.
      - apply Hg. apply in_or_app. right. now left.
      - apply Hg. apply in_or_app. now left.
      - intros E. rewrite map_app in Hnd. cbn [map] in Hnd.
        apply NoDup_remove_2 in Hnd. apply Hnd. apply in_or_app. left.
        rewrite E. now apply in_map. }
    rewrite Hc. rewrite IH; rewrite <- app_assoc; [reflexivity|exact Hnd|exact Hg].
Qed.

Lemma unique_clips_covers (l : list selected) : forall seen c,
  In c l -> In (idx c) seen \/ In (idx c) (map idx (unique_clips seen l)).
Proof.
  induction l as [|c0 l IH]; intros seen c; [intros []|].
  cbn [unique_clips]. intros [->|Hin].
  - destruct (existsb _ seen) eqn:E.
    + left. apply existsb_exists in E as (i & Hi & Heq).
      apply Z.eqb_eq in Heq. now rewrite Heq.
    + right. now left.
  - destruct (existsb _ seen) eqn:E; [now apply IH|].
    destruct (IH (idx c0 :: seen) c Hin) as [[<-|Hs]|Hr].
    + right. now left.
    + now left.
    + right. now right.
Qed.

Lemma deduplicate_grid (sel : list selected) :
  Forall (fun c => start c = idx c * segment_duration) sel ->
  forall i, In i (map idx (deduplicate sel)) <-> In i (map idx sel).
Proof.
  intros Hg i. unfold deduplicate, accepted.
  set (sorted := PyList.sort_asc start sel).
  assert (Hperm : Permutation sorted sel) by apply sort_asc_perm.
  assert (Hu : fold_left consider (unique_clips [] sorted) []
               = unique_clips [] sorted).
  { apply (fold_consider_grid _ []); cbn [app].
    - apply unique_clips_nodup.
    - apply Forall_forall. intros c Hc. apply unique_clips_in in Hc.
      rewrite Forall_forall in Hg. apply Hg.
      exact (Permutation_in c Hperm Hc). }
  rewrite Hu. split.
  - intros Hi. apply in_map_iff in Hi as (c & <- & Hc).
    apply (Permutation_in c (sort_asc_perm start _)) in Hc.
    apply unique_clips_in in Hc. apply in_map.
    exact (Permutation_in c Hperm Hc).
  - intros Hi. apply in_map_iff in Hi as (c & <- & Hc).
    apply (Permutation_in c (Permutation_sym Hperm)) in Hc.
    destruct (unique_clips_covers sorted [] c Hc) as [[]|Hr].
    apply in_map_iff in Hr as (c' & Hi' & Hc'). rewrite <- Hi'.
    apply in_map.
    exact (Permutation_in c' (Permutation_sym (sort_asc_perm start _)) Hc').
Qed.

End GridFacts.

(** X16.  On the clips that [extract_clips_with_embeddings] built for a
    segment duration of at least the overlap window of 3 (the worker asks for
    3), the overlap step of [match_clips] discards nothing: the indices of
    the clips returned are exactly the indices of the clips that were among
    the best [top_k_per_point] of some point. *)
Theorem matching_keeps_every_selected_segment_of_a_segmented_video :
  forall (services : Highlight.Services) (video_path analysis : string)
         (segment_duration : Z) (clips : list Highlight.clip)
         (threshold : PyFloat.float) (top_k_per_point : Z)
         (selected_clips result : list Highlight.selected),
    Highlight.overlap_window <= segment_duration ->
    Highlight.extract_clips_with_embeddings video_path segment_duration
    = inr clips ->
    Highlight.select_clips threshold top_k_per_point
      (Highlight.valid_clips clips) (Highlight.extract_points analysis)
    = inr selected_clips ->
    Highlight.match_clips analysis clips threshold top_k_per_point
    = inr result ->
    forall i, In i (map Highlight.idx result)
              <-> In i (map Highlight.idx selected_clips).
Proof.
  intros services video_path analysis d clips threshold top_k sel r
         Hd Hx Hs Hm i.
  destruct (match_clips_origin _ _ _ _ _ Hm) as (sel' & Hs' & Hf & Hsel & _).
  rewrite Hs in Hs'. injection Hs' as <-.
  assert (Hidx : map Highlight.idx r
                 = map Highlight.idx (Highlight.deduplicate sel)).
  { clear - Hf. induction Hf as [|c c' l r Hw _ IH]; [reflexivity|].
    cbn [map]. destruct (with_file_keeps c c' Hw) as (_ & _ & Hi & _).
    now rewrite Hi, IH. }
  rewrite Hidx. apply (deduplicate_grid d Hd).
  apply Forall_forall. intros c Hc. rewrite Forall_forall in Hsel.
  destruct (Hsel c Hc) as (_ & _ & v & t & Hv & _).
  destruct (valid_clips_in _ _ _ Hv) as (Hin & _).
  unfold Highlight.extract_clips_with_embeddings, Highlight.bindE in Hx.
  destruct (Highlight.segmented_embeddings video_path d) as [e|segments];
    [discriminate|].
  injection Hx as <-.
  apply In_nth_error in Hin as (n & Hn).
  destruct (clips_from_spec _ _ _ _ 0 n _ Hn) as (H1 & H2 & _).
  unfold Highlight.start, Highlight.idx. now rewrite H1, H2.
Qed.

(** X16 on the scripted run: four segments of 3 seconds, two points; the
    segment of index 3 is among those selected and is returned. *)
Lemma matching_keeps_every_selected_segment_of_a_segmented_video_witness :
  In 3 (map Highlight.idx
          (match Highlight.match_clips
                   (services := Examples.scripted Examples.all_fine)
                   Examples.two_points
                   (Highlight.clips_from "video.mp4" "static/clips/job" 3 0
                      [Some (Examples.vec2 3 4); Some (Examples.vec2 4 3);
                       None; Some (Examples.vec2 1 0)])
                   Highlight.default_threshold 3 with
           | inr r => r
           | inl _ => []
           end)).
Proof.
  assert (Hs : exists sel,
             Highlight.select_clips
               (services := Examples.scripted Examples.all_fine)
               Highlight.default_threshold 3
               (Highlight.valid_clips
                  (Highlight.clips_from "video.mp4" "static/clips/job" 3 0
                     [Some (Examples.vec2 3 4); Some (Examples.vec2 4 3);
                      None; Some (Examples.vec2 1 0)]))
               (Highlight.extract_points Examples.two_points) = inr sel
             /\ In 3 (map Highlight.idx sel)).
  { eexists. split; [vm_compute; reflexivity|]. cbn. tauto. }
  destruct Hs as (sel & Hs & Hi).
  destruct (Highlight.match_clips _ _ _ _) as [e|r] eqn:Hm;
    [vm_compute in Hm; discriminate|].
  apply (matching_keeps_every_selected_segment_of_a_segmented_video
           (Examples.scripted Examples.all_fine) "video.mp4"
           Examples.two_points 3 _ Highlight.default_threshold 3 sel r
           ltac:(unfold Highlight.overlap_window; lia) eq_refl Hs Hm).
  exact Hi.
Defined.

(* ================================================================== *)
(** * Zero embeddings *)
Section ZeroEmbedding.
Import Highlight.
Context {services : Services}.

(** a float that is a zero or NaN *)
Lemma eqb_zero (x : PyFloat.float) :
  PyFloat.eqb x PyFloat.zero = true -> exists s, x = S754_zero s.
Proof.
  destruct x as [s|s| |s m e];
    [eauto|destruct s; discriminate|discriminate|destruct s; discriminate].
Qed.

Lemma all_zero (v : vector) :
  VectorStore.any_nonzero v = false -> Forall (fun x => exists s, x = S754_zero s) v.
Proof.
  unfold VectorStore.any_nonzero. induction v as [|x v IH]; [constructor|].
  cbn [existsb]. intros Hx. apply orb_false_elim in Hx as (Hx & Hv).
  constructor; [|now apply IH].
  apply eqb_zero. now destruct (PyFloat.eqb x PyFloat.zero).
Qed.

Lemma mul_zero_r (x : PyFloat.float) s :
  (exists s', PyFloat.mul x (S754_zero s) = S754_zero s')
  \/ PyFloat.mul x (S754_zero s) = S754_nan.
Proof. destruct x as [sx|sx| |sx m e]; cbn; eauto. Qed.

Lemma add_zero_or_nan (x y : PyFloat.float) :
  (exists s, x = S754_zero s) \/ x = S754_nan ->
  (exists s, y = S754_zero s) \/ y = S754_nan ->
  (exists s, PyFloat.add x y = S754_zero s) \/ PyFloat.add x y = S754_nan.
Proof.
  intros [(sx & ->)| ->] [(sy & ->)| ->]; unfold PyFloat.add, SFadd;
    try (now right).
  destruct sx, sy; eauto.
Qed.

Lemma dot_from_zero_r (b : vector) :
  Forall (fun x => exists s, x = S754_zero s) b ->
  forall (a : vector) acc,
    (exists s, acc = S754_zero s) \/ acc = S754_nan ->
    (exists s, VectorStore.dot_from acc a b = S754_zero s)
    \/ VectorStore.dot_from acc a b = S754_nan.
Proof.
  induction 1 as [|y b (sy & ->) _ IH]; intros a acc Hacc.
  - destruct a; exact Hacc.
  - destruct a as [|x a]; [exact Hacc|]. cbn [VectorStore.dot_from].
    apply IH. apply add_zero_or_nan; [exact Hacc|]. apply mul_zero_r.
Qed.

Lemma dot_from_zero_self (b : vector) :
  Forall (fun x => exists s, x = S754_zero s) b ->
  forall s, exists s', VectorStore.dot_from (S754_zero s) b b = S754_zero s'.
Proof.
  induction 1 as [|y b (sy & ->) _ IH]; intros s; [now exists s|].
  cbn [VectorStore.dot_from].
  assert (Hacc : exists s', PyFloat.add (S754_zero s)
                              (PyFloat.mul (S754_zero sy) (S754_zero sy))
                            = S754_zero s').
  { unfold PyFloat.add, PyFloat.mul, SFadd, SFmul.
    destruct s, sy; cbn; eauto. }
  destruct Hacc as (s' & ->). apply IH.
Qed.

Lemma norm_zero (b : vector) :
  Forall (fun x => exists s, x = S754_zero s) b ->
  exists s, VectorStore.norm b = S754_zero s.
Proof.
  intros Hb. unfold VectorStore.norm.
  destruct (dot_from_zero_self b Hb false) as (s & Hs).
  unfold PyFloat.zero. rewrite Hs. now exists s.
Qed.

Lemma div_zero_or_nan (x y : PyFloat.float) :
  (exists s, x = S754_zero s) \/ x = S754_nan ->
  (exists s, y = S754_zero s) \/ y = S754_nan ->
  PyFloat.div x y = S754_nan.
Proof.
  intros [(sx & ->)| ->] [(sy & ->)| ->]; reflexivity.
Qed.

Lemma gtb_nan (t : PyFloat.float) : PyFloat.gtb S754_nan t = false.
Proof. now destruct t. Qed.

(** the similarity to an embedding of zeros is NaN *)
Lemma cosine_of_zero_embedding (text_emb video_emb : vector) x :
  VectorStore.any_nonzero video_emb = false ->
  cosine_similarity text_emb video_emb = inr x -> x = S754_nan.
Proof.
  intros Hz. apply all_zero in Hz. unfold cosine_similarity, VectorStore.dot.
  destruct (_ =? _)%nat; [|discriminate]. intros [= <-].
  apply div_zero_or_nan.
  - apply dot_from_zero_r; [exact Hz|]. left. now exists false.
  - destruct (norm_zero video_emb Hz) as (s & ->). apply mul_zero_r.
Qed.

End ZeroEmbedding.

(** X17.  A candidate whose embedding is empty or has only zeros is never
    selected, whatever the threshold: its similarity to a point is NaN, which
    is not above any threshold.  So the embedding of every clip that
    [match_clips] returns has a component different from 0. *)
Theorem clip_with_zero_embedding_is_never_selected :
  forall (services : Highlight.Services) (analysis : string)
         (clips : list Highlight.clip) (threshold : PyFloat.float)
         (top_k_per_point : Z),
    (forall text_emb video_emb x,
       VectorStore.any_nonzero video_emb = false ->
       Highlight.cosine_similarity text_emb video_emb = inr x ->
       PyFloat.isnan x = true /\ PyFloat.gtb x threshold = false)
    /\ match Highlight.match_clips analysis clips threshold top_k_per_point with
       | inr result =>
           Forall (fun c =>
                     exists e,
                       Highlight.embedding (Highlight.seg c) = Some e
                       /\ VectorStore.any_nonzero e = true) result
       | inl _ => True
       end.
Proof.
  intros services analysis clips threshold top_k. split.
  { intros t v x Hz Hc. rewrite (cosine_of_zero_embedding t v x Hz Hc).
    split; [reflexivity|apply gtb_nan]. }
  destruct (Highlight.match_clips analysis clips threshold top_k)
    as [e|r] eqn:Hm; [exact I|].
  destruct (match_clips_origin _ _ _ _ _ Hm) as (sel & _ & Hf & Hsel & _).
  rewrite Forall_forall in Hsel. apply Forall_forall. intros c' Hc'.
  destruct (forall2_in_r _ _ _ _ Hf Hc') as (c & Hc & Hw).
  apply deduplicate_in in Hc.
  destruct (Hsel c Hc) as (_ & Hg & v & t & Hv & _ & Hcos).
  destruct (valid_clips_in _ _ _ Hv) as (_ & Hemb).
  destruct (with_file_keeps c c' Hw) as (_ & _ & _ & _ & He & _).
  exists v. split; [now rewrite He|].
  destruct (VectorStore.any_nonzero v) eqn:Hz; [reflexivity|].
  rewrite (cosine_of_zero_embedding t v _ Hz Hcos), gtb_nan in Hg.
  discriminate.
Qed.

(* ================================================================== *)
(** * The best candidates of a point *)
Section TopFacts.
Import Highlight.
Context {services : Services}.

Lemma valid_clips_intro (clips : list clip) c e :
  In c clips -> embedding c = Some e -> In (c, e) (valid_clips clips).
Proof.
  intros Hin He. induction clips as [|c0 clips IH]; [destruct Hin|].
  cbn [valid_clips]. destruct Hin as [->|Hin].
  - rewrite He. now left.
  - destruct (embedding c0); [right|]; now apply IH.
Qed.

Lemma cosine_mismatch (a b : vector) :
  List.length b <> List.length a ->
  cosine_similarity a b = inl (ValueError "shapes not aligned").
Proof.
  intros Hl. unfold cosine_similarity, VectorStore.dot.
  destruct (Nat.eqb_spec (List.length a) (List.length b)); [congruence|].
  reflexivity.
Qed.

Lemma cosine_raises_value_error (a b : vector) e :
  cosine_similarity a b = inl e -> e = ValueError "shapes not aligned".
Proof.
  unfold cosine_similarity. destruct (VectorStore.dot a b); [discriminate|].
  now intros [= <-].
Qed.

Lemma clip_similarities_mismatch threshold pt text_emb valid c e :
  In (c, e) valid -> List.length e <> List.length text_emb ->
  clip_similarities threshold pt text_emb valid
  = inl (ValueError "shapes not aligned").
Proof.
  intros Hin Hl. induction valid as [|[c0 e0] valid IH]; [destruct Hin|].
  cbn [clip_similarities]. unfold bindE.
  destruct (cosine_similarity text_emb e0) as [err|sim] eqn:Hc.
  - now rewrite (cosine_raises_value_error _ _ _ Hc).
  - destruct Hin as [[= -> ->]|Hin].
    + rewrite (cosine_mismatch text_emb e Hl) in Hc. discriminate.
    + now rewrite (IH Hin).
Qed.

Lemma strongly_sorted_split {A} (R : A -> A -> Prop) (n : nat) (l : list A) :
  StronglySorted R l ->
  forall x y, In x (firstn n l) -> In y (skipn n l) -> R x y.
Proof.
  intros Hs. revert n. induction Hs as [|a l Hs IH Ha]; intros n x y.
  - rewrite firstn_nil. intros [].
  - destruct n as [|n]; [intros []|]. cbn [firstn skipn].
    intros [<-|Hx] Hy.
    + rewrite Forall_forall in Ha. apply Ha.
      rewrite <- (firstn_skipn n l). apply in_or_app. now right.
    + now apply (IH n).
Qed.

Lemma gtb_not_nan (x t : PyFloat.float) :
  PyFloat.gtb x t = true -> PyFloat.isnan x = false.
Proof. destruct x; [reflexivity|reflexivity| |reflexivity]. now destruct t. Qed.

End TopFacts.

(** X18.  One candidate whose embedding has another length than the embedding
    of the first point makes the whole matching fail: [match_clips] raises
    numpy's error for arrays that are not aligned and returns no
    selection. *)
Theorem embedding_of_another_length_fails_the_matching :
  forall (services : Highlight.Services) (analysis : string)
         (clips : list Highlight.clip) (threshold : PyFloat.float)
         (top_k_per_point : Z) (pt : string) (rest : list string)
         (text_emb e : vector) (c : Highlight.clip),
    Highlight.extract_points analysis = pt :: rest ->
    Highlight.get_embedding pt = inr text_emb ->
    In c clips ->
    Highlight.embedding c = Some e ->
    List.length e <> List.length text_emb ->
    Highlight.match_clips analysis clips threshold top_k_per_point
    = inl (Highlight.ValueError "shapes not aligned").
Proof.
  intros services analysis clips threshold top_k pt rest text_emb e c
         Hp Ht Hin He Hl.
  unfold Highlight.match_clips. rewrite Hp.
  cbn [Highlight.select_clips]. unfold Highlight.top_clips, Highlight.bindE.
  rewrite Ht.
  now rewrite (clip_similarities_mismatch threshold pt text_emb _ c e
                 (valid_clips_intro clips c e Hin He) Hl).
Qed.

(** X18 on two points whose text is embedded with two components, and one
    candidate with three. *)
Lemma embedding_of_another_length_fails_the_matching_witness :
  Highlight.match_clips (services := Examples.scripted Examples.all_fine)
    Examples.two_points
    [Examples.segment 0 0 (Examples.vec2 3 4);
     Examples.segment 1 3 [Examples.f1; Examples.f1; Examples.f1]]
    Highlight.default_threshold 3
  = inl (Highlight.ValueError "shapes not aligned").
Proof.
  apply (embedding_of_another_length_fails_the_matching
           (Examples.scripted Examples.all_fine) Examples.two_points _
           Highlight.default_threshold 3
           "A. [1] - the goal" ["B. [2] - the save"%string]
           (Examples.vec2 1 0) [Examples.f1; Examples.f1; Examples.f1]
           (Examples.segment 1 3 [Examples.f1; Examples.f1; Examples.f1])).
  - reflexivity.
  - reflexivity.
  - right. now left.
  - reflexivity.
  - cbn. lia.
Defined.

(** X19.  The clips selected for one point are its most similar candidates:
    when the text of the point is embedded and the similarity of every
    candidate is computed, the candidates above the threshold split
    into the clips selected for the point, at most [top_k_per_point] of them,
    and the others, and every selected clip is at least as similar to the
    point as every other one. *)
Theorem top_clips_are_the_most_similar_candidates :
  forall (services : Highlight.Services) (threshold : PyFloat.float)
         (top_k_per_point : Z) (valid : list (Highlight.clip * vector))
         (pt : string) (text_emb : vector) (sims : list Highlight.selected),
    0 <= top_k_per_point ->
    Highlight.get_embedding pt = inr text_emb ->
    Highlight.clip_similarities threshold pt text_emb valid = inr sims ->
    exists top others,
      Highlight.top_clips threshold top_k_per_point valid pt = inr top
      /\ Permutation (top ++ others) sims
      /\ List.length top
         = Nat.min (Z.to_nat top_k_per_point) (List.length sims)
      /\ forall x y, In x top -> In y others ->
           PyFloat.geb (Highlight.similarity x) (Highlight.similarity y) = true.
Proof.
  intros services threshold k valid pt text_emb sims Hk Ht Hs.
  set (sorted := PyList.sort_desc Highlight.similarity sims).
  exists (firstn (Z.to_nat k) sorted), (skipn (Z.to_nat k) sorted).
  split.
  { unfold Highlight.top_clips, Highlight.bindE. rewrite Ht, Hs.
    unfold PyList.slice_to. now replace (0 <=? k) with true by lia. }
  split; [rewrite firstn_skipn; apply sort_desc_perm|].
  split.
  { rewrite length_firstn. unfold sorted.
    now rewrite (Permutation_length (sort_desc_perm _ sims)). }
  apply strongly_sorted_split. apply sort_desc_strongly_sorted.
  pose proof (clip_similarities_spec _ _ _ _ _ Hs) as Hall.
  eapply Forall_impl; [|exact Hall].
  intros c (_ & Hg & _). exact (gtb_not_nan _ _ Hg).
Qed.

(** X19 on the three candidates that start at 0, 2 and 9, of which the best
    two are kept. *)
Lemma top_clips_are_the_most_similar_candidates_witness :
  exists top others : list Highlight.selected,
    Highlight.top_clips (services := Examples.scripted Examples.all_fine)
      Highlight.default_threshold 2
      (Highlight.valid_clips Examples.near_clips) "A. x" = inr top
    /\ List.length top = 2%nat
    /\ List.length others = 1%nat.
Proof.
  assert (Hs : exists sims,
             Highlight.clip_similarities
               Highlight.default_threshold "A. x" (Examples.vec2 1 0)
               (Highlight.valid_clips Examples.near_clips) = inr sims
             /\ List.length sims = 3%nat).
  { eexists. split; [vm_compute; reflexivity|reflexivity]. }
  destruct Hs as (sims & Hs & Hl).
  destruct (top_clips_are_the_most_similar_candidates
              (Examples.scripted Examples.all_fine)
              Highlight.default_threshold 2
              (Highlight.valid_clips Examples.near_clips) "A. x"
              (Examples.vec2 1 0) sims ltac:(lia) eq_refl Hs)
    as (top & others & Ht & Hp & Hlen & _).
  exists top, others. split; [exact Ht|].
  rewrite Hl in Hlen. cbn in Hlen. split; [exact Hlen|].
  apply Permutation_length in Hp. rewrite length_app, Hl, Hlen in Hp. lia.
Defined.

(* ================================================================== *)
(** * A job that completed, and the endpoints that read a job *)
Section CompletedFacts.
Import Highlight Pipeline.
Context {services : Services}.
Local Open Scope string_scope.

Ltac step :=
  rewrite ?bind_assoc;
  first [ erewrite bind_returns by reflexivity
        | erewrite bind_raises by reflexivity ];
  cbv beta.

Ltac steps := repeat step.

(** the record of a job whose six stages returned *)
Lemma stages_completed theme video_path work_dir analysis clips sel infos o :
  let criteria := generate_criteria theme in
  let compressed :=
    compress_video video_path (PyStr.path_join work_dir "compressed.mp4") 100 in
  let output := PyStr.path_join work_dir "highlight.mp4" in
  analyze_video compressed criteria = inr analysis ->
  extract_clips_with_embeddings compressed 3 = inr clips ->
  match_clips analysis clips default_threshold default_top_k_per_point
  = inr sel ->
  clips_info sel = inr infos ->
  create_highlight_video sel output = inr o ->
  exists j,
    stages theme video_path work_dir (new_job theme video_path work_dir)
    = (inr tt, j,
       [GenerateCriteria; CompressVideo; AnalyzeVideo;
        ExtractClipsWithEmbeddings; MatchClips; CreateHighlightVideo;
        GetVideoDuration; GetVideoDuration])
    /\ field "status" j = Some (VStr "completed")
    /\ field "current_step" j = Some (VInt 6)
    /\ field "progress" j = Some (VInt 100)
    /\ field "analysis" j = Some (VStr analysis)
    /\ field "clips" j = Some (VClipsInfo infos)
    /\ field "clips_count" j = Some (VInt (Z.of_nat (List.length sel)))
    /\ field "highlight_video_path" j = Some (VStr output)
    /\ field "highlight_video_url" j
       = Some (VStr ("/" ++ PyStr.replace "\" "/" output))
    /\ field "original_duration" j = Some (VFloat (get_video_duration video_path))
    /\ field "highlight_duration" j = Some (VFloat (get_video_duration output))
    /\ field "error" j = None.
Proof.
  cbv zeta. intros H3 H4 H5 H5' H6. unfold stages.
  step. step.
  unfold stage3. steps. rewrite H3. steps.
  unfold stage4. steps. rewrite H4. steps.
  unfold stage5. steps. rewrite H5. steps. rewrite H5'. steps.
  unfold stage6. steps. rewrite H6. steps.
  eexists. split; [reflexivity|]. repeat split.
Qed.

Lemma clips_info_length (l : list selected) : forall infos,
  clips_info l = inr infos -> List.length infos = List.length l.
Proof.
  induction l as [|c l IH]; intros infos.
  - now intros [= <-].
  - cbn [clips_info]. unfold bindE.
    destruct (Pipeline.info_of c) as [e|i]; [discriminate|].
    destruct (clips_info l) as [e|more]; [discriminate|].
    intros [= <-]. cbn [List.length]. now rewrite (IH more).
Qed.

Lemma path_join_not_empty (a b : string) :
  b <> "" -> String.eqb (PyStr.path_join a b) "" = false.
Proof.
  intros Hb. unfold PyStr.path_join.
  destruct a as [|c a]; cbn [String.eqb].
  - destruct b; [contradiction|reflexivity].
  - destruct (PyStr.endswith "/" (String c a)); reflexivity.
Qed.

(** a run that ends completed, and a run that ends failed *)
Lemma run_outcomes theme video_path work_dir :
  let j := fst (run theme video_path work_dir) in
  let calls := snd (run theme video_path work_dir) in
  let criteria := generate_criteria theme in
  let output := PyStr.path_join work_dir "highlight.mp4" in
  (field "status" j = Some (VStr "completed")
   /\ calls = [GenerateCriteria; CompressVideo; AnalyzeVideo;
               ExtractClipsWithEmbeddings; MatchClips; CreateHighlightVideo;
               GetVideoDuration; GetVideoDuration]
   /\ field "current_step" j = Some (VInt 6)
   /\ field "progress" j = Some (VInt 100)
   /\ field "highlight_video_path" j = Some (VStr output)
   /\ field "highlight_video_url" j
      = Some (VStr ("/" ++ PyStr.replace "\" "/" output))
   /\ field "original_duration" j = Some (VFloat (get_video_duration video_path))
   /\ field "highlight_duration" j = Some (VFloat (get_video_duration output))
   /\ field "error" j = None
   /\ exists infos,
        field "clips" j = Some (VClipsInfo infos)
        /\ field "clips_count" j = Some (VInt (Z.of_nat (List.length infos)))
        /\ (1 <= List.length infos)%nat)
  \/ (exists e k,
        Eff.result (stages theme video_path work_dir
                      (new_job theme video_path work_dir)) = inl e
        /\ field "status" j = Some (VStr "failed")
        /\ field "error" j = Some (VStr (str e))
        /\ field "criteria" j = Some (VStr criteria)
        /\ field "current_step" j = Some (VInt k)
        /\ 3 <= k <= 6
        /\ field "highlight_video_path" j = None).
Proof.
  cbv zeta.
  pose proof (stages_cases theme video_path work_dir) as Hc. cbv zeta in Hc.
  assert (Hfail : forall e j' tr k an cl,
            stages theme video_path work_dir (new_job theme video_path work_dir)
            = (inl e, j', tr) ->
            shows j' k (generate_criteria theme)
              (compress_video video_path
                 (PyStr.path_join work_dir "compressed.mp4") 100) an cl ->
            3 <= k <= 6 ->
            exists e k,
              Eff.result (stages theme video_path work_dir
                            (new_job theme video_path work_dir)) = inl e
              /\ field "status" (fst (run theme video_path work_dir))
                 = Some (VStr "failed")
              /\ field "error" (fst (run theme video_path work_dir))
                 = Some (VStr (str e))
              /\ field "criteria" (fst (run theme video_path work_dir))
                 = Some (VStr (generate_criteria theme))
              /\ field "current_step" (fst (run theme video_path work_dir))
                 = Some (VInt k)
              /\ 3 <= k <= 6
              /\ field "highlight_video_path" (fst (run theme video_path work_dir))
                 = None).
  { intros e j' tr k an cl Hs Hshow Hk. exists e, k.
    rewrite (run_failed _ _ _ _ _ _ Hs), Hs. cbn [fst snd Eff.result].
    pose proof (shows_after_failure j' e _ _ _ _ _ Hshow)
      as (Hstep & _ & Hcrit & _ & _ & _ & Hpath).
    split; [reflexivity|]. split; [apply status_after_failure|].
    split; [apply error_after_failure|]. now repeat split. }
  destruct (analyze_video _ _) as [e3|a] eqn:Ha.
  { right. destruct Hc as (j' & Hs & Hshow). apply (Hfail _ _ _ _ _ _ Hs Hshow). lia. }
  destruct (extract_clips_with_embeddings _ 3) as [e4|l] eqn:Hl.
  { right. destruct Hc as (j' & Hs & Hshow). apply (Hfail _ _ _ _ _ _ Hs Hshow). lia. }
  destruct (match_clips a l _ _) as [e5|sel] eqn:Hsel.
  { right. destruct Hc as (j' & Hs & Hshow). apply (Hfail _ _ _ _ _ _ Hs Hshow). lia. }
  destruct (clips_info sel) as [e5|infos] eqn:Hinfos.
  { right. destruct Hc as (j' & Hs & Hshow). apply (Hfail _ _ _ _ _ _ Hs Hshow). lia. }
  destruct (create_highlight_video sel _) as [e6|o] eqn:Ho.
  { right. destruct Hc as (j' & Hs & Hshow & _).
    apply (Hfail _ _ _ _ _ _ Hs Hshow). lia. }
  left. clear Hc Hfail.
  destruct (stages_completed theme video_path work_dir a l sel infos o
              Ha Hl Hsel Hinfos Ho)
    as (j & Hs & H1 & H2 & H3 & _ & H5 & H6 & H7 & H8 & H9 & H10 & H11).
  rewrite (run_completed _ _ _ _ _ Hs). cbn [fst snd].
  repeat (split; [first [reflexivity|assumption]|]).
  exists infos. split; [exact H5|].
  rewrite (clips_info_length sel infos Hinfos). split; [exact H6|].
  destruct sel; [discriminate|cbn; lia].
Qed.

End CompletedFacts.

Section JobEndpoints.
Local Open Scope string_scope.

(** X20.  A job that the worker leaves completed has run all six stages: it
    made the eight calls in order, its progress is 100 and its current step
    6, it records the path and the URL of the highlight video under the work
    directory and the two durations, it has no error entry, and it shows at
    least one clip, with a clip count that is the number of clips shown. *)
Theorem completed_job_has_a_video_and_at_least_one_clip :
  forall (services : Highlight.Services) (theme video_path work_dir : string),
    let j := fst (Pipeline.run theme video_path work_dir) in
    let calls := snd (Pipeline.run theme video_path work_dir) in
    let output := PyStr.path_join work_dir "highlight.mp4" in
    Pipeline.field "status" j = Some (Pipeline.VStr "completed") ->
    calls = [Pipeline.GenerateCriteria; Pipeline.CompressVideo;
             Pipeline.AnalyzeVideo; Pipeline.ExtractClipsWithEmbeddings;
             Pipeline.MatchClips; Pipeline.CreateHighlightVideo;
             Pipeline.GetVideoDuration; Pipeline.GetVideoDuration]
    /\ Pipeline.field "current_step" j = Some (Pipeline.VInt 6)
    /\ Pipeline.field "progress" j = Some (Pipeline.VInt 100)
    /\ Pipeline.field "highlight_video_path" j = Some (Pipeline.VStr output)
    /\ Pipeline.field "highlight_video_url" j
       = Some (Pipeline.VStr ("/" ++ PyStr.replace "\" "/" output))
    /\ Pipeline.field "original_duration" j
       = Some (Pipeline.VFloat (Highlight.get_video_duration video_path))
    /\ Pipeline.field "highlight_duration" j
       = Some (Pipeline.VFloat (Highlight.get_video_duration output))
    /\ Pipeline.field "error" j = None
    /\ exists infos,
         Pipeline.field "clips" j = Some (Pipeline.VClipsInfo infos)
         /\ Pipeline.field "clips_count" j
            = Some (Pipeline.VInt (Z.of_nat (List.length infos)))
         /\ (1 <= List.length infos)%nat.
Proof.
  intros services theme video_path work_dir j calls output Hst.
  destruct (run_outcomes theme video_path work_dir)
    as [(_ & H)|(e & k & _ & Hf & _)].
  - exact H.
  - subst j. rewrite Hf in Hst. discriminate.
Qed.

(** X20 on the scripted run in which every service answers. *)
Lemma completed_job_has_a_video_and_at_least_one_clip_witness :
  Pipeline.field "highlight_video_path"
    (fst (Pipeline.run (services := Examples.scripted Examples.all_fine)
            "action" "jobs/1/video.mp4" "jobs/1"))
  = Some (Pipeline.VStr "jobs/1/highlight.mp4").
Proof.
  assert (Hst : Pipeline.field "status"
                  (fst (Pipeline.run
                          (services := Examples.scripted Examples.all_fine)
                          "action" "jobs/1/video.mp4" "jobs/1"))
                = Some (Pipeline.VStr "completed"))
    by (vm_compute; reflexivity).
  destruct (completed_job_has_a_video_and_at_least_one_clip
              (Examples.scripted Examples.all_fine)
              "action" "jobs/1/video.mp4" "jobs/1" Hst)
    as (_ & _ & _ & Hp & _).
  exact Hp.
Defined.

(** X21.  [download_highlight] sends a file only for a job that is
    registered, whose status is completed, whose recorded video path names
    an existing file and for which [send_file] did not raise.  For the job
    that the worker left in the registry: if it completed, the file sent is
    [highlight.mp4] of its work directory when that file exists and
    [send_file] returns, the answer is 500 with the text of the exception
    when the file exists and [send_file] raises, and the answer is 404 when
    the file does not exist; if it failed, the answer is 400. *)
Theorem download_serves_the_video_of_a_completed_job_only :
  forall (services : Highlight.Services) (server : Api.FileServer)
         (highlight_jobs : sdict Pipeline.job) (job_id : string),
    (forall p,
       Api.download_highlight highlight_jobs job_id = Api.SendFile p ->
       exists j,
         Dict.get String.eqb job_id highlight_jobs = Some j
         /\ Pipeline.field "status" j = Some (Pipeline.VStr "completed")
         /\ Pipeline.field "highlight_video_path" j = Some (Pipeline.VStr p)
         /\ Highlight.path_exists p = true
         /\ Api.send_file p = inr tt)
    /\ (Dict.get String.eqb job_id highlight_jobs = None ->
        Api.download_highlight highlight_jobs job_id
        = Api.error "任务不存在" 404)
    /\ (forall theme video_path work_dir,
          let j := fst (Pipeline.run theme video_path work_dir) in
          let output := PyStr.path_join work_dir "highlight.mp4" in
          Dict.get String.eqb job_id highlight_jobs = Some j ->
          (Pipeline.field "status" j = Some (Pipeline.VStr "completed") ->
           Api.download_highlight highlight_jobs job_id
           = if Highlight.path_exists output
             then match Api.send_file output with
                  | inr _ => Api.SendFile output
                  | inl msg => Api.error msg 500
                  end
             else Api.error "视频文件不存在" 404)
          /\ (Pipeline.field "status" j = Some (Pipeline.VStr "failed") ->
              Api.download_highlight highlight_jobs job_id
              = Api.error "视频还未生成完成" 400)).
Proof.
  intros services server jobs job_id. split; [|split].
  - intros p. unfold Api.download_highlight.
    destruct (Dict.get String.eqb job_id jobs) as [j|]; [|discriminate].
    destruct (Pipeline.field "status" j) as [status|] eqn:Hs; [|discriminate].
    destruct (Api.is_str status "completed") eqn:Hc; [|discriminate].
    cbn [negb].
    destruct (Pipeline.field "highlight_video_path" j) as [[q| | | | |]|] eqn:Hp;
      try discriminate.
    destruct (negb (String.eqb q "") && Highlight.path_exists q) eqn:He;
      [|discriminate].
    destruct (Api.send_file q) as [msg|[]] eqn:Hsend; [discriminate|].
    intros [= <-]. exists j. split; [reflexivity|].
    apply andb_true_iff in He as (_ & He).
    destruct status as [s| | | | |]; try discriminate.
    cbn [Api.is_str] in Hc. apply String.eqb_eq in Hc. subst s.
    now repeat split.
  - intros Hn. unfold Api.download_highlight. now rewrite Hn.
  - intros theme video_path work_dir j output Hj. subst j output. split.
    + intros Hst.
      destruct (run_outcomes theme video_path work_dir)
        as [(_ & _ & _ & _ & Hp & _)|(e & k & _ & Hf & _)].
      * unfold Api.download_highlight. rewrite Hj.
        rewrite Hst, Hp. cbn [Api.is_str negb].
        rewrite (path_join_not_empty work_dir "highlight.mp4")
          by discriminate.
        cbn [negb andb]. reflexivity.
      * rewrite Hf in Hst. discriminate.
    + intros Hst. unfold Api.download_highlight. now rewrite Hj, Hst.
Qed.

(** X21 where the file stands under the working directory and not under the
    root of the application: the worker completed, the file exists, and the
    answer is the 500 of the handler. *)
Lemma download_answers_500_when_send_file_raises :
  let j := fst (Pipeline.run (services := Examples.scripted Examples.all_fine)
                  "action" "jobs/1/video.mp4" "jobs/1") in
  Pipeline.field "status" j = Some (Pipeline.VStr "completed")
  /\ Highlight.path_exists (Services := Examples.scripted Examples.all_fine)
       "jobs/1/highlight.mp4" = true
  /\ Api.download_highlight
       (services := Examples.scripted Examples.all_fine)
       (server := Examples.root_elsewhere) [("1", j)] "1"
     = Api.error "404 Not Found" 500.
Proof. vm_compute. repeat split. Qed.

(** X22.  [get_job_status] answers 404 for an id that is not registered.
    For a job that was just registered it answers 200 with the status
    processing, step 1, progress 0, no criteria, no clips and no error.  For
    the job that a failed run of the worker left, it answers 200 with the
    status failed, the text of the exception as the error, the criteria that
    stage 1 recorded and, as the current step, the stage from 3 to 6 that
    raised. *)
Theorem job_status_reports_what_the_worker_recorded :
  forall (services : Highlight.Services) (highlight_jobs : sdict Pipeline.job)
         (job_id theme video_path work_dir : string),
    (Dict.get String.eqb job_id highlight_jobs = None ->
     Api.get_job_status highlight_jobs job_id = Api.error "任务不存在" 404)
    /\ (Dict.get String.eqb job_id highlight_jobs
        = Some (Pipeline.new_job theme video_path work_dir) ->
        exists body,
          Api.get_job_status highlight_jobs job_id = Api.Jsonify body 200
          /\ Dict.get String.eqb "status" body
             = Some (Api.JOf (Pipeline.VStr "processing"))
          /\ Dict.get String.eqb "current_step" body
             = Some (Api.JOf (Pipeline.VInt 1))
          /\ Dict.get String.eqb "progress" body
             = Some (Api.JOf (Pipeline.VInt 0))
          /\ Dict.get String.eqb "criteria" body = Some Api.JNull
          /\ Dict.get String.eqb "clips" body
             = Some (Api.JOf (Pipeline.VClipsInfo []))
          /\ Dict.get String.eqb "clips_count" body
             = Some (Api.JOf (Pipeline.VInt 0))
          /\ Dict.get String.eqb "error" body = Some Api.JNull)
    /\ (Dict.get String.eqb job_id highlight_jobs
        = Some (fst (Pipeline.run theme video_path work_dir)) ->
        forall e,
          Eff.result (Pipeline.stages theme video_path work_dir
                        (Pipeline.new_job theme video_path work_dir)) = inl e ->
          exists body k,
            Api.get_job_status highlight_jobs job_id = Api.Jsonify body 200
            /\ Dict.get String.eqb "status" body
               = Some (Api.JOf (Pipeline.VStr "failed"))
            /\ Dict.get String.eqb "error" body
               = Some (Api.JOf (Pipeline.VStr (Highlight.str e)))
            /\ Dict.get String.eqb "criteria" body
               = Some (Api.JOf (Pipeline.VStr (Highlight.generate_criteria theme)))
            /\ Dict.get String.eqb "current_step" body
               = Some (Api.JOf (Pipeline.VInt k))
            /\ 3 <= k <= 6).
Proof.
  intros services jobs job_id theme video_path work_dir. split; [|split].
  - intros Hn. unfold Api.get_job_status. now rewrite Hn.
  - intros Hj. unfold Api.get_job_status. rewrite Hj.
    eexists. split; [reflexivity|]. now repeat split.
  - intros Hj e He.
    destruct (run_outcomes theme video_path work_dir)
      as [(Hst & Hcalls & _)|(e' & k & He' & Hf & Herr & Hcrit & Hstep & Hk & _)].
    + exfalso.
      unfold Pipeline.run, Pipeline.process_highlight in Hst.
      destruct (Pipeline.stages theme video_path work_dir
                  (Pipeline.new_job theme video_path work_dir))
        as [[[e0|[]] j0] tr0] eqn:Hs; [|discriminate].
      rewrite (try_handles _ _ _ _ _ _ Hs) in Hst.
      cbn [Eff.after Pipeline.mark_failed fst snd Eff.state] in Hst.
      pose proof (status_after_failure j0 e0) as Hx.
      unfold Pipeline.mark_failed, Pipeline.put, Eff.bind, Eff.modify in Hst.
      cbn in Hst. unfold Pipeline.field in Hx, Hst. rewrite Hx in Hst.
      discriminate.
    + rewrite He in He'. injection He' as <-.
      unfold Api.get_job_status. rewrite Hj, Hf.
      eexists. exists k. split; [reflexivity|].
      cbn [Dict.get String.eqb Ascii.eqb Bool.eqb].
      unfold Api.get, Api.get_or. rewrite Herr, Hcrit, Hstep.
      now repeat split.
Qed.

End JobEndpoints.

(* ================================================================== *)
(** * The S3 Vectors index behind the search endpoint *)
Section IndexFacts.
Import S3VectorsHandler S3VectorSearch.
Context {B : Type} `{Client B}.

Lemma format_results_ok (results : list found) :
  Forall (fun r => VectorId r <> None) results ->
  exists hits,
    format_results results = inr hits
    /\ map (fun h => Some (VectorStore.hit_id h)) hits = map VectorId results
    /\ map VectorStore.similarity hits
       = map (fun r => one_minus (match Distance r with
                                  | Some d => d
                                  | None => PyFloat.of_Z 0
                                  end)) results
    /\ map VectorStore.hit_metadata hits
       = map (fun r => match Metadata r with Some m => m | None => [] end)
             results.
Proof.
  induction 1 as [|r results Hr _ (hits & Hf & Hi & Hs & Hm)].
  - exists []. now repeat split.
  - cbn [format_results]. destruct (VectorId r) as [id|] eqn:Hid;
      [|contradiction].
    rewrite Hf. eexists. split; [reflexivity|].
    cbn [map VectorStore.hit_id VectorStore.similarity VectorStore.hit_metadata].
    now rewrite Hi, Hs, Hm, Hid.
Qed.

Lemma format_results_missing (results : list found) :
  Exists (fun r => VectorId r = None) results ->
  exists e, format_results results = inl e.
Proof.
  induction 1 as [r results Hr|r results _ (e & He)].
  - cbn [format_results]. rewrite Hr. eauto.
  - cbn [format_results]. destruct (VectorId r); [|eauto].
    rewrite He. eauto.
Qed.

Lemma query_vectors_cases (q : vector) (k : Z) (b : B) :
  match client_query_vectors b q k with
  | inr (Some vectors) =>
      query_vectors q k b = (inr vectors, b, [QueryVectors k])
  | inr None => query_vectors q k b = (inr [], b, [QueryVectors k])
  | inl e => exists e', query_vectors q k b = (inl e', b, [QueryVectors k])
  end.
Proof.
  unfold query_vectors, Eff.try_except.
  destruct (client_query_vectors b q k) as [e|[vectors|]];
    [|reflexivity|reflexivity].
  destruct e; cbn; eauto.
Qed.

Lemma search_cases (q : vector) (k : Z) (b : B) :
  exists hits,
    search q k b = (inr hits, b, [QueryVectors k])
    /\ hits = match client_query_vectors b q k with
              | inr (Some results) =>
                  match format_results results with
                  | inr formatted => formatted
                  | inl _ => []
                  end
              | _ => []
              end.
Proof.
  pose proof (query_vectors_cases q k b) as Hq.
  unfold search, Eff.try_except, Eff.bind.
  destruct (client_query_vectors b q k) as [e|[results|]].
  - destruct Hq as (e' & ->). cbn. eauto.
  - rewrite Hq. unfold Eff.lift.
    destruct (format_results results) as [e|formatted]; cbn; eauto.
  - rewrite Hq. cbn. eauto.
Qed.

End IndexFacts.

(** X23.  [search] of [S3VectorSearch] never raises: it sends one query and
    leaves the index as it is.  When the query raises, or when one of the
    vectors found has no ['VectorId'], the answer is the empty list; when
    every vector found has an id, the answer has one hit per vector found, in
    order, with that id, the similarity [1 - Distance] (a missing distance
    counts as 0) and the metadata (a missing one is empty). *)
Theorem s3_vector_search_never_raises :
  forall (B : Type) (C : S3VectorsHandler.Client B) (b : B)
         (query_vector : vector) (top_k : Z),
    exists hits,
      S3VectorSearch.search query_vector top_k b
      = (inr hits, b, [S3VectorsHandler.QueryVectors top_k])
      /\ match S3VectorsHandler.client_query_vectors b query_vector top_k with
         | inl _ | inr None => hits = []
         | inr (Some results) =>
             (Exists (fun r => S3VectorsHandler.VectorId r = None) results ->
              hits = [])
             /\ (Forall (fun r => S3VectorsHandler.VectorId r <> None) results ->
                 map (fun h => Some (VectorStore.hit_id h)) hits
                 = map S3VectorsHandler.VectorId results
                 /\ map VectorStore.similarity hits
                    = map (fun r =>
                             S3VectorSearch.one_minus
                               (match S3VectorsHandler.Distance r with
                                | Some d => d
                                | None => PyFloat.of_Z 0
                                end)) results
                 /\ map VectorStore.hit_metadata hits
                    = map (fun r => match S3VectorsHandler.Metadata r with
                                    | Some m => m
                                    | None => []
                                    end) results)
         end.
Proof.
  intros B C b q k. destruct (search_cases q k b) as (hits & Hs & Hh).
  exists hits. split; [exact Hs|].
  destruct (S3VectorsHandler.client_query_vectors b q k) as [e|[results|]];
    [exact Hh| |exact Hh].
  split.
  - intros Hex. destruct (format_results_missing results Hex) as (e & He).
    now rewrite He in Hh.
  - intros Hall. destruct (format_results_ok results Hall) as (f & Hf & Hspec).
    rewrite Hf in Hh. now subst hits.
Qed.

(** X24.  [add_vector] of [S3VectorSearch] validates before it stores: an
    empty vector and a vector of zeros are rejected without any request to
    the index.  Any other vector is sent in one request, with its metadata
    unless that is empty; when the request raises, [add_vector] raises an
    exception whose text is ["Failed to add vector: "] followed by the text
    of the failure, which for a client error begins with
    ["Failed to store vector: "]; the index is then as before. *)
Theorem s3_add_vector_validates_before_it_stores :
  forall (B : Type) (C : S3VectorsHandler.Client B) (b : B)
         (id : string) (v : vector) (metadata : VectorStore.meta),
    let sent := S3VectorsHandler.PutVector id
                  (match metadata with [] => false | _ => true end) in
    (VectorStore.any_nonzero v = false ->
     S3VectorSearch.add_vector id v metadata b
     = (inl (S3VectorsHandler.Exception
               (match v with
                | [] => "Vector is empty"
                | _ => "Vector contains all zeros"
                end)), b, []))
    /\ (VectorStore.any_nonzero v = true ->
        match S3VectorsHandler.client_put_vector b id v
                (S3VectorsHandler.metadata_param metadata) with
        | inr b' => S3VectorSearch.add_vector id v metadata b = (inr tt, b', [sent])
        | inl e =>
            S3VectorSearch.add_vector id v metadata b
            = (inl (S3VectorsHandler.Exception
                      ("Failed to add vector: "
                       ++ match e with
                          | S3VectorsHandler.ClientError _ _ =>
                              "Failed to store vector: " ++ S3VectorsHandler.str e
                          | _ => S3VectorsHandler.str e
                          end)), b, [sent])
        end).
Proof.
  intros B C b id v metadata sent. subst sent. split.
  - intros Hz. unfold S3VectorSearch.add_vector.
    destruct v as [|x v]; [reflexivity|]. now rewrite Hz.
  - intros Hnz. unfold S3VectorSearch.add_vector.
    destruct v as [|x v]; [discriminate|]. rewrite Hnz. cbn [negb].
    unfold S3VectorsHandler.put_vector, S3VectorsHandler.send,
      Eff.try_except.
    destruct (S3VectorsHandler.client_put_vector b id (x :: v) _) as [e|b'].
    + destruct e; destruct metadata; cbn; now rewrite ?app_nil_r.
    + destruct metadata; reflexivity.
Qed.

(** X25.  [_ensure_setup], which the constructor of [S3VectorSearch] calls,
    never raises.  It asks for the bucket first, and asks for the index of
    dimension 1024 only if the bucket was created or is reported as existing
    already; after any other failure of the bucket request nothing more is
    sent. *)
Theorem ensure_setup_never_raises :
  forall (B : Type) (C : S3VectorsHandler.Client B) (b : B),
    exists b' tr,
      S3VectorSearch._ensure_setup b = (inr tt, b', tr)
      /\ tr = match S3VectorsHandler.client_create_vector_bucket b with
              | inr _ =>
                  [S3VectorsHandler.CreateVectorBucket;
                   S3VectorsHandler.CreateVectorIndex 1024]
              | inl (S3VectorsHandler.ClientError code _) =>
                  if String.eqb code "BucketAlreadyExists"
                  then [S3VectorsHandler.CreateVectorBucket;
                        S3VectorsHandler.CreateVectorIndex 1024]
                  else [S3VectorsHandler.CreateVectorBucket]
              | inl _ => [S3VectorsHandler.CreateVectorBucket]
              end.
Proof.
  intros B C b.
  unfold S3VectorSearch._ensure_setup, S3VectorsHandler.create_vector_bucket,
    S3VectorsHandler.create_vector_index, S3VectorsHandler.send,
    S3VectorsHandler.tolerate, Eff.try_except, Eff.bind.
  destruct (S3VectorsHandler.client_create_vector_bucket b) as [e|b1].
  - destruct e as [code msg|msg|msg|msg]; cbn; eauto.
    destruct (String.eqb code "BucketAlreadyExists"); cbn; eauto.
    destruct (S3VectorsHandler.client_create_vector_index b 1024) as [e|b2];
      cbn; eauto.
    destruct e as [code' msg'|msg'|msg'|msg']; cbn; eauto.
    destruct (String.eqb code' "IndexAlreadyExists"); cbn; eauto.
  - cbn.
    destruct (S3VectorsHandler.client_create_vector_index b1 1024) as [e|b2];
      cbn; eauto.
    destruct e as [code' msg'|msg'|msg'|msg']; cbn; eauto.
    destruct (String.eqb code' "IndexAlreadyExists"); cbn; eauto.
Qed.

(* ================================================================== *)
(** * The search endpoint and the check of a file name *)
Section EndpointFacts.
Local Open Scope string_scope.

Lemma rsplit1_last (stem extension : string) :
  Api.rsplit1 "."%char extension = None ->
  Api.rsplit1 "."%char (stem ++ String "."%char extension)
  = Some (stem, extension).
Proof.
  intros He. induction stem as [|c stem IH].
  - cbn [String.append Api.rsplit1]. now rewrite He.
  - cbn [String.append Api.rsplit1]. now rewrite IH.
Qed.

(** X26.  The search endpoint never raises and leaves the index as it is.  A
    blank query, that is one made of white space only, the white space above
    127 included, is answered 400, and so is a search dimension other than
    256, 384, 1024 and 3072, before anything is embedded.  A request that
    names no search dimension is always answered 500, because the vector
    search object has no method that detects one.  With a supported
    dimension, a failure of the embedding is answered 500, and otherwise the
    answer is 200 after one query of the index: a failure of the index is
    not reported, the results are then empty. *)
Theorem search_endpoint_needs_a_dimension_and_hides_index_failures :
  forall (B : Type) (C : S3VectorsHandler.Client B) (embedder : Api.Embedder)
         (data : Api.search_request) (b : B),
    let text := PyStr.strip (Api.query_text data) in
    exists r tr,
      Api.search data b = (inr r, b, tr)
      /\ (Forall (fun ch => PyStr.isspace_char ch = true)
            (PyStr.chars (Api.query_text data)) <-> text = "")
      /\ (text = "" -> r = Api.error "Query text is required" 400 /\ tr = [])
      /\ (text <> "" ->
          match Api.search_dimension data with
          | None =>
              r = Api.error S3VectorSearch.no_detect_vector_dimension 500
              /\ tr = []
          | Some d =>
              if VectorStore.supported d
              then
                match Api.generate_embedding text d with
                | inl msg =>
                    r = Api.error ("Failed to generate query embedding: " ++ msg)
                          500
                    /\ tr = []
                | inr query_embedding =>
                    tr = [S3VectorsHandler.QueryVectors (Api.top_k data)]
                    /\ exists hits,
                         r = Api.Jsonify
                               [("success", Api.JBool true);
                                ("results", Api.JResults hits);
                                ("search_dimension", Api.JInt d)] 200
                         /\ Eff.result
                              (S3VectorSearch.search query_embedding
                                 (Api.top_k data) b) = inr hits
                end
              else
                r = Api.error ("Invalid search dimension: " ++ PyStr.of_Z d) 400
                /\ tr = []
          end).
Proof.
  intros B C embedder data b text. subst text. unfold Api.search.
  pose proof (strip_empty (Api.query_text data)) as Hblank.
  apply and_comm in Hblank. destruct Hblank as [Hb1 Hb2].
  destruct (String.eqb (PyStr.strip (Api.query_text data)) "") eqn:Hq.
  { apply String.eqb_eq in Hq. do 2 eexists. split; [reflexivity|].
    split; [now split|].
    split; [now split|]. intros Hne. now destruct Hne. }
  apply String.eqb_neq in Hq.
  destruct (Api.search_dimension data) as [d|].
  2:{ do 2 eexists. split; [reflexivity|]. split; [now split|].
      split; [intros E; now destruct Hq|]. now split. }
  assert (Hsup : existsb (Z.eqb d) [256; 384; 1024; 3072]
                 = VectorStore.supported d).
  { unfold VectorStore.supported. cbn [existsb]. now rewrite orb_false_r, !orb_assoc. }
  rewrite Hsup. destruct (VectorStore.supported d); cbn [negb].
  2:{ do 2 eexists. split; [reflexivity|]. split; [now split|].
      split; [intros E; now destruct Hq|]. now split. }
  destruct (Api.generate_embedding _ d) as [msg|emb].
  { do 2 eexists. split; [reflexivity|]. split; [now split|].
    split; [intros E; now destruct Hq|]. now split. }
  destruct (search_cases emb (Api.top_k data) b) as (hits & Hs & _).
  do 2 eexists. split.
  { unfold Eff.try_except. rewrite (bind_returns _ _ _ _ _ _ Hs). cbv beta.
    cbn. reflexivity. }
  split; [now split|].
  split; [intros E; now destruct Hq|]. intros _.
  split; [reflexivity|]. exists hits. split; [reflexivity|]. now rewrite Hs.
Qed.

(** X26 on a query that is an ideographic space U+3000 followed by a space:
    it is blank, and the answer is 400 whatever the rest of the request. *)
Lemma search_refuses_a_query_of_wide_spaces :
  forall (B : Type) (C : S3VectorsHandler.Client B) (embedder : Api.Embedder)
         (b : B) (k : Z) (d : option Z),
    Api.search {| Api.query_text := PyStr.of_bytes [227; 128; 128; 32]%nat;
                  Api.top_k := k;
                  Api.search_dimension := d |} b
    = (inr (Api.error "Query text is required" 400), b, []).
Proof. reflexivity. Qed.

(** X27.  [allowed_file] looks at what follows the last dot of the name, in
    lower case: a name without any dot is refused whatever the file type; for
    a name that ends with a dot and an extension without dot, the answer is
    whether the extension in lower case is one of those configured for the
    file type, and it is a [KeyError] when the file type is not one of
    image, video, audio and text. *)
Theorem allowed_file_checks_the_last_extension_in_lower_case :
  forall (stem extension file_type : string),
    Api.rsplit1 "."%char extension = None ->
    Api.allowed_file extension file_type = inr false
    /\ Api.allowed_file (stem ++ String "."%char extension) file_type
       = match Dict.get String.eqb file_type Api.ALLOWED_EXTENSIONS with
         | Some extensions =>
             inr (existsb (String.eqb (Api.lower extension)) extensions)
         | None => inl file_type
         end
    /\ (Api.allowed_file (stem ++ String "."%char extension) file_type = inr true ->
        In file_type ["image"; "video"; "audio"; "text"]).
Proof.
  intros stem extension file_type He.
  assert (Hd : Api.allowed_file (stem ++ String "."%char extension) file_type
               = match Dict.get String.eqb file_type Api.ALLOWED_EXTENSIONS with
                 | Some extensions =>
                     inr (existsb (String.eqb (Api.lower extension)) extensions)
                 | None => inl file_type
                 end).
  { unfold Api.allowed_file. now rewrite (rsplit1_last stem extension He). }
  split; [unfold Api.allowed_file; now rewrite He|]. split; [exact Hd|].
  rewrite Hd. unfold Api.ALLOWED_EXTENSIONS. cbn [Dict.get].
  destruct (String.eqb file_type "image") eqn:E1;
    [apply String.eqb_eq in E1; subst; cbn; tauto|].
  destruct (String.eqb file_type "video") eqn:E2;
    [apply String.eqb_eq in E2; subst; cbn; tauto|].
  destruct (String.eqb file_type "audio") eqn:E3;
    [apply String.eqb_eq in E3; subst; cbn; tauto|].
  destruct (String.eqb file_type "text") eqn:E4;
    [apply String.eqb_eq in E4; subst; cbn; tauto|].
  discriminate.
Qed.

(** X27 on a photograph whose name has two dots and an extension in upper
    case. *)
Lemma allowed_file_checks_the_last_extension_in_lower_case_witness :
  Api.allowed_file "photo.final.JPG" "image" = inr true.
Proof.
  exact (proj1 (proj2 (allowed_file_checks_the_last_extension_in_lower_case
                         "photo.final" "JPG" "image" eq_refl))).
Defined.

End EndpointFacts.

(* ================================================================== *)
(** * Searching a dimension that is not in memory, or not the target *)
Section LazySearch.
Import VectorStore.
Context {B : Type} `{S3Client B}.

Lemma dict_get_of_key {V} (k : Z) (d : zdict V) :
  In k (Dict.keys d) -> exists v, Dict.get Z.eqb k d = Some v.
Proof.
  intros Hin. apply dict_mem_keys in Hin. unfold Dict.mem in Hin.
  destruct (Dict.get Z.eqb k d) as [v|]; [eauto|discriminate].
Qed.

Lemma dict_key_of_get {V} (k : Z) (v : V) (d : zdict V) :
  Dict.get Z.eqb k d = Some v -> In k (Dict.keys d).
Proof. intros Hg. apply dict_get_keys in Hg. now apply (in_map fst) in Hg. Qed.

Lemma dict_get_of_id {V} (k : string) (d : sdict V) :
  In k (Dict.keys d) -> exists v, Dict.get String.eqb k d = Some v.
Proof.
  induction d as [|[id v] d IH]; [intros []|].
  cbn [Dict.keys map fst Dict.get]. intros Hin.
  destruct (String.eqb k id) eqn:E; [eauto|].
  destruct Hin as [->|Hin]; [now rewrite String.eqb_refl in E|now apply IH].
Qed.

Lemma search_unloaded (st : store B) (q : vector) (k : Z) :
  let d := Z.of_nat (List.length q) in
  Dict.get Z.eqb d (vectors_by_dimension st) = Some [] ->
  exists st' tr vectors,
    load_vectors_by_dimension d st = (inr tt, st', S3List (prefix_of d) :: tr)
    /\ Dict.get Z.eqb d (vectors_by_dimension st') = Some vectors
    /\ search q k None st
       = (inr (PyList.slice_to k
                 (PyList.sort_desc similarity
                    (similarities_of (metadata st') q vectors))),
          st', S3List (prefix_of d) :: tr).
Proof.
  intros d Hg.
  destruct (load_shape d st) as (st' & tr & Hl & _).
  assert (Hk : Dict.keys (vectors_by_dimension st')
               = Dict.keys (vectors_by_dimension st)).
  { pose proof (keeps_load d st) as Hk. rewrite Hl in Hk. exact Hk. }
  destruct (dict_get_of_key d (vectors_by_dimension st')) as (vectors & Hg').
  { rewrite Hk. exact (dict_key_of_get _ _ _ Hg). }
  exists st', tr, vectors. split; [exact Hl|]. split; [exact Hg'|].
  unfold search. fold d.
  erewrite bind_returns by reflexivity. cbv beta.
  rewrite (bind_returns _ _ _ _ _ _ (shard_of_present st d [] Hg)). cbv beta.
  unfold Eff.when.
  rewrite (bind_returns _ _ _ _ _ _ Hl). cbv beta.
  rewrite (bind_returns _ _ _ _ _ _ (shard_of_present st' d vectors Hg')).
  cbv beta.
  destruct vectors as [|item vectors].
  - cbn [Eff.after Eff.ret app similarities_of PyList.sort_desc fold_right].
    rewrite app_nil_r. unfold PyList.slice_to.
    now destruct (0 <=? k); rewrite firstn_nil.
  - erewrite bind_returns by reflexivity. cbv beta.
    cbn [Eff.after Eff.ret app]. now rewrite !app_nil_r.
Qed.

End LazySearch.

(** X28.  A search in a dimension whose shard is empty in memory loads the
    dimension first: it sends one listing request for the prefix of the
    dimension, reads documents and sets entries in memory, never writes to
    the bucket, and then answers from what was loaded; when the listing
    raises or has no contents, the answer is the empty list and the store is
    as before. *)
Theorem search_of_an_empty_shard_loads_it_from_s3 :
  forall (B : Type) (C : VectorStore.S3Client B) (st : VectorStore.store B)
         (query_vector : vector) (top_k : Z),
    let d := Z.of_nat (List.length query_vector) in
    Dict.get Z.eqb d (VectorStore.vectors_by_dimension st) = Some [] ->
    exists hits st' tr,
      VectorStore.search query_vector top_k None st
      = (inr hits, st', VectorStore.S3List (VectorStore.prefix_of d) :: tr)
      /\ Forall VectorStore.loads tr
      /\ VectorStore.bucket st' = VectorStore.bucket st
      /\ (forall h, In h hits ->
            exists v, VectorStore.stored st' d (VectorStore.hit_id h) = Some v)
      /\ match VectorStore.list_objects_v2 (VectorStore.bucket st)
                 (VectorStore.prefix_of d) with
         | inr (Some _) => True
         | _ => hits = [] /\ st' = st /\ tr = []
         end.
Proof.
  intros B C st q k d Hg.
  destruct (search_unloaded st q k Hg) as (st' & tr & vectors & Hl & Hg' & Hs).
  destruct (load_shape d st) as (st2 & tr2 & Hl2 & Hb & Hev & Hcase).
  fold d in Hl, Hg', Hs. rewrite Hl in Hl2. injection Hl2 as <- <-.
  eexists. exists st', tr. split; [exact Hs|]. split; [exact Hev|].
  split; [exact Hb|]. split.
  - intros h Hh. apply slice_to_incl in Hh.
    apply (Permutation_in h (sort_desc_perm _ _)) in Hh.
    apply similarities_of_ids in Hh.
    unfold VectorStore.stored. rewrite Hg'.
    now apply dict_get_of_id.
  - destruct (VectorStore.list_objects_v2 _ _) as [msg|[keys|]]; [|exact I|].
    + destruct Hcase as (-> & ->). rewrite Hg in Hg'. injection Hg' as <-.
      split; [|now split]. cbn. unfold PyList.slice_to.
      destruct (0 <=? k); apply firstn_nil.
    + destruct Hcase as (-> & ->). rewrite Hg in Hg'. injection Hg' as <-.
      split; [|now split]. cbn. unfold PyList.slice_to.
      destruct (0 <=? k); apply firstn_nil.
Qed.

(** X28 on a store that was just created over an empty bucket. *)
Lemma search_of_an_empty_shard_loads_it_from_s3_witness :
  exists hits st' tr,
    VectorStore.search (Examples.v256 Examples.f1) 5 None
      (VectorStore.init Examples.empty_online)
    = (inr hits, st', VectorStore.S3List "vectors/256/" :: tr)
    /\ Forall VectorStore.loads tr
    /\ VectorStore.bucket st' = Examples.empty_online.
Proof.
  destruct (search_of_an_empty_shard_loads_it_from_s3 _ _
              (VectorStore.init Examples.empty_online)
              (Examples.v256 Examples.f1) 5 eq_refl)
    as (hits & st' & tr & Hs & Hev & Hb & _).
  exists hits, st', tr. now repeat split.
Defined.

(* ================================================================== *)
(** * What [search] returns *)
Section SearchResult.
Import VectorStore.
Context {B : Type} `{S3Client B}.

(** every hit of the loop is the cosine similarity of the query and of the
    vector of the shard that stands under its id *)
Lemma similarities_of_sound md (q : vector) (vs : shard) :
  Forall (fun h =>
            exists v,
              In (hit_id h, v) vs
              /\ cosine_similarity q v = inr (similarity h)
              /\ hit_metadata h = match Dict.get String.eqb (hit_id h) md with
                                  | Some m => m
                                  | None => []
                                  end)
         (similarities_of md q vs).
Proof.
  induction vs as [|[id v] vs IH]; cbn [similarities_of]; [constructor|].
  assert (IH' : Forall (fun h =>
            exists v0,
              In (hit_id h, v0) ((id, v) :: vs)
              /\ cosine_similarity q v0 = inr (similarity h)
              /\ hit_metadata h = match Dict.get String.eqb (hit_id h) md with
                                  | Some m => m
                                  | None => []
                                  end)
         (similarities_of md q vs)).
  { eapply Forall_impl; [|exact IH]. intros h (v0 & Hin & Hrest).
    exists v0. split; [now right|exact Hrest]. }
  destruct (cosine_similarity q v) as [e|sim] eqn:Hc; [exact IH'|].
  destruct (negb _); [|exact IH'].
  constructor; [|exact IH'].
  exists v. cbn [hit_id similarity hit_metadata].
  split; [now left|]. now split.
Qed.

(** no vector whose similarity is computed is passed over *)
Lemma similarities_of_complete md (q : vector) (vs : shard) id v x :
  In (id, v) vs ->
  cosine_similarity q v = inr x ->
  exists h, In h (similarities_of md q vs)
            /\ hit_id h = id /\ similarity h = x.
Proof.
  intros Hin Hx. induction vs as [|[id' v'] vs IH]; [destruct Hin|].
  cbn [similarities_of].
  destruct Hin as [[= -> ->]|Hin].
  - rewrite Hx.
    destruct (cosine_returns_finite q v x Hx) as [Hn Hi]. rewrite Hn, Hi.
    cbn [negb orb]. eexists. split; [left; reflexivity|]. now split.
  - destruct (IH Hin) as (h & Hh & Hid & Hs).
    exists h. split; [|now split].
    destruct (cosine_similarity q v') as [e|y]; [exact Hh|].
    destruct (negb _); [now right|exact Hh].
Qed.

End SearchResult.

(** C8.  On a store whose shards are those of [__init__], for every query
    vector of a supported dimension, every target dimension that is absent
    or equal to the length of the query, and every [top_k >= 0], [search]
    returns, and with [vectors] the shard of the query's dimension after the
    call:
      - it returns at most [top_k] results;
      - the results are ordered by non-increasing similarity;
      - no similarity is NaN or infinite;
      - the similarity of a result is what [cosine_similarity] returns for
        the query and the vector that the shard holds under the id of the
        result, and its metadata is the entry of that id, or empty;
      - the results are the best: a vector of the shard whose similarity is
        computed is among the results, unless [top_k] results are returned
        that are all at least as similar;
      - of two results with equal similarity the one that stands first in
        the result is the one whose id stands first in the shard, that is,
        was inserted first. *)
Theorem search_returns_best_finite_hits :
  forall (B : Type) (C : VectorStore.S3Client B) (st : VectorStore.store B)
         (query_vector : vector) (top_k : Z) (target_dimension : option Z),
    let d := Z.of_nat (List.length query_vector) in
    VectorStore.well_formed st ->
    VectorStore.supported d = true ->
    target_dimension = None \/ target_dimension = Some d ->
    0 <= top_k ->
    exists hits st' tr vectors,
      VectorStore.search query_vector top_k target_dimension st
      = (inr hits, st', tr)
      /\ Dict.get Z.eqb d (VectorStore.vectors_by_dimension st') = Some vectors
      /\ Z.of_nat (List.length hits) <= top_k
      /\ StronglySorted (PyList.ge_key VectorStore.similarity) hits
      /\ Forall (fun h => PyFloat.finite (VectorStore.similarity h)) hits
      /\ Forall (fun h =>
                   exists v,
                     In (VectorStore.hit_id h, v) vectors
                     /\ VectorStore.cosine_similarity query_vector v
                        = inr (VectorStore.similarity h)
                     /\ VectorStore.hit_metadata h
                        = match Dict.get String.eqb (VectorStore.hit_id h)
                                  (VectorStore.metadata st') with
                          | Some m => m
                          | None => []
                          end) hits
      /\ (forall id v x,
            In (id, v) vectors ->
            VectorStore.cosine_similarity query_vector v = inr x ->
            (exists h, In h hits /\ VectorStore.hit_id h = id
                       /\ VectorStore.similarity h = x)
            \/ (Z.of_nat (List.length hits) = top_k
                /\ Forall (fun h =>
                             PyFloat.geb (VectorStore.similarity h) x = true)
                     hits))
      /\ (forall h1 h2,
            PyList.before h1 h2 hits ->
            PyFloat.eqb (VectorStore.similarity h1) (VectorStore.similarity h2)
            = true ->
            PyList.before (VectorStore.hit_id h1) (VectorStore.hit_id h2)
              (Dict.keys vectors)).
Proof.
  intros B C st q k target d Hw Hs Ht Hk.
  destruct (search_runs st q k target Hw Hs Ht) as (st' & tr & vectors & Hrun & Hg).
  set (sims := VectorStore.similarities_of (VectorStore.metadata st') q vectors)
    in *.
  pose proof (similarities_of_finite (VectorStore.metadata st') q vectors)
    as Hfin. fold sims in Hfin.
  assert (Hnn : Forall (PyList.not_nan VectorStore.similarity) sims).
  { eapply Forall_impl; [|exact Hfin]. intros h Hh. exact (proj1 Hh). }
  set (sorted := PyList.sort_desc VectorStore.similarity sims) in *.
  assert (Hslice : PyList.slice_to k sorted = firstn (Z.to_nat k) sorted).
  { unfold PyList.slice_to. now replace (0 <=? k) with true by lia. }
  assert (Hsorted : StronglySorted (PyList.ge_key VectorStore.similarity) sorted)
    by (apply sort_desc_strongly_sorted, Hnn).
  assert (Hsub : forall h, In h (firstn (Z.to_nat k) sorted) -> In h sims).
  { intros h Hh. eapply Permutation_in; [apply sort_desc_perm|].
    rewrite <- (firstn_skipn (Z.to_nat k) (PyList.sort_desc _ sims)).
    apply in_or_app. left. exact Hh. }
  exists (PyList.slice_to k sorted), st', tr, vectors.
  split; [exact Hrun|]. split; [exact Hg|].
  split; [now apply slice_to_length|].
  rewrite Hslice.
  split; [now apply strongly_sorted_firstn|].
  split; [rewrite Forall_forall in *; intros h Hh; apply Hfin, Hsub, Hh|].
  split.
  { pose proof (similarities_of_sound (VectorStore.metadata st') q vectors)
      as Hsound. fold sims in Hsound.
    rewrite Forall_forall in *. intros h Hh. apply Hsound, Hsub, Hh. }
  split.
  - intros id v x Hin Hx.
    destruct (similarities_of_complete (VectorStore.metadata st') q vectors
                id v x Hin Hx) as (h & Hh & Hid & Hsim).
    fold sims in Hh.
    assert (Hh' : In h sorted).
    { eapply Permutation_in; [symmetry; apply sort_desc_perm|exact Hh]. }
    rewrite <- (firstn_skipn (Z.to_nat k) sorted) in Hh'.
    apply in_app_or in Hh' as [Hh'|Hh'].
    + left. exists h. now split.
    + right. split.
      * rewrite length_firstn.
        assert (Z.to_nat k < List.length sorted)%nat.
        { destruct (Nat.lt_ge_cases (Z.to_nat k) (List.length sorted))
            as [Hlt|Hge]; [exact Hlt|].
          rewrite skipn_all2 in Hh' by exact Hge. destruct Hh'. }
        lia.
      * apply Forall_forall. intros h0 Hh0. rewrite <- Hsim.
        exact (strongly_sorted_split _ _ _ Hsorted h0 h Hh0 Hh').
  - intros h1 h2 Hb He.
    apply (similarities_of_order (VectorStore.metadata st') q).
    fold sims. apply (sort_desc_stable VectorStore.similarity); [exact Hnn| |exact He].
    eapply before_firstn; exact Hb.
Qed.

(** C8 on a store that holds ["a"] and ["b"], for [top_k = 1]. *)
Lemma search_returns_best_finite_hits_witness :
  exists hits st' tr vectors,
    VectorStore.search (Examples.v256 Examples.f1) 1 None Examples.store_ab
    = (inr hits, st', tr)
    /\ Dict.get Z.eqb 256 (VectorStore.vectors_by_dimension st') = Some vectors
    /\ Z.of_nat (List.length hits) <= 1
    /\ StronglySorted (PyList.ge_key VectorStore.similarity) hits
    /\ Forall (fun h => PyFloat.finite (VectorStore.similarity h)) hits
    /\ Forall (fun h =>
                 exists v,
                   In (VectorStore.hit_id h, v) vectors
                   /\ VectorStore.cosine_similarity (Examples.v256 Examples.f1) v
                      = inr (VectorStore.similarity h)
                   /\ VectorStore.hit_metadata h
                      = match Dict.get String.eqb (VectorStore.hit_id h)
                                (VectorStore.metadata st') with
                        | Some m => m
                        | None => []
                        end) hits
    /\ (forall id v x,
          In (id, v) vectors ->
          VectorStore.cosine_similarity (Examples.v256 Examples.f1) v = inr x ->
          (exists h, In h hits /\ VectorStore.hit_id h = id
                     /\ VectorStore.similarity h = x)
          \/ (Z.of_nat (List.length hits) = 1
              /\ Forall (fun h =>
                           PyFloat.geb (VectorStore.similarity h) x = true)
                   hits))
    /\ (forall h1 h2,
          PyList.before h1 h2 hits ->
          PyFloat.eqb (VectorStore.similarity h1) (VectorStore.similarity h2)
          = true ->
          PyList.before (VectorStore.hit_id h1) (VectorStore.hit_id h2)
            (Dict.keys vectors)).
Proof.
  apply (search_returns_best_finite_hits _ _ Examples.store_ab
           (Examples.v256 Examples.f1) 1 None).
  - reflexivity.
  - reflexivity.
  - left. reflexivity.
  - discriminate.
Defined.

(* ================================================================== *)
(** * What the deduplication keeps *)
Section KeptFacts.
Import Highlight.
Context {services : Services}.

Lemma overlaps_sym (a b : selected) : overlaps a b = overlaps b a.
Proof.
  unfold overlaps. now replace (start a - start b) with (- (start b - start a))
    by lia; rewrite Z.abs_opp.
Qed.

Lemma idx_apart_of_nodup (p l : list selected) c s :
  NoDup (map idx (p ++ c :: l)) -> In s p -> idx s <> idx c.
Proof.
  rewrite map_app. cbn [map]. intros Hn Hs E.
  apply NoDup_remove_2 in Hn. apply Hn, in_or_app. left.
  rewrite <- E. now apply in_map.
Qed.

(** a clip that one turn of the loop drops or removes lost to a clip within
    the window that is at least as similar *)
Lemma consider_beaten (filtered : list selected) c x :
  (forall s, In s filtered -> idx s <> idx c) ->
  (forall s, In s filtered -> PyFloat.isnan (similarity s) = false) ->
  PyFloat.isnan (similarity c) = false ->
  In x filtered \/ x = c ->
  In x (consider filtered c)
  \/ exists v, (In v filtered \/ v = c)
               /\ idx v <> idx x
               /\ overlaps x v = true
               /\ PyFloat.geb (similarity v) (similarity x) = true.
Proof.
  intros Hidx Hnan Hc Hx. unfold consider.
  destruct (first_overlap c filtered) as [[[before s] after]|] eqn:Hf.
  - destruct (first_overlap_some _ _ _ _ _ Hf) as (E & Ho).
    assert (Hs : In s filtered) by (rewrite E; apply in_or_app; right; now left).
    destruct (PyFloat.gtb (similarity c) (similarity s)) eqn:Hg.
    + destruct Hx as [Hx| ->].
      * rewrite E in Hx. apply in_app_or in Hx as [Hx|[<-|Hx]].
        -- left. apply in_or_app. now left.
        -- right. exists c. split; [now right|].
           split; [intros E'; now apply (Hidx s Hs)|].
           split; [now rewrite overlaps_sym|].
           now apply float_lt_ge.
        -- left. apply in_or_app. right. apply in_or_app. now left.
      * left. apply in_or_app. right. apply in_or_app. right. now left.
    + destruct Hx as [Hx| ->]; [now left|].
      right. exists s. split; [now left|].
      split; [now apply Hidx|]. split; [exact Ho|].
      apply float_not_lt_ge; [now apply Hnan|exact Hc|exact Hg].
  - left. apply in_or_app. destruct Hx as [Hx| ->]; [now left|right; now left].
Qed.

Lemma fold_beaten (l : list selected) : forall p acc,
  NoDup (map idx (p ++ l)) ->
  incl acc p ->
  (forall x, In x (p ++ l) -> PyFloat.isnan (similarity x) = false) ->
  forall x, In x acc \/ In x l ->
    In x (fold_left consider l acc)
    \/ exists v, In v (p ++ l)
                 /\ idx v <> idx x
                 /\ overlaps x v = true
                 /\ PyFloat.geb (similarity v) (similarity x) = true.
Proof.
  induction l as [|c l IH]; intros p acc Hn Hacc Hnan x Hx.
  - left. destruct Hx as [Hx|[]]. exact Hx.
  - cbn [fold_left].
    assert (E : p ++ c :: l = (p ++ [c]) ++ l)
      by (now rewrite <- app_assoc).
    assert (Hacc' : incl (consider acc c) (p ++ [c])).
    { intros y Hy. apply in_or_app.
      destruct (consider_in _ _ _ Hy) as [->|Hy']; [right; now left|].
      left. now apply Hacc. }
    assert (Hstep : In x acc \/ x = c ->
              In x (consider acc c)
              \/ exists v, In v (p ++ c :: l)
                           /\ idx v <> idx x
                           /\ overlaps x v = true
                           /\ PyFloat.geb (similarity v) (similarity x) = true).
    { intros Hx'.
      destruct (consider_beaten acc c x) as [Hin|(v & Hv & Hrest)];
        [ intros s Hs; apply (idx_apart_of_nodup p l c s Hn), Hacc, Hs
        | intros s Hs; apply Hnan, in_or_app; left; now apply Hacc
        | apply Hnan, in_or_app; right; now left
        | exact Hx' | now left |].
      right. exists v. split; [|exact Hrest].
      apply in_or_app. destruct Hv as [Hv| ->]; [left; now apply Hacc|].
      right. now left. }
    rewrite E in Hn, Hnan.
    destruct Hx as [Hx|[<-|Hx]].
    + destruct (Hstep (or_introl Hx)) as [Hin|Hb]; [|now right].
      rewrite E. apply (IH (p ++ [c]) _ Hn Hacc' Hnan). now left.
    + destruct (Hstep (or_intror eq_refl)) as [Hin|Hb]; [|now right].
      rewrite E. apply (IH (p ++ [c]) _ Hn Hacc' Hnan). now left.
    + rewrite E. apply (IH (p ++ [c]) _ Hn Hacc' Hnan). now right.
Qed.

(** every selected clip has its index in the deduplicated list, unless the
    clip that stands for its index lost to a clip of another index within
    the window that is at least as similar *)
Lemma deduplicate_beaten (sel : list selected) c :
  (forall x, In x sel -> PyFloat.isnan (similarity x) = false) ->
  In c sel ->
  (exists r, In r (deduplicate sel) /\ idx r = idx c)
  \/ exists u v,
       In u sel /\ In v sel
       /\ idx u = idx c
       /\ idx v <> idx u
       /\ overlaps u v = true
       /\ PyFloat.geb (similarity v) (similarity u) = true.
Proof.
  intros Hnan Hc.
  set (sorted := PyList.sort_asc start sel).
  set (unique := unique_clips [] sorted).
  assert (Hsub : forall x, In x unique -> In x sel).
  { intros x Hx. apply unique_clips_in in Hx.
    eapply Permutation_in; [apply sort_asc_perm|exact Hx]. }
  assert (Hcs : In c sorted).
  { eapply Permutation_in; [symmetry; apply sort_asc_perm|exact Hc]. }
  destruct (unique_clips_covers sorted [] c Hcs) as [[]|Hi].
  fold unique in Hi. apply in_map_iff in Hi as (u & Hu & Hin).
  destruct (fold_beaten unique [] [] (unique_clips_nodup [] sorted)
              (incl_refl _) (fun x Hx => Hnan x (Hsub x Hx)) u
              (or_intror Hin)) as [Hk|(v & Hv & Hrest)].
  - left. exists u. split; [|exact Hu].
    unfold deduplicate. fold sorted unique.
    eapply Permutation_in; [symmetry; apply sort_asc_perm|exact Hk].
  - right. exists u, v. split; [now apply Hsub|]. split; [now apply Hsub|].
    split; [exact Hu|exact Hrest].
Qed.

Lemma forall2_in_l {X Y} (R : X -> Y -> Prop) (l : list X) (r : list Y) x :
  Forall2 R l r -> In x l -> exists y, In y r /\ R x y.
Proof.
  induction 1 as [|a b l r Hab _ IH]; [intros []|].
  intros [<-|Hin].
  - exists b. split; [now left|exact Hab].
  - destruct (IH Hin) as (y & Hy & Hr). exists y. split; [now right|exact Hr].
Qed.

End KeptFacts.

(** C1.  Whenever [match_clips] returns a selection [result], with
    [selected_clips] the clips selected for the points and [unique] those of
    them that the first step of the deduplication keeps, in start order:
      - the start offsets of [result] are in ascending order, no segment
        index occurs twice in it, and no two of its start offsets differ by
        less than the overlap window of 3;
      - [result] is the deduplicated selection, each clip with its file: it
        holds the clips that the overlap loop has accepted after its last
        turn, and every clip of [result] is a selected clip;
      - no selected clip is lost without a more similar neighbour: the index
        of a selected clip is in [result], unless the clip that stands for
        this index lost to a selected clip of another index that starts
        within the window and is at least as similar;
      - at every turn of the overlap loop, when the clip [c] being
        considered is within the window of an accepted clip [s], the one
        with the higher similarity is the one kept: [c] when its similarity
        is strictly higher, and [s] otherwise. *)
Theorem match_clips_selection_is_sorted_distinct_and_spaced :
  forall (S : Highlight.Services) (analysis : string)
         (clips : list Highlight.clip) (threshold : PyFloat.float)
         (top_k_per_point : Z) (result : list Highlight.selected),
    Highlight.match_clips analysis clips threshold top_k_per_point
    = inr result ->
    exists selected_clips : list Highlight.selected,
      let unique :=
        Highlight.unique_clips []
          (PyList.sort_asc Highlight.start selected_clips) in
      Highlight.select_clips threshold top_k_per_point
        (Highlight.valid_clips clips) (Highlight.extract_points analysis)
      = inr selected_clips
      /\ StronglySorted Z.le (map Highlight.start result)
      /\ NoDup (map Highlight.idx result)
      /\ ForallOrdPairs Highlight.offsets_apart (map Highlight.start result)
      /\ Forall2 Highlight.with_file
           (Highlight.deduplicate selected_clips) result
      /\ Permutation (Highlight.deduplicate selected_clips)
           (Highlight.accepted unique)
      /\ (forall r, In r result ->
            exists c, In c selected_clips /\ Highlight.with_file c r)
      /\ (forall c, In c selected_clips ->
            (exists r, In r result /\ Highlight.idx r = Highlight.idx c)
            \/ exists u v,
                 In u selected_clips /\ In v selected_clips
                 /\ Highlight.idx u = Highlight.idx c
                 /\ Highlight.idx v <> Highlight.idx u
                 /\ Highlight.overlaps u v = true
                 /\ PyFloat.geb (Highlight.similarity v)
                      (Highlight.similarity u) = true)
      /\ (forall (p rest : list Highlight.selected) (c s : Highlight.selected),
            unique = p ++ c :: rest ->
            In s (Highlight.accepted p) ->
            Highlight.overlaps c s = true ->
            if PyFloat.gtb (Highlight.similarity c) (Highlight.similarity s)
            then In c (Highlight.accepted (p ++ [c]))
                 /\ ~ In s (Highlight.accepted (p ++ [c]))
            else In s (Highlight.accepted (p ++ [c]))
                 /\ ~ In c (Highlight.accepted (p ++ [c]))).
Proof.
  intros S analysis clips threshold top_k result Hm.
  destruct (match_clips_origin _ _ _ _ _ Hm) as (sel & Hsel & Hf & Hmatched & _).
  exists sel. cbv zeta. split; [exact Hsel|].
  assert (Hkeep : map Highlight.start result
                  = map Highlight.start (Highlight.deduplicate sel)
                  /\ map Highlight.idx result
                     = map Highlight.idx (Highlight.deduplicate sel)).
  { unfold Highlight.match_clips, Highlight.bindE in Hm. rewrite Hsel in Hm.
    exact (materialize_keeps _ _ Hm). }
  destruct Hkeep as [Hstart Hidx]. rewrite Hstart, Hidx.
  destruct (deduplicate_spec sel) as (H1 & H2 & H3).
  split; [exact H1|]. split; [exact H2|]. split; [exact H3|].
  split; [exact Hf|].
  split; [unfold Highlight.deduplicate; apply sort_asc_perm|].
  split.
  { intros r Hr. destruct (forall2_in_r _ _ _ _ Hf Hr) as (c & Hc & Hw).
    exists c. split; [now apply deduplicate_in|exact Hw]. }
  split.
  - intros c Hc.
    destruct (deduplicate_beaten sel c) as [(r & Hr & Hi)|Hb];
      [|exact Hc| |now right].
    + intros x Hx. rewrite Forall_forall in Hmatched.
      destruct (Hmatched x Hx) as (_ & Hg & _).
      exact (gtb_not_nan _ _ Hg).
    + left. destruct (forall2_in_l _ _ _ _ Hf Hr) as (r' & Hr' & Hw).
      exists r'. split; [exact Hr'|].
      destruct (with_file_keeps _ _ Hw) as (_ & _ & Hi' & _). congruence.
  - intros p rest c s. apply overlap_keeps_more_similar.
Qed.

(** C1 on three segments that start at 0, 2 and 9, all selected for one
    point: the segment at 2 replaces the less similar one at 0, and the
    selection returned holds the segments at 2 and 9. *)
Lemma match_clips_selection_is_sorted_distinct_and_spaced_witness :
  exists result : list Highlight.selected,
    Highlight.match_clips (services := Examples.scripted Examples.all_fine)
      "A. x" Examples.near_clips Highlight.default_threshold 3 = inr result
    /\ map Highlight.idx result = [1; 2]
    /\ map Highlight.start result = [2; 9]
    /\ StronglySorted Z.le (map Highlight.start result)
    /\ NoDup (map Highlight.idx result)
    /\ ForallOrdPairs Highlight.offsets_apart (map Highlight.start result)
    /\ (In Examples.pick1 (Highlight.accepted [Examples.pick0; Examples.pick1])
        /\ ~ In Examples.pick0
               (Highlight.accepted [Examples.pick0; Examples.pick1])).
Proof.
  destruct (Highlight.match_clips
              (services := Examples.scripted Examples.all_fine)
              "A. x" Examples.near_clips Highlight.default_threshold 3)
    as [e|result] eqn:Hm; [vm_compute in Hm; discriminate|].
  exists result. split; [reflexivity|].
  destruct (match_clips_selection_is_sorted_distinct_and_spaced
              (Examples.scripted Examples.all_fine) "A. x"
              Examples.near_clips Highlight.default_threshold 3 result Hm)
    as (sel & Hsel & H1 & H2 & H3 & _ & _ & _ & _ & Hstep).
  assert (Hr : map Highlight.idx result = [1; 2]
               /\ map Highlight.start result = [2; 9]).
  { vm_compute in Hm. injection Hm as <-. split; reflexivity. }
  destruct Hr as [Hi Hs].
  split; [exact Hi|]. split; [exact Hs|].
  split; [exact H1|]. split; [exact H2|]. split; [exact H3|].
  assert (Hsel' : sel = [Examples.pick2; Examples.pick1; Examples.pick0]).
  { vm_compute in Hsel. injection Hsel as <-. vm_compute. reflexivity. }
  subst sel.
  exact (Hstep [Examples.pick0] [Examples.pick2] Examples.pick1 Examples.pick0
           eq_refl (or_introl eq_refl) eq_refl).
Defined.
